(** * The quiz-taking controller of maths_story

    A shallow embedding of the [QuizInterface] React component, in its two
    copies:

    - [frontend/src/pages/QuizInterface.js]              (module [Legacy])
    - [maths_story/frontend/src/pages/QuizInterface.js]  (module [Current])

    The component state is a record of the [useState] cells; the browser
    around it (sessionStorage, the router, the toast queue, the requests
    handed to [api.post]) is a record [World].  Handlers are functions
    [World -> World]; the asynchronous [submitQuiz] is split at its [await].
    Every [Date.now()] reading is an argument of the handler that takes it.

    Around the question page, the pages that hand the session over to it
    and take it over from it are embedded in the same way:

    - [QuizSelection] and [DarkModeToggle] of
      [maths_story/frontend/src/components/DarkModeToggle.js]
    - [maths_story/frontend/src/pages/Results.js]        (module [Results])
    - [App] and the results page of [frontend/src/App.js]
      (modules [App] and [LegacyResults]) *)

From Stdlib Require Import Ascii String ZArith QArith Lia Lqa.
From stdpp Require Import base option list gmap strings.

Local Open Scope Z_scope.
Local Open Scope nat_scope.
Local Open Scope string_scope.
Local Open Scope list_scope.

(** ** JavaScript strings

    A [string] stands for a sequence of UTF-16 code units; an [ascii] is a
    code unit below 256. *)

(** WhiteSpace and LineTerminator code units (below 256) that
    [String.prototype.trim] strips: TAB, LF, VT, FF, CR, SP, NBSP. *)
Definition isWhiteSpace (c : ascii) : bool :=
  let n := nat_of_ascii c in
  ((n =? 9) || (n =? 10) || (n =? 11) || (n =? 12) || (n =? 13)
   || (n =? 32) || (n =? 160))%nat.

Fixpoint trimStart (s : string) : string :=
  match s with
  | EmptyString => EmptyString
  | String c s' => if isWhiteSpace c then trimStart s' else s
  end.

Fixpoint trimEnd (s : string) : string :=
  match s with
  | EmptyString => EmptyString
  | String c s' =>
      match trimEnd s' with
      | EmptyString => if isWhiteSpace c then EmptyString else String c EmptyString
      | t => String c t
      end
  end.

(** [s.trim()] *)
Definition trim (s : string) : string := trimEnd (trimStart s).

(** [!s] for a string: only the empty string is falsy. *)
Definition falsy (s : string) : bool :=
  match s with EmptyString => true | _ => false end.

(** [s.charAt(i)]: the code unit at [i] as a string, or the empty string. *)
Definition charAt (s : string) (i : nat) : string :=
  match String.get i s with
  | Some c => String c EmptyString
  | None => EmptyString
  end.

(** ** Quiz material and answer records *)

(** A question as the quiz-selection flow writes it:
    [{id, type, question, options?, hint?, story_context?}]. *)
Record Question := mkQuestion {
  id : string;
  type : string;
  question : string;
  options : option (list string);
  hint : option string;
  story_context : option string
}.

(** The stored quiz: [{id, subject, topic, mode?, questions}].  [questions]
    is [None] when the property is absent. *)
Record Quiz := mkQuiz {
  quiz_ident : string;
  subject : string;
  topic : string;
  mode : option string;
  questions : option (list Question)
}.

(** [answerData]: [time_taken] is [(Date.now() - questionStartTime) / 1000],
    kept as the exact quotient of the millisecond difference by 1000. *)
Record AnswerData := mkAnswerData {
  question_id : string;
  user_answer : string;
  time_taken : Q;
  is_correct : bool
}.

(** The call [api.post(url, {quiz_id, answers})]; [sent_answers] is the
    [answers] property of the body. *)
Record Request := mkRequest {
  url : string;
  quiz_id : string;
  sent_answers : list AnswerData
}.

(** What [JSON.parse] does with the text of the quiz slot: it throws, or it
    returns [null], or it returns an object read as a [Quiz]. *)
Inductive parsed :=
  | SyntaxError
  | JNull
  | JObject (q : Quiz).

(** The parts of the JavaScript runtime the component calls and that are not
    code of the application. *)
Class Runtime := {
  (** bodies of HTTP responses ([response.data]) *)
  json : Type;
  JSON_parse : string -> parsed;
  JSON_stringify : json -> string;
  (** the text that [`${result.id}`] interpolates; [None] when [result] is
      [null] or [undefined] and the property access throws *)
  result_id : json -> option string
}.

(** How the promise of [api.post] settles. *)
Inductive settled `{Runtime} :=
  | Fulfilled (data : json)
  | Rejected.

(** ** The browser around the component *)

Record World (S : Type) := mkWorld {
  component : S;                          (* the useState cells *)
  quizId : string;                        (* useParams().quizId *)
  sessionStorage : gmap string string;
  location : option string;               (* Some path once navigate(path) ran *)
  toasts : list string;                   (* toast.error messages, oldest first *)
  requests : list Request;                (* api.post calls, oldest first *)
  uncaught : list string                  (* exceptions no handler caught *)
}.
Arguments mkWorld {S}.
Arguments component {S}.
Arguments quizId {S}.
Arguments sessionStorage {S}.
Arguments location {S}.
Arguments toasts {S}.
Arguments requests {S}.
Arguments uncaught {S}.

Section Browser.
Context {S : Type}.
Implicit Type w : World S.

Definition setState (f : S -> S) w : World S :=
  mkWorld (f (component w)) (quizId w) (sessionStorage w) (location w)
          (toasts w) (requests w) (uncaught w).

(** [sessionStorage.getItem(k)] *)
Definition getItem (k : string) w : option string := sessionStorage w !! k.

(** [sessionStorage.setItem(k, v)] *)
Definition setItem (k v : string) w : World S :=
  mkWorld (component w) (quizId w) (<[k := v]> (sessionStorage w)) (location w)
          (toasts w) (requests w) (uncaught w).

(** [sessionStorage.removeItem(k)] *)
Definition removeItem (k : string) w : World S :=
  mkWorld (component w) (quizId w) (delete k (sessionStorage w)) (location w)
          (toasts w) (requests w) (uncaught w).

(** [navigate(path)] *)
Definition navigate (path : string) w : World S :=
  mkWorld (component w) (quizId w) (sessionStorage w) (Some path)
          (toasts w) (requests w) (uncaught w).

(** [toast.error(msg)] *)
Definition toast_error (msg : string) w : World S :=
  mkWorld (component w) (quizId w) (sessionStorage w) (location w)
          (toasts w ++ [msg]) (requests w) (uncaught w).

(** [api.post(u, {quiz_id: q, answers: a})] *)
Definition api_post (u q : string) (a : list AnswerData) w : World S :=
  mkWorld (component w) (quizId w) (sessionStorage w) (location w)
          (toasts w) (requests w ++ [mkRequest u q a]) (uncaught w).

(** an exception that reaches the top of the call stack *)
Definition throw (e : string) w : World S :=
  mkWorld (component w) (quizId w) (sessionStorage w) (location w)
          (toasts w) (requests w) (uncaught w ++ [e]).
End Browser.

(** The four statuses of the specification's state machine. *)
Inductive Status := Loading | Answering | Submitting | Terminated.

(** What the component renders. *)
Inductive Screen :=
  | LoadingState            (* the spinner, while loading or submitting *)
  | NoQuestionsAvailable    (* the "Generate New Quiz" fallback *)
  | QuestionCard (q : Question)
  | RenderThrows.           (* rendering reads a property of undefined *)

(** What the user and the network can do to a mounted component.
    [Change text] is [setUserAnswer(text)] as the text input calls it; the
    input is rendered for questions without options only, which the model
    does not enforce.  [Submit] is a call of [handleAnswerSubmit], by the
    button or by Enter in the input; the [disabled] attribute of the button
    is not a guard of the model either, the handler has its own check.  So
    the model allows every run the page allows. *)
Inductive event `{Runtime} :=
  | Change (text : string)
  | ClickOption (idx : nat)       (* the idx-th option button *)
  | ClickShowHint
  | Submit (now now' : Z)         (* readings of lines 59 and 75 *)
  | Settle (r : settled).         (* the pending api.post settles *)

(** The [Date.now()] readings an event hands to its handler, in order (the
    handler takes the second one only when it moves to the next question). *)
Definition readings `{Runtime} (e : event) : list Z :=
  match e with
  | Submit now now' => [now; now']
  | _ => []
  end.

(** [currentQuestion.type === "mcq" && currentQuestion.options] *)
Definition isMcq (q : Question) : option (list string) :=
  if String.eqb (type q) "mcq" then options q else None.

(** ** maths_story/frontend/src/pages/QuizInterface.js *)
Module Current.

Record State := mkState {
  quiz : option Quiz;
  currentIndex : nat;
  answers : list AnswerData;
  userAnswer : string;
  startTime : Z;
  questionStartTime : Z;
  submitting : bool;
  showHint : bool
}.

Definition setQuiz (v : option Quiz) (s : State) : State :=
  mkState v (currentIndex s) (answers s) (userAnswer s) (startTime s)
          (questionStartTime s) (submitting s) (showHint s).
Definition setCurrentIndex (v : nat) (s : State) : State :=
  mkState (quiz s) v (answers s) (userAnswer s) (startTime s)
          (questionStartTime s) (submitting s) (showHint s).
Definition setAnswers (v : list AnswerData) (s : State) : State :=
  mkState (quiz s) (currentIndex s) v (userAnswer s) (startTime s)
          (questionStartTime s) (submitting s) (showHint s).
Definition setUserAnswer (v : string) (s : State) : State :=
  mkState (quiz s) (currentIndex s) (answers s) v (startTime s)
          (questionStartTime s) (submitting s) (showHint s).
Definition setQuestionStartTime (v : Z) (s : State) : State :=
  mkState (quiz s) (currentIndex s) (answers s) (userAnswer s) (startTime s)
          v (submitting s) (showHint s).
Definition setSubmitting (v : bool) (s : State) : State :=
  mkState (quiz s) (currentIndex s) (answers s) (userAnswer s) (startTime s)
          (questionStartTime s) v (showHint s).
Definition setShowHint (v : bool) (s : State) : State :=
  mkState (quiz s) (currentIndex s) (answers s) (userAnswer s) (startTime s)
          (questionStartTime s) (submitting s) v.

Section Controller.
Context `{Runtime}.
Implicit Type w : World State.

(** The [useState] initialisers of the first render; [t0] and [t1] are
    the two [Date.now()] readings. *)
Definition initialState (t0 t1 : Z) : State :=
  mkState None 0 [] EmptyString t0 t1 false false.

Definition initialWorld (quizId : string) (storage : gmap string string)
           (t0 t1 : Z) : World State :=
  mkWorld (initialState t0 t1) quizId storage None [] [] [].

(** The effect that loads the quiz (lines 24-45).  [now] is the reading
    of line 35, taken on the successful path only. *)
Definition loadQuiz (now : Z) w : World State :=
  match getItem "currentQuiz" w with
  | Some storedQuiz =>
      if falsy storedQuiz
      then navigate "/quiz/select" (toast_error "Quiz not found" w)
      else
        match JSON_parse storedQuiz with
        | JObject parsedQuiz =>
            if match questions parsedQuiz with
               | None => true
               | Some qs => (length qs =? 0)%nat
               end
            then navigate "/quiz/select" (toast_error "Quiz has no questions" w)
            else setState (setQuestionStartTime now)
                          (setState (setQuiz (Some parsedQuiz)) w)
        | SyntaxError | JNull =>
            navigate "/quiz/select" (toast_error "Failed to load quiz" w)
        end
  | None => navigate "/quiz/select" (toast_error "Quiz not found" w)
  end.

(** Mounting the page: first render, then the load effect. *)
Definition mount (quizId : string) (storage : gmap string string)
           (t0 t1 now : Z) : World State :=
  loadQuiz now (initialWorld quizId storage t0 t1).

(** [submitQuiz] up to its [await] (lines 81-87). *)
Definition submitQuiz (allAnswers : list AnswerData) w : World State :=
  api_post "/quiz/submit" (quizId w) allAnswers
           (setState (setSubmitting true) w).

(** [submitQuiz] after its [await] (lines 89-97). *)
Definition submitQuiz_settled (r : settled) w : World State :=
  let failed w := setState (setSubmitting false)
                           (toast_error "Failed to submit quiz" w) in
  match r with
  | Fulfilled result =>
      let w1 := setItem "quizResult" (JSON_stringify result) w in
      let w2 := removeItem "currentQuiz" w1 in
      match result_id result with
      | Some i => navigate ("/results/" +:+ i) w2
      | None => failed w2
      end
  | Rejected => failed w
  end.

(** [handleAnswerSubmit] (lines 53-79); [now] is the reading of line 59
    and [now'] the one of line 75. *)
Definition handleAnswerSubmit (now now' : Z) w : World State :=
  let s := component w in
  if falsy (trim (userAnswer s))
  then toast_error "Please provide an answer" w
  else
    let timeTaken := Qmake (now - questionStartTime s) 1000 in
    match quiz s ≫= questions with
    | None => throw "TypeError" w
    | Some qs =>
        match qs !! currentIndex s with
        | None => throw "TypeError" w
        | Some currentQuestion =>
            let answerData :=
              mkAnswerData (id currentQuestion) (userAnswer s) timeTaken false in
            let w1 := setState (setAnswers (answers s ++ [answerData])) w in
            let w2 := setState (setUserAnswer EmptyString) w1 in
            let w3 := setState (setShowHint false) w2 in
            if (Z.of_nat (currentIndex s) <? Z.of_nat (length qs) - 1)%Z
            then setState (setQuestionStartTime now')
                          (setState (setCurrentIndex (currentIndex s + 1)) w3)
            else submitQuiz (answers s ++ [answerData]) w3
        end
    end.

(** What is on screen (lines 100-126). *)
Definition render (s : State) : Screen :=
  match quiz s with
  | None => LoadingState
  | Some q =>
      if submitting s then LoadingState
      else
        match questions q with
        | None | Some [] => NoQuestionsAvailable
        | Some qs =>
            match qs !! currentIndex s with
            | Some currentQuestion => QuestionCard currentQuestion
            | None => RenderThrows
            end
        end
  end.

(** The option buttons (line 230). *)
Definition clickOption (idx : nat) (currentQuestion : Question) w : World State :=
  match isMcq currentQuestion ≫= (.!! idx) with
  | Some option => setState (setUserAnswer (charAt option 0)) w
  | None => w
  end.

(** The "Show Hint" button (lines 199-217). *)
Definition clickShowHint (currentQuestion : Question) w : World State :=
  let s := component w in
  match quiz s ≫= mode, hint currentQuestion with
  | Some m, Some h =>
      if String.eqb m "practice" && negb (falsy h) && negb (showHint s)
      then setState (setShowHint true) w
      else w
  | _, _ => w
  end.

(** One event.  The widgets exist only while the question card is on
    screen and the page is still mounted; the continuation of
    [submitQuiz] runs when its request is pending. *)
Definition step (e : event) w : World State :=
  match location w with
  | Some _ => w
  | None =>
      match e with
      | Settle r =>
          if submitting (component w) then submitQuiz_settled r w else w
      | _ =>
          match render (component w) with
          | QuestionCard currentQuestion =>
              match e with
              | Change text => setState (setUserAnswer text) w
              | ClickOption idx => clickOption idx currentQuestion w
              | ClickShowHint => clickShowHint currentQuestion w
              | Submit now now' => handleAnswerSubmit now now' w
              | Settle _ => w
              end
          | _ => w
          end
      end
  end.

Definition run (es : list event) w : World State :=
  foldl (fun w e => step e w) w es.

(** The specification's [recordAnswer(rawInput)]: the draft becomes
    [rawInput] and the answer is submitted. *)
Definition recordAnswer (rawInput : string) (now now' : Z) w : World State :=
  step (Submit now now') (step (Change rawInput) w).

Definition status w : Status :=
  match location w with
  | Some _ => Terminated
  | None =>
      match quiz (component w) with
      | None => Loading
      | Some _ => if submitting (component w) then Submitting else Answering
      end
  end.
End Controller.
End Current.

(** ** frontend/src/pages/QuizInterface.js *)
Module Legacy.

Record State := mkState {
  quiz : option Quiz;
  currentIndex : nat;
  answers : list AnswerData;
  userAnswer : string;
  startTime : Z;
  questionStartTime : Z;
  submitting : bool
}.

Definition setQuiz (v : option Quiz) (s : State) : State :=
  mkState v (currentIndex s) (answers s) (userAnswer s) (startTime s)
          (questionStartTime s) (submitting s).
Definition setCurrentIndex (v : nat) (s : State) : State :=
  mkState (quiz s) v (answers s) (userAnswer s) (startTime s)
          (questionStartTime s) (submitting s).
Definition setAnswers (v : list AnswerData) (s : State) : State :=
  mkState (quiz s) (currentIndex s) v (userAnswer s) (startTime s)
          (questionStartTime s) (submitting s).
Definition setUserAnswer (v : string) (s : State) : State :=
  mkState (quiz s) (currentIndex s) (answers s) v (startTime s)
          (questionStartTime s) (submitting s).
Definition setQuestionStartTime (v : Z) (s : State) : State :=
  mkState (quiz s) (currentIndex s) (answers s) (userAnswer s) (startTime s)
          v (submitting s).
Definition setSubmitting (v : bool) (s : State) : State :=
  mkState (quiz s) (currentIndex s) (answers s) (userAnswer s) (startTime s)
          (questionStartTime s) v.

Section Controller.
Context `{Runtime}.
Implicit Type w : World State.

Definition initialState (t0 t1 : Z) : State :=
  mkState None 0 [] EmptyString t0 t1 false.

Definition initialWorld (quizId : string) (storage : gmap string string)
           (t0 t1 : Z) : World State :=
  mkWorld (initialState t0 t1) quizId storage None [] [] [].

(** The effect that loads the quiz (lines 22-31): no check of the
    payload, and an exception of [JSON.parse] is not caught.  [now] is
    the reading of line 26. *)
Definition loadQuiz (now : Z) w : World State :=
  match getItem "currentQuiz" w with
  | Some storedQuiz =>
      if falsy storedQuiz
      then navigate "/quiz/select" (toast_error "Quiz not found" w)
      else
        match JSON_parse storedQuiz with
        | JObject parsedQuiz =>
            setState (setQuestionStartTime now)
                     (setState (setQuiz (Some parsedQuiz)) w)
        | JNull =>
            setState (setQuestionStartTime now) (setState (setQuiz None) w)
        | SyntaxError => throw "SyntaxError" w
        end
  | None => navigate "/quiz/select" (toast_error "Quiz not found" w)
  end.

Definition mount (quizId : string) (storage : gmap string string)
           (t0 t1 now : Z) : World State :=
  loadQuiz now (initialWorld quizId storage t0 t1).

(** [submitQuiz] up to its [await] (lines 66-72). *)
Definition submitQuiz (allAnswers : list AnswerData) w : World State :=
  api_post "/quiz/submit" (quizId w) allAnswers
           (setState (setSubmitting true) w).

(** [submitQuiz] after its [await] (lines 74-82). *)
Definition submitQuiz_settled (r : settled) w : World State :=
  let failed w := setState (setSubmitting false)
                           (toast_error "Failed to submit quiz" w) in
  match r with
  | Fulfilled result =>
      let w1 := setItem "quizResult" (JSON_stringify result) w in
      let w2 := removeItem "currentQuiz" w1 in
      match result_id result with
      | Some i => navigate ("/results/" +:+ i) w2
      | None => failed w2
      end
  | Rejected => failed w
  end.

(** [handleAnswerSubmit] (lines 39-64); [now] is the reading of line 45
    and [now'] the one of line 60. *)
Definition handleAnswerSubmit (now now' : Z) w : World State :=
  let s := component w in
  if falsy (trim (userAnswer s))
  then toast_error "Please provide an answer" w
  else
    let timeTaken := Qmake (now - questionStartTime s) 1000 in
    match quiz s ≫= questions with
    | None => throw "TypeError" w
    | Some qs =>
        match qs !! currentIndex s with
        | None => throw "TypeError" w
        | Some currentQuestion =>
            let answerData :=
              mkAnswerData (id currentQuestion) (userAnswer s) timeTaken false in
            let w1 := setState (setAnswers (answers s ++ [answerData])) w in
            let w2 := setState (setUserAnswer EmptyString) w1 in
            if (Z.of_nat (currentIndex s) <? Z.of_nat (length qs) - 1)%Z
            then setState (setQuestionStartTime now')
                          (setState (setCurrentIndex (currentIndex s + 1)) w2)
            else submitQuiz (answers s ++ [answerData]) w2
        end
    end.

(** What is on screen (lines 85-99): there is no fallback for a quiz
    without questions, rendering reads [currentQuestion.type]. *)
Definition render (s : State) : Screen :=
  match quiz s with
  | None => LoadingState
  | Some q =>
      if submitting s then LoadingState
      else
        match questions q ≫= (.!! currentIndex s) with
        | Some currentQuestion => QuestionCard currentQuestion
        | None => RenderThrows
        end
  end.

(** The option buttons (line 166). *)
Definition clickOption (idx : nat) (currentQuestion : Question) w : World State :=
  match isMcq currentQuestion ≫= (.!! idx) with
  | Some option => setState (setUserAnswer (charAt option 0)) w
  | None => w
  end.

(** One event; this copy has no hint button. *)
Definition step (e : event) w : World State :=
  match location w with
  | Some _ => w
  | None =>
      match e with
      | Settle r =>
          if submitting (component w) then submitQuiz_settled r w else w
      | _ =>
          match render (component w) with
          | QuestionCard currentQuestion =>
              match e with
              | Change text => setState (setUserAnswer text) w
              | ClickOption idx => clickOption idx currentQuestion w
              | Submit now now' => handleAnswerSubmit now now' w
              | ClickShowHint | Settle _ => w
              end
          | _ => w
          end
      end
  end.

Definition run (es : list event) w : World State :=
  foldl (fun w e => step e w) w es.

Definition recordAnswer (rawInput : string) (now now' : Z) w : World State :=
  step (Submit now now') (step (Change rawInput) w).

Definition status w : Status :=
  match location w with
  | Some _ => Terminated
  | None =>
      match quiz (component w) with
      | None => Loading
      | Some _ => if submitting (component w) then Submitting else Answering
      end
  end.
End Controller.
End Legacy.

(** ** A runtime and quiz material to evaluate the controllers on *)

Definition Q1 : Question :=
  mkQuestion "q1" "mcq" "Pick one" (Some ["A) x"; "B) y"]) None None.
Definition Q2 : Question :=
  mkQuestion "q2" "text" "How many?" None None None.

Definition twoQuestions : Quiz := mkQuiz "quiz-2" "Maths" "Sums" None (Some [Q1; Q2]).
Definition oneQuestion : Quiz := mkQuiz "quiz-1" "Maths" "Sums" None (Some [Q2]).
Definition noQuestions : Quiz := mkQuiz "quiz-0" "Maths" "Sums" None (Some []).

(** A small runtime: a response body is [null] ([None]) or an object with
    the given [id]; the quiz slot holds one of four texts. *)
Definition sampleRuntime : Runtime := {|
  json := option string;
  JSON_parse s :=
    if String.eqb s "two" then JObject twoQuestions
    else if String.eqb s "one" then JObject oneQuestion
    else if String.eqb s "none" then JObject noQuestions
    else if String.eqb s "null" then JNull
    else SyntaxError;
  JSON_stringify r := match r with Some i => "{id:" +:+ i +:+ "}" | None => "null" end;
  result_id r := r
|}.

Definition stored (text : string) : gmap string string :=
  {[ "currentQuiz" := text ]}.

(** ** Definitions used to state the properties *)

(** A run of [recordAnswer] calls, each with its input and two readings. *)
Definition currentRecordAnswers `{Runtime} (ins : list (string * Z * Z))
           (w : World Current.State) : World Current.State :=
  foldl (fun w '(rawInput, now, now') => Current.recordAnswer rawInput now now' w) w ins.

Definition legacyRecordAnswers `{Runtime} (ins : list (string * Z * Z))
           (w : World Legacy.State) : World Legacy.State :=
  foldl (fun w '(rawInput, now, now') => Legacy.recordAnswer rawInput now now' w) w ins.

(** Inputs that [handleAnswerSubmit] accepts. *)
Definition nonEmpty (rawInput : string) : bool := negb (falsy (trim rawInput)).

Definition countNonEmpty (ins : list (string * Z * Z)) : nat :=
  length (filter (fun i => nonEmpty (fst (fst i)) = true) ins).

(** The record [handleAnswerSubmit] builds for [currentQuestion] when the
    draft is [userAnswer], the question became current at [since] and the
    clock reads [now]. *)
Definition answerOf (currentQuestion : Question) (userAnswer : string)
           (since now : Z) : AnswerData :=
  mkAnswerData (id currentQuestion) userAnswer (Qmake (now - since) 1000) false.

(** A clock that never runs backwards: each reading of [l], in order, is at
    least the one before, starting from [t]. *)
Fixpoint monotoneFrom (t : Z) (l : list Z) : Prop :=
  match l with
  | [] => True
  | x :: l' => (t <= x)%Z /\ monotoneFrom x l'
  end.

(** The reading at which the question now on screen became current along a
    run: [t] at first, then the last reading of the latest event that moved
    [currentIndex]. *)
Fixpoint currentSince `{Runtime} (t : Z) (w : World Current.State)
         (es : list event) : Z :=
  match es with
  | [] => t
  | e :: es' =>
      let w' := Current.step e w in
      let t' := if decide (Current.currentIndex (component w')
                           = Current.currentIndex (component w))
                then t else List.last (readings e) t in
      currentSince t' w' es'
  end.

Fixpoint legacySince `{Runtime} (t : Z) (w : World Legacy.State)
         (es : list event) : Z :=
  match es with
  | [] => t
  | e :: es' =>
      let w' := Legacy.step e w in
      let t' := if decide (Legacy.currentIndex (component w')
                           = Legacy.currentIndex (component w))
                then t else List.last (readings e) t in
      legacySince t' w' es'
  end.

(** Forgetting the hint flag turns a state of the current copy into one of
    the legacy copy. *)
Definition forget (s : Current.State) : Legacy.State :=
  Legacy.mkState (Current.quiz s) (Current.currentIndex s) (Current.answers s)
                 (Current.userAnswer s) (Current.startTime s)
                 (Current.questionStartTime s) (Current.submitting s).

Definition forgetW (w : World Current.State) : World Legacy.State :=
  mkWorld (forget (component w)) (quizId w) (sessionStorage w) (location w)
          (toasts w) (requests w) (uncaught w).

(** The invariant of a loaded session over the questions [qs]: the index
    is in range; before any submission call the records are those of the
    questions already passed; after one, the controller sits on the last
    question and the latest call carried the records held. *)
Definition currentInv (qs : list Question) (w : World Current.State) : Prop :=
  let s := component w in
  Current.quiz s ≫= questions = Some qs /\
  Current.currentIndex s < length qs /\
  match requests w with
  | [] => length (Current.answers s) = Current.currentIndex s
          /\ Current.submitting s = false
  | _ => S (Current.currentIndex s) = length qs
         /\ List.last (requests w) (mkRequest EmptyString EmptyString [])
            = mkRequest "/quiz/submit" (quizId w) (Current.answers s)
  end.

Definition legacyInv (qs : list Question) (w : World Legacy.State) : Prop :=
  let s := component w in
  Legacy.quiz s ≫= questions = Some qs /\
  Legacy.currentIndex s < length qs /\
  match requests w with
  | [] => length (Legacy.answers s) = Legacy.currentIndex s
          /\ Legacy.submitting s = false
  | _ => S (Legacy.currentIndex s) = length qs
         /\ List.last (requests w) (mkRequest EmptyString EmptyString [])
            = mkRequest "/quiz/submit" (quizId w) (Legacy.answers s)
  end.

(** The shapes a step of the current copy can take: what [Current.step]
    does, case by case, with the conditions under which it does it. *)
Inductive currentStep `{Runtime} (e : event) (w : World Current.State)
  : World Current.State -> Prop :=
  | cs_idle : currentStep e w w
  | cs_draft (text : string) :
      currentStep e w (setState (Current.setUserAnswer text) w)
  | cs_hint (b : bool) :
      currentStep e w (setState (Current.setShowHint b) w)
  | cs_empty :
      location w = None ->
      falsy (trim (Current.userAnswer (component w))) = true ->
      currentStep e w (toast_error "Please provide an answer" w)
  | cs_next (now now' : Z) (qs : list Question) (cq : Question) :
      e = Submit now now' ->
      location w = None ->
      Current.submitting (component w) = false ->
      falsy (trim (Current.userAnswer (component w))) = false ->
      Current.quiz (component w) ≫= questions = Some qs ->
      qs !! Current.currentIndex (component w) = Some cq ->
      S (Current.currentIndex (component w)) < length qs ->
      currentStep e w
        (setState (fun s =>
           Current.mkState (Current.quiz s) (Current.currentIndex s + 1)
             (Current.answers s
              ++ [answerOf cq (Current.userAnswer s) (Current.questionStartTime s) now])
             EmptyString (Current.startTime s) now' (Current.submitting s) false) w)
  | cs_final (now now' : Z) (qs : list Question) (cq : Question) :
      e = Submit now now' ->
      location w = None ->
      Current.submitting (component w) = false ->
      falsy (trim (Current.userAnswer (component w))) = false ->
      Current.quiz (component w) ≫= questions = Some qs ->
      qs !! Current.currentIndex (component w) = Some cq ->
      ~ S (Current.currentIndex (component w)) < length qs ->
      currentStep e w
        (api_post "/quiz/submit" (quizId w)
           (Current.answers (component w)
            ++ [answerOf cq (Current.userAnswer (component w))
                         (Current.questionStartTime (component w)) now])
           (setState (fun s =>
              Current.mkState (Current.quiz s) (Current.currentIndex s)
                (Current.answers s
                 ++ [answerOf cq (Current.userAnswer s) (Current.questionStartTime s) now])
                EmptyString (Current.startTime s) (Current.questionStartTime s)
                true false) w))
  | cs_settled (r : settled) :
      e = Settle r ->
      location w = None ->
      Current.submitting (component w) = true ->
      currentStep e w (Current.submitQuiz_settled r w).

(** The same for the legacy copy. *)
Inductive legacyStep `{Runtime} (e : event) (w : World Legacy.State)
  : World Legacy.State -> Prop :=
  | ls_idle : legacyStep e w w
  | ls_draft (text : string) :
      legacyStep e w (setState (Legacy.setUserAnswer text) w)
  | ls_empty :
      location w = None ->
      falsy (trim (Legacy.userAnswer (component w))) = true ->
      legacyStep e w (toast_error "Please provide an answer" w)
  | ls_next (now now' : Z) (qs : list Question) (cq : Question) :
      e = Submit now now' ->
      location w = None ->
      Legacy.submitting (component w) = false ->
      falsy (trim (Legacy.userAnswer (component w))) = false ->
      Legacy.quiz (component w) ≫= questions = Some qs ->
      qs !! Legacy.currentIndex (component w) = Some cq ->
      S (Legacy.currentIndex (component w)) < length qs ->
      legacyStep e w
        (setState (fun s =>
           Legacy.mkState (Legacy.quiz s) (Legacy.currentIndex s + 1)
             (Legacy.answers s
              ++ [answerOf cq (Legacy.userAnswer s) (Legacy.questionStartTime s) now])
             EmptyString (Legacy.startTime s) now' (Legacy.submitting s)) w)
  | ls_final (now now' : Z) (qs : list Question) (cq : Question) :
      e = Submit now now' ->
      location w = None ->
      Legacy.submitting (component w) = false ->
      falsy (trim (Legacy.userAnswer (component w))) = false ->
      Legacy.quiz (component w) ≫= questions = Some qs ->
      qs !! Legacy.currentIndex (component w) = Some cq ->
      ~ S (Legacy.currentIndex (component w)) < length qs ->
      legacyStep e w
        (api_post "/quiz/submit" (quizId w)
           (Legacy.answers (component w)
            ++ [answerOf cq (Legacy.userAnswer (component w))
                         (Legacy.questionStartTime (component w)) now])
           (setState (fun s =>
              Legacy.mkState (Legacy.quiz s) (Legacy.currentIndex s)
                (Legacy.answers s
                 ++ [answerOf cq (Legacy.userAnswer s) (Legacy.questionStartTime s) now])
                EmptyString (Legacy.startTime s) (Legacy.questionStartTime s)
                true) w))
  | ls_settled (r : settled) :
      e = Settle r ->
      location w = None ->
      Legacy.submitting (component w) = true ->
      legacyStep e w (Legacy.submitQuiz_settled r w).

(** Every record held, and every record sent, has [is_correct: false]. *)
Definition allProvisional (answers : list AnswerData) (rs : list Request) : Prop :=
  Forall (fun a => is_correct a = false) answers
  /\ Forall (fun r => Forall (fun a => is_correct a = false) (sent_answers r)) rs.

(** The one-question session of the sample runtime, loaded at reading 100. *)
Definition sampleSession : World Current.State :=
  @Current.mount sampleRuntime "7" (stored "one") 0 0 100.

Definition sampleLegacySession : World Legacy.State :=
  @Legacy.mount sampleRuntime "7" (stored "one") 0 0 100.

(** The user types 42 and submits at reading 1100; the request fails. *)
Definition failedOnce : list (@event sampleRuntime) :=
  [Change "42"; Submit 1100 1100; Settle Rejected].

(** The user then types 42 again and submits at reading 2100. *)
Definition answeredAgain : list (@event sampleRuntime) :=
  [Change "42"; Submit 2100 2100].

(** The two-question session of the sample runtime, loaded at reading 100. *)
Definition twoQuestionSession : World Current.State :=
  @Current.mount sampleRuntime "7" (stored "two") 0 0 100.

(** ** The question card (the JSX of QuizInterface) *)

(** [x && ...] for an optional string property: absent and empty are falsy. *)
Definition truthy (o : option string) : option string :=
  match o with
  | Some s => if falsy s then None else Some s
  | None => None
  end.

Inductive HintPanel :=
  | NoHintPanel
  | ShowHintButton
  | HintText (h : string).

Inductive AnswerInput :=
  | OptionButtons (buttons : list (string * bool))  (* option, highlighted *)
  | TextInput (value : string).

Inductive SubmitLabel := NextQuestion | SubmitQuiz.

Record CardView := mkCardView {
  progress : Q;               (* width of the progress bar, in percent *)
  questionNumber : nat;       (* "Question k of n" *)
  questionCount : nat;
  elapsed : Z;                (* the header clock, in seconds *)
  typeLabel : string;
  questionText : string;
  storyPanel : option string;
  hintPanel : HintPanel;
  answerInput : AnswerInput;
  submitDisabled : bool;
  submitLabel : SubmitLabel
}.

(** [((currentIndex + 1) / n) * 100], as an exact quotient (for [n = 0]
    JavaScript computes Infinity; the card is rendered for [n >= 1] only). *)
Definition progressOf (currentIndex n : nat) : Q :=
  (inject_Z (Z.of_nat (currentIndex + 1)) / inject_Z (Z.of_nat n)) * inject_Z 100.

(** [currentQuestion.type === "mcq" ? "Multiple Choice" : "Alphanumeric Answer"] *)
Definition typeLabelOf (q : Question) : string :=
  if String.eqb (type q) "mcq" then "Multiple Choice" else "Alphanumeric Answer".

(** The option buttons, or the text input (lines 223-270 and 159-208):
    an option is highlighted when [userAnswer === option.charAt(0)]. *)
Definition answerInputOf (userAnswer : string) (q : Question) : AnswerInput :=
  match isMcq q with
  | Some opts =>
      OptionButtons
        (map (fun option => (option, String.eqb userAnswer (charAt option 0))) opts)
  | None => TextInput userAnswer
  end.

(** [currentIndex < quiz.questions.length - 1 ? "Next Question" : "Submit Quiz"] *)
Definition submitLabelOf (currentIndex n : nat) : SubmitLabel :=
  if (Z.of_nat currentIndex <? Z.of_nat n - 1)%Z then NextQuestion else SubmitQuiz.

(** The card of the current copy (lines 126-287); [now] is the
    [Date.now()] reading of the header clock. *)
Definition currentView (now : Z) (s : Current.State) : option CardView :=
  match Current.render s, Current.quiz s with
  | QuestionCard currentQuestion, Some quiz =>
      match questions quiz with
      | Some qs =>
          Some (mkCardView
            (progressOf (Current.currentIndex s) (length qs))
            (Current.currentIndex s + 1) (length qs)
            ((now - Current.startTime s) / 1000)%Z
            (typeLabelOf currentQuestion)
            (question currentQuestion)
            (truthy (story_context currentQuestion))
            (match mode quiz, truthy (hint currentQuestion) with
             | Some m, Some h =>
                 if String.eqb m "practice"
                 then if Current.showHint s then HintText h else ShowHintButton
                 else NoHintPanel
             | _, _ => NoHintPanel
             end)
            (answerInputOf (Current.userAnswer s) currentQuestion)
            (falsy (Current.userAnswer s))
            (submitLabelOf (Current.currentIndex s) (length qs)))
      | None => None
      end
  | _, _ => None
  end.

(** The card of the legacy copy (lines 98-225): no story, no hint. *)
Definition legacyView (now : Z) (s : Legacy.State) : option CardView :=
  match Legacy.render s, Legacy.quiz s with
  | QuestionCard currentQuestion, Some quiz =>
      match questions quiz with
      | Some qs =>
          Some (mkCardView
            (progressOf (Legacy.currentIndex s) (length qs))
            (Legacy.currentIndex s + 1) (length qs)
            ((now - Legacy.startTime s) / 1000)%Z
            (typeLabelOf currentQuestion)
            (question currentQuestion)
            None NoHintPanel
            (answerInputOf (Legacy.userAnswer s) currentQuestion)
            (falsy (Legacy.userAnswer s))
            (submitLabelOf (Legacy.currentIndex s) (length qs)))
      | None => None
      end
  | _, _ => None
  end.

(** A draft with at least one code unit that [trim] keeps. *)
Fixpoint hasVisible (s : string) : bool :=
  match s with
  | EmptyString => false
  | String c s' => negb (isWhiteSpace c) || hasVisible s'
  end.

(** The questions the records answer, in order. *)
Definition answeredIds (answers : list AnswerData) : list string :=
  map question_id answers.

(** The sum of the recorded times. *)
Definition totalTime (answers : list AnswerData) : Q :=
  foldr (fun a acc => (time_taken a + acc)%Q) 0%Q answers.

(** A run in which no request is fulfilled. *)
Definition noneFulfilled `{Runtime} (es : list event) : Prop :=
  forall data, Settle (Fulfilled data) ∉ es.

(** A state of the legacy copy seen as a state of the current copy whose
    hint is hidden: [forget (remember s) = s]. *)
Definition remember (s : Legacy.State) : Current.State :=
  Current.mkState (Legacy.quiz s) (Legacy.currentIndex s) (Legacy.answers s)
                  (Legacy.userAnswer s) (Legacy.startTime s)
                  (Legacy.questionStartTime s) (Legacy.submitting s) false.

Definition rememberW (w : World Legacy.State) : World Current.State :=
  mkWorld (remember (component w)) (quizId w) (sessionStorage w) (location w)
          (toasts w) (requests w) (uncaught w).

(** A hint that is shown belongs to the question on screen: the quiz is in
    practice mode, the request is not pending and the question at
    [currentIndex] has the non-empty hint [h]. *)
Definition hintOnScreen (s : Current.State) (h : string) : Prop :=
  Current.submitting s = false
  /\ exists q qs cq m,
       Current.quiz s = Some q /\ questions q = Some qs
       /\ qs !! Current.currentIndex s = Some cq
       /\ mode q = Some m /\ String.eqb m "practice" = true
       /\ truthy (hint cq) = Some h.

(** The records follow the questions [qs]: before any submission call they
    answer the first [currentIndex] questions, in order; the first call
    carries one record per question, in order. *)
Definition recordsFollow (qs : list Question) (answers : list AnswerData)
           (currentIndex : nat) (rs : list Request) : Prop :=
  match rs with
  | [] => answeredIds answers = map id (take currentIndex qs)
  | first :: _ => answeredIds (sent_answers first) = map id qs
  end.

(** No record has an answer that [trim] would empty. *)
Definition allVisible (answers : list AnswerData) : Prop :=
  Forall (fun a => hasVisible (user_answer a) = true) answers.

(** The submission calls of a session over the questions [qs] of the quiz
    [qid]: each goes to [/quiz/submit] with the quiz id; the call at
    position [k] (from 0) carries [length qs + k] records; and each call
    carries the records of the call before it, followed by one more record
    for the last question. *)
Definition requestChain (qs : list Question) (qid : string)
           (rs : list Request) : Prop :=
  forall k r,
    rs !! k = Some r ->
    url r = "/quiz/submit" /\ quiz_id r = qid
    /\ length (sent_answers r) = length qs + k
    /\ forall r', rs !! S k = Some r' ->
                  exists a cq, sent_answers r' = sent_answers r ++ [a]
                               /\ qs !! (length qs - 1) = Some cq
                               /\ question_id a = id cq.

(** The notices the question page can show. *)
Definition pageNotices : list string :=
  ["Please provide an answer"; "Failed to submit quiz"].

(** The notices of the load effect of the current copy. *)
Definition loadNotices : list string :=
  ["Quiz not found"; "Failed to load quiz"; "Quiz has no questions"].

(** The bound on the recorded times: before any submission call, the
    records held; afterwards, the records of the first call. *)
Definition timeBound (t T : Z) (w : World Current.State) : Prop :=
  (Current.questionStartTime (component w) <= T)%Z
  /\ match requests w with
     | [] => (totalTime (Current.answers (component w))
              <= (Current.questionStartTime (component w) - t) # 1000)%Q
     | first :: _ => (totalTime (sent_answers first) <= (T - t) # 1000)%Q
     end.

(** ** [parseInt] *)

(** The value of a character as a digit, letters counting from 10. *)
Definition digitValue (c : ascii) : option Z :=
  let n := Z.of_nat (nat_of_ascii c) in
  if ((48 <=? n) && (n <=? 57))%Z then Some (n - 48)%Z
  else if ((97 <=? n) && (n <=? 122))%Z then Some (n - 87)%Z
  else if ((65 <=? n) && (n <=? 90))%Z then Some (n - 55)%Z
  else None.

(** The longest prefix of digits of the radix, as a number; [None] (NaN)
    when there is no digit. *)
Fixpoint parseDigits (radix acc : Z) (any : bool) (s : string) : option Z :=
  let stop := if any then Some acc else None in
  match s with
  | EmptyString => stop
  | String c s' =>
      match digitValue c with
      | Some d => if (d <? radix)%Z
                  then parseDigits radix (acc * radix + d)%Z true s'
                  else stop
      | None => stop
      end
  end.

(** [parseInt(s)] without a radix: leading white space, a sign, [0x] or
    [0X] for radix 16, then the digits; [None] is NaN. *)
Definition parseInt (s : string) : option Z :=
  let s1 := trimStart s in
  let '(sign, s2) :=
    match s1 with
    | String "-" r => ((-1)%Z, r)
    | String "+" r => (1%Z, r)
    | _ => (1%Z, s1)
    end in
  let '(radix, s3) :=
    match s2 with
    | String "0" (String "x" r) | String "0" (String "X" r) => (16%Z, r)
    | _ => (10%Z, s2)
    end in
  option_map (Z.mul sign) (parseDigits radix 0 false s3).

(** ** maths_story/frontend/src/components/DarkModeToggle.js: QuizSelection *)
Module QuizSelection.

(** The body of the generation request. *)
Record FormData := mkFormData {
  subject : string;
  topic : string;
  subtopic : string;
  difficulty : string;
  num_questions : option Z      (* a number; [None] is NaN *)
}.

Record State := mkState {
  loading : bool;
  formData : FormData
}.

(** [toast.error] and [toast.success], in the order they are shown. *)
Inductive Notice :=
  | Error (msg : string)
  | Success (msg : string).

(** The page and the browser around it: the session storage, the route
    ([None] while the page has not navigated), the notices, the bodies
    posted to [/quiz/generate] and the number of requests not settled
    yet. *)
Record Page := mkPage {
  state : State;
  storage : gmap string string;
  route : option string;
  notices : list Notice;
  posted : list FormData;
  pending : nat
}.

(** How the promise of [api.post("/quiz/generate", ...)] settles: with a
    response body, or with an error whose [response?.data?.detail] is
    [detail]. *)
Inductive generated `{Runtime} :=
  | Generated (quiz : json)
  | Failed (detail : option string).

Inductive event `{Runtime} :=
  | Back                           (* the button of the header *)
  | SetSubject (v : string)
  | SetTopic (v : string)
  | SetSubtopic (v : string)
  | SelectDifficulty (idx : nat)   (* the idx-th option of the select *)
  | SelectCount (idx : nat)
  | SubmitForm
  | Settle (r : generated).

(** The [value]s of the options of the two selects. *)
Definition difficultyOptions : list string := ["easy"; "medium"; "hard"].
Definition countOptions : list string := ["3"; "5"; "10"; "15"].

Definition setLoading (v : bool) (p : Page) : Page :=
  mkPage (mkState v (formData (state p))) (storage p) (route p) (notices p)
         (posted p) (pending p).
Definition setFormData (v : FormData) (p : Page) : Page :=
  mkPage (mkState (loading (state p)) v) (storage p) (route p) (notices p)
         (posted p) (pending p).
Definition setItem (k v : string) (p : Page) : Page :=
  mkPage (state p) (<[k := v]> (storage p)) (route p) (notices p)
         (posted p) (pending p).
Definition navigate (path : string) (p : Page) : Page :=
  mkPage (state p) (storage p) (Some path) (notices p) (posted p) (pending p).
Definition toast (n : Notice) (p : Page) : Page :=
  mkPage (state p) (storage p) (route p) (notices p ++ [n]) (posted p)
         (pending p).
(** [api.post("/quiz/generate", body)] *)
Definition api_post (body : FormData) (p : Page) : Page :=
  mkPage (state p) (storage p) (route p) (notices p) (posted p ++ [body])
         (S (pending p)).
(** a pending request settles *)
Definition settle (p : Page) : Page :=
  mkPage (state p) (storage p) (route p) (notices p) (posted p)
         (pred (pending p)).

Section Controller.
Context `{Runtime}.

(** The [useState] initialisers (lines 275-282). *)
Definition initialState : State :=
  mkState false (mkFormData EmptyString EmptyString EmptyString "medium" (Some 5%Z)).

Definition initialPage (storage : gmap string string) : Page :=
  mkPage initialState storage None [] [] 0.

(** [handleGenerate] up to its [await] (lines 284-294). *)
Definition handleGenerate (p : Page) : Page :=
  let fd := formData (state p) in
  if falsy (subject fd) || falsy (topic fd)
  then toast (Error "Please fill in subject and topic") p
  else api_post fd (setLoading true p).

(** [handleGenerate] after its [await] (lines 295-306): the [try], the
    [catch] and the [finally]. *)
Definition handleGenerate_settled (r : generated) (p : Page) : Page :=
  match r with
  | Generated quiz =>
      let p1 := setItem "currentQuiz" (JSON_stringify quiz) p in
      let p2 := toast (Success "Quiz generated successfully!") p1 in
      match result_id quiz with
      | Some i => setLoading false (navigate ("/quiz/" +:+ i) p2)
      | None =>
          (* reading [quiz.id] throws; the error has no [response] *)
          setLoading false (toast (Error "Failed to generate quiz") p2)
      end
  | Failed detail =>
      setLoading false
        (toast (Error (default "Failed to generate quiz" (truthy detail))) p)
  end.

(** One event.  The header and the form exist while the page is mounted;
    the back button (lines 316-324) navigates to the dashboard; the
    continuation of a pending request runs whenever it settles, also after
    the page was left. *)
Definition step (e : event) (p : Page) : Page :=
  let fd := formData (state p) in
  match e with
  | Settle r =>
      match pending p with
      | 0 => p
      | S _ => handleGenerate_settled r (settle p)
      end
  | _ =>
      match route p with
      | Some _ => p
      | None =>
          match e with
          | Back => navigate "/dashboard" p
          | SetSubject v =>
              setFormData (mkFormData v (topic fd) (subtopic fd) (difficulty fd)
                                      (num_questions fd)) p
          | SetTopic v =>
              setFormData (mkFormData (subject fd) v (subtopic fd) (difficulty fd)
                                      (num_questions fd)) p
          | SetSubtopic v =>
              setFormData (mkFormData (subject fd) (topic fd) v (difficulty fd)
                                      (num_questions fd)) p
          | SelectDifficulty idx =>
              match difficultyOptions !! idx with
              | Some v =>
                  setFormData (mkFormData (subject fd) (topic fd) (subtopic fd) v
                                          (num_questions fd)) p
              | None => p
              end
          | SelectCount idx =>
              match countOptions !! idx with
              | Some v =>
                  setFormData (mkFormData (subject fd) (topic fd) (subtopic fd)
                                          (difficulty fd) (parseInt v)) p
              | None => p
              end
          | SubmitForm => handleGenerate p
          | Settle _ => p
          end
      end
  end.

Definition run (es : list event) (p : Page) : Page :=
  foldl (fun p e => step e p) p es.
End Controller.
End QuizSelection.

(** A body that can be posted from the form: subject and topic are not
    empty, and the two selected values are among the options offered. *)
Definition wellFormed (fd : QuizSelection.FormData) : Prop :=
  falsy (QuizSelection.subject fd) = false
  /\ falsy (QuizSelection.topic fd) = false
  /\ QuizSelection.difficulty fd ∈ QuizSelection.difficultyOptions
  /\ QuizSelection.num_questions fd ∈ [Some 3%Z; Some 5%Z; Some 10%Z; Some 15%Z].

(** A runtime whose response bodies are JSON texts: [JSON.stringify] gives
    the text back, and the [id] of a body is the one of the quiz it
    parses to. *)
Definition textRuntime : Runtime := {|
  json := string;
  JSON_parse := @JSON_parse sampleRuntime;
  JSON_stringify r := r;
  result_id r :=
    match @JSON_parse sampleRuntime r with
    | JObject q => Some (quiz_ident q)
    | _ => None
    end
|}.
(** The two selected values of a form are among the options offered. *)
Definition selectedFromOptions (fd : QuizSelection.FormData) : Prop :=
  QuizSelection.difficulty fd ∈ QuizSelection.difficultyOptions
  /\ QuizSelection.num_questions fd ∈ [Some 3%Z; Some 5%Z; Some 10%Z; Some 15%Z].

(** A run of the selection page in which no request gets a response. *)
Definition noneGenerated `{Runtime} (es : list QuizSelection.event) : Prop :=
  forall quiz, QuizSelection.Settle (QuizSelection.Generated quiz) ∉ es.

(** Where the selection page can have navigated to after the events [es]:
    nowhere, to the dashboard by its back button, or to the question page
    of a quiz it got as a response. *)
Definition selectionRoute `{Runtime} (es : list QuizSelection.event)
           (route : option string) : Prop :=
  route = None
  \/ (QuizSelection.Back ∈ es /\ route = Some "/dashboard")
  \/ exists quiz i, QuizSelection.Settle (QuizSelection.Generated quiz) ∈ es
        /\ result_id quiz = Some i
        /\ route = Some ("/quiz/" +:+ i).

(** The form filled in with a subject and a topic, and submitted. *)
Definition filledAndSubmitted `{Runtime} : list QuizSelection.event :=
  [QuizSelection.SetSubject "Maths"; QuizSelection.SetTopic "Sums";
   QuizSelection.SelectCount 0; QuizSelection.SubmitForm].
(** ** maths_story/frontend/src/pages/Results.js *)

(** What the results pages read from the stored result, besides the
    runtime of the question page. *)
Class ResultRuntime `{Runtime} := {
  (** [JSON.parse] on the text of the result slot; [None] when it throws *)
  parse_result : string -> option json;
  (** [!result] *)
  json_falsy : json -> bool;
  (** [result.score], [result.focus_score] and [result.avg_time] when they
      are numbers; [None] otherwise, and then the call of [.toFixed] on
      them in the card throws *)
  score : json -> option Q;
  focus_score : json -> option Q;
  avg_time : json -> option Q;
  (** what else the card of Results.js evaluates does not throw: the other
      values it interpolates are strings or numbers, and the review items
      (lines 206-323) are objects whose [time_taken], when truthy, is a
      number *)
  card_renders : json -> bool;
  (** the same for the card of the results page of App.js, whose list
      (lines 281-312) shows the explanations only *)
  legacy_card_renders : json -> bool
}.

(** The three numbers the score card formats with [.toFixed] (Results.js
    lines 134, 143, 172 and 184; App.js lines 216, 222, 251 and 263). *)
Definition numbersPresent `{ResultRuntime} (r : json) : bool :=
  match score r, focus_score r, avg_time r with
  | Some _, Some _, Some _ => true
  | _, _, _ => false
  end.

Module Results.

(** What the celebration timer does. *)
Inductive Effect :=
  | QuizCompleteSound
  | PerfectScoreConfetti
  | Confetti.

Inductive Heading := PerfectScore | QuizComplete.

(** The buttons that leave the page. *)
Inductive Exit := TakeAnotherQuiz | ViewHistory | Dashboard.

Inductive Screen `{Runtime} :=
  | Spinner
  | ResultCard (r : json)
  | Throws.                     (* rendering the card throws a TypeError *)

Record State `{Runtime} := mkState {
  result : option json;         (* [None] is the initial [null] *)
  expandedQ : option nat;
  soundPlayed : bool            (* the ref *)
}.
Arguments mkState {_} _ _ _.

(** The page and the browser around it: the session storage, the route
    ([None] while the page has not navigated), the pending celebration
    timer with the result its callback has captured, what the celebration
    has played, and the exceptions nobody caught. *)
Record Page `{Runtime} := mkPage {
  state : State;
  storage : gmap string string;
  route : option string;
  timer : option json;
  played : list Effect;
  thrown : list string
}.
Arguments mkPage {_} _ _ _ _ _ _.

(** The share button ([handleShare], lines 75-88) hands a text to the
    browser and touches neither the state nor the storage; it is not an
    event of the model. *)
Inductive event :=
  | RouteChange                 (* [resultId] changes: the load effect runs again *)
  | ToggleReview (index : nat)
  | Leave (b : Exit)
  | TimerFires.                 (* the 400 ms of the celebration timer are over *)

Section Controller.
Context `{ResultRuntime}.

Definition setState (f : State -> State) (p : Page) : Page :=
  mkPage (f (state p)) (storage p) (route p) (timer p) (played p) (thrown p).
Definition setResult (v : option json) (s : State) : State :=
  mkState v (expandedQ s) (soundPlayed s).
Definition setExpandedQ (v : option nat) (s : State) : State :=
  mkState (result s) v (soundPlayed s).
Definition setSoundPlayed (v : bool) (s : State) : State :=
  mkState (result s) (expandedQ s) v.
Definition removeItem (k : string) (p : Page) : Page :=
  mkPage (state p) (delete k (storage p)) (route p) (timer p) (played p)
         (thrown p).
Definition navigate (path : string) (p : Page) : Page :=
  mkPage (state p) (storage p) (Some path) (timer p) (played p) (thrown p).
(** [setTimeout(callback, 400)], the callback closing over [r] *)
Definition setTimeout (r : json) (p : Page) : Page :=
  mkPage (state p) (storage p) (route p) (Some r) (played p) (thrown p).
Definition throw (e : string) (p : Page) : Page :=
  mkPage (state p) (storage p) (route p) (timer p) (played p) (thrown p ++ [e]).

Definition initialPage (storage : gmap string string) : Page :=
  mkPage (mkState None None false) storage None None [] [].

(** The effect that loads the result (lines 36-43). *)
Definition loadResult (p : Page) : Page :=
  match storage p !! "quizResult" with
  | Some storedResult =>
      if falsy storedResult then navigate "/dashboard" p
      else
        match parse_result storedResult with
        | Some r => setState (setResult (Some r)) p
        | None => throw "SyntaxError" p
        end
  | None => navigate "/dashboard" p
  end.

(** The callback of the timer (lines 50-55). *)
Definition celebrate (r : json) : list Effect :=
  QuizCompleteSound ::
  match score r with
  | Some s =>
      if Qeq_bool s 100 then [PerfectScoreConfetti]
      else if Qle_bool 60 s then [Confetti]
      else []
  | None => []
  end.

(** The effect that starts the timer (lines 46-59). *)
Definition celebration (p : Page) : Page :=
  match result (state p) with
  | Some r =>
      if negb (json_falsy r) && negb (soundPlayed (state p))
      then setTimeout r (setState (setSoundPlayed true) p)
      else p
  | None => p
  end.

(** What is on screen (lines 61-67 and the card, lines 96-376). *)
Definition render (s : State) : Screen :=
  match result s with
  | Some r =>
      if json_falsy r then Spinner
      else if numbersPresent r && card_renders r then ResultCard r
      else Throws
  | None => Spinner
  end.

(** A render after the state or the route changed, and the effects of its
    commit: when the render throws nothing is committed and no effect
    runs. *)
Definition rerender (p : Page) : Page :=
  match render (state p) with
  | Throws => throw "TypeError" p
  | _ => celebration p
  end.

(** Mounting: the first render shows the spinner and its celebration
    effect finds no result; the load effect runs; then the render that
    [setResult] causes. *)
Definition mount (storage : gmap string string) : Page :=
  rerender (loadResult (initialPage storage)).

(** The timer is never cancelled: its callback runs also after the page
    was left. *)
Definition timerFires (p : Page) : Page :=
  match timer p with
  | Some r =>
      mkPage (state p) (storage p) (route p) None (played p ++ celebrate r)
             (thrown p)
  | None => p
  end.

(** [scoreColor] (lines 68-73). *)
Definition scoreColor (r : json) : string :=
  match score r with
  | Some s =>
      if Qle_bool 80 s then "text-success"
      else if Qle_bool 60 s then "text-amber-600"
      else "text-destructive"
  | None => "text-destructive"
  end.

(** The heading of the score card (line 121). *)
Definition heading (r : json) : Heading :=
  match score r with
  | Some s => if Qeq_bool s 100 then PerfectScore else QuizComplete
  | None => QuizComplete
  end.

(** Where the three buttons go (lines 336-372). *)
Definition exitPath (b : Exit) : string :=
  match b with
  | TakeAnotherQuiz => "/quiz/select"
  | ViewHistory => "/quiz-history"
  | Dashboard => "/dashboard"
  end.

Definition leave (b : Exit) (p : Page) : Page :=
  navigate (exitPath b) (removeItem "quizResult" p).

(** The header of a review item (lines 234-236). *)
Definition toggleReview (index : nat) (p : Page) : Page :=
  let isExpanded := bool_decide (expandedQ (state p) = Some index) in
  setState (setExpandedQ (if isExpanded then None else Some index)) p.

(** One event; the buttons exist while the result card is on screen, and
    nothing is on screen after an uncaught exception. *)
Definition step (e : event) (p : Page) : Page :=
  match e with
  | TimerFires => timerFires p
  | _ =>
      match route p, thrown p with
      | None, [] =>
          match e with
          | RouteChange => rerender (loadResult p)
          | ToggleReview index =>
              match render (state p) with
              | ResultCard _ => toggleReview index p
              | _ => p
              end
          | Leave b =>
              match render (state p) with
              | ResultCard _ => leave b p
              | _ => p
              end
          | TimerFires => p
          end
      | _, _ => p
      end
  end.

Definition run (es : list event) (p : Page) : Page :=
  foldl (fun p e => step e p) p es.
End Controller.
End Results.

(** ** The Results page of frontend/src/App.js *)
Module LegacyResults.

Inductive Exit := TakeAnotherQuiz | Dashboard.

Inductive Screen `{Runtime} :=
  | Spinner
  | ResultCard (r : json)
  | Throws.

(** The state is the result alone; the page and the browser around it. *)
Record Page `{Runtime} := mkPage {
  result : option json;
  storage : gmap string string;
  route : option string;
  thrown : list string
}.
Arguments mkPage {_} _ _ _ _.

Section Controller.
Context `{ResultRuntime}.

Definition initialPage (storage : gmap string string) : Page :=
  mkPage None storage None [].

(** The effect that loads the result (lines 164-171). *)
Definition loadResult (p : Page) : Page :=
  match storage p !! "quizResult" with
  | Some storedResult =>
      if falsy storedResult
      then mkPage (result p) (storage p) (Some "/dashboard") (thrown p)
      else
        match parse_result storedResult with
        | Some r => mkPage (Some r) (storage p) (route p) (thrown p)
        | None => mkPage (result p) (storage p) (route p) (thrown p ++ ["SyntaxError"])
        end
  | None => mkPage (result p) (storage p) (Some "/dashboard") (thrown p)
  end.

(** What is on screen (lines 173-179 and the card, lines 188-343). *)
Definition render (p : Page) : Screen :=
  match result p with
  | Some r =>
      if json_falsy r then Spinner
      else if numbersPresent r && legacy_card_renders r then ResultCard r
      else Throws
  | None => Spinner
  end.

(** The render that [setResult] causes: when it throws, nothing is on
    screen any more. *)
Definition rerender (p : Page) : Page :=
  match render p with
  | Throws => mkPage (result p) (storage p) (route p) (thrown p ++ ["TypeError"])
  | _ => p
  end.

Definition mount (storage : gmap string string) : Page :=
  rerender (loadResult (initialPage storage)).

Definition exitPath (b : Exit) : string :=
  match b with
  | TakeAnotherQuiz => "/quiz/select"
  | Dashboard => "/dashboard"
  end.

(** The two buttons (lines 318-337); they exist while the card is on
    screen. *)
Definition leave (b : Exit) (p : Page) : Page :=
  match route p, thrown p, render p with
  | None, [], ResultCard _ =>
      mkPage (result p) (delete "quizResult" (storage p))
             (Some (exitPath b)) (thrown p)
  | _, _, _ => p
  end.
End Controller.
End LegacyResults.

(** A result runtime over the sample runtime: the slot holds [null] or an
    object with an id; the results "r9" and "r5" have the three numbers of
    the card, with the scores 100 and 65, and any other object has none. *)
Definition sampleResults : @ResultRuntime sampleRuntime :=
  let known (r : option string) :=
    match r with
    | Some i => String.eqb i "r9" || String.eqb i "r5"
    | None => false
    end in
  @Build_ResultRuntime sampleRuntime
    (fun s =>
       if String.eqb s "null" then Some None
       else if String.eqb s "{id:r9}" then Some (Some "r9")
       else if String.eqb s "{id:r5}" then Some (Some "r5")
       else if String.eqb s "{id:r0}" then Some (Some "r0")
       else None)
    (fun r : option string => match r with Some _ => false | None => true end)
    (fun r : option string =>
       match r with
       | Some i => if String.eqb i "r9" then Some 100%Q
                   else if String.eqb i "r5" then Some (130 # 2)%Q
                   else None
       | None => None
       end)
    (fun r => if known r then Some 80%Q else None)
    (fun r => if known r then Some (5 # 2)%Q else None)
    (fun r => known r)
    (fun r => known r).

(** What the result slot of a storage parses to, when the load effect of
    the results page sets it. *)
Definition storedResult `{ResultRuntime} (storage : gmap string string)
  : option json :=
  storage !! "quizResult" ≫= fun text =>
    if falsy text then None else parse_result text.

(** The invariant of the results page opened on [storage0]: while the page
    is mounted the storage is the one it was opened with; the result, once
    set, is the stored one; and either no card was ever rendered, and then
    no timer was started and nothing was played, or the card of a result
    is rendered, and then the celebration of that result is pending on
    the timer or has been played, once. *)
Definition resultsInv `{ResultRuntime} (storage0 : gmap string string)
           (p : Results.Page) : Prop :=
  (Results.route p = None -> Results.storage p = storage0)
  /\ (Results.result (Results.state p) = None
      \/ Results.result (Results.state p) = storedResult storage0)
  /\ ((Results.soundPlayed (Results.state p) = false
       /\ Results.played p = [] /\ Results.timer p = None
       /\ forall r, Results.render (Results.state p) <> Results.ResultCard r)
      \/ (Results.soundPlayed (Results.state p) = true
          /\ exists r, Results.render (Results.state p) = Results.ResultCard r
               /\ ((Results.timer p = Some r /\ Results.played p = [])
                   \/ (Results.timer p = None
                       /\ Results.played p = Results.celebrate r)))).

(** ** frontend/src/App.js: App *)
Module App.

(** The pages of the route table and what a route renders. *)
Inductive PageName :=
  | LandingPage | AuthPage | Dashboard | QuizSelection | QuizInterface
  | Results | Analytics | Leaderboard | Profile | AdminPanel.

(** The route patterns of the table, in its order. *)
Inductive Route :=
  | RootRoute           (* "/" *)
  | AuthRoute           (* "/auth" *)
  | DashboardRoute      (* "/dashboard" *)
  | QuizSelectRoute     (* "/quiz/select" *)
  | QuizRoute           (* "/quiz/:quizId" *)
  | ResultsRoute        (* "/results/:resultId" *)
  | AnalyticsRoute      (* "/analytics" *)
  | LeaderboardRoute    (* "/leaderboard" *)
  | ProfileRoute        (* "/profile" *)
  | AdminRoute.         (* "/admin" *)

Inductive Element :=
  | Page (p : PageName)
  | Navigate (to : Route).

Record State `{Runtime} := mkState {
  isAuthenticated : bool;
  user : option json
}.
Arguments mkState {_} _ _.

(** The component and the browser around it: the local storage, the
    location of the router and the exceptions nobody caught. *)
Record Browser `{Runtime} := mkBrowser {
  state : State;
  localStorage : gmap string string;
  location : Route;
  thrown : list string
}.
Arguments mkBrowser {_} _ _ _ _.

Inductive event `{Runtime} :=
  | Auth (token : string) (userData : json)   (* [onAuth] of the auth page *)
  | Logout                                     (* [onLogout] of a page *)
  | Visit (r : Route)                          (* a page navigates to [r] *)
  | Open (r : Route)                           (* the document is loaded at [r] *)
  | Reload.                                    (* the document is loaded again *)

Section Controller.
Context `{ResultRuntime}.

(** The route table (lines 47-141). *)
Definition element (authenticated : bool) (r : Route) : Element :=
  let protected p := if authenticated then Page p else Navigate AuthRoute in
  match r with
  | RootRoute => Page LandingPage
  | AuthRoute => if authenticated then Navigate DashboardRoute else Page AuthPage
  | DashboardRoute => protected Dashboard
  | QuizSelectRoute => protected QuizSelection
  | QuizRoute => protected QuizInterface
  | ResultsRoute => protected Results
  | AnalyticsRoute => protected Analytics
  | LeaderboardRoute => protected Leaderboard
  | ProfileRoute => protected Profile
  | AdminRoute => protected AdminPanel
  end.

(** Rendering at a location: a [Navigate] element changes the location and
    the table is rendered again, at most [fuel] times. *)
Fixpoint follow (fuel : nat) (authenticated : bool) (r : Route) : Route :=
  match fuel with
  | 0 => r
  | S fuel' =>
      match element authenticated r with
      | Page _ => r
      | Navigate to => follow fuel' authenticated to
      end
  end.

(** A render of the component, with the redirections it causes. *)
Definition rerender (b : Browser) : Browser :=
  mkBrowser (state b) (localStorage b)
            (follow 2 (isAuthenticated (state b)) (location b)) (thrown b).

(** The effect of the first render (lines 21-28): [setIsAuthenticated(true)]
    comes before [JSON.parse], which can throw. *)
Definition restoreSession (b : Browser) : Browser :=
  match truthy (localStorage b !! "token"), truthy (localStorage b !! "user") with
  | Some token, Some storedUser =>
      match parse_result storedUser with
      | Some u =>
          mkBrowser (mkState true (Some u)) (localStorage b) (location b)
                    (thrown b)
      | None =>
          mkBrowser (mkState true (user (state b))) (localStorage b)
                    (location b) (thrown b ++ ["SyntaxError"])
      end
  | _, _ => b
  end.

(** Loading the document at [r]: the first render is signed out (lines
    18-19), with its redirections; then the effect runs, and the render
    that its state change causes. *)
Definition mount (storage : gmap string string) (r : Route) : Browser :=
  rerender (restoreSession (rerender (mkBrowser (mkState false None) storage r []))).

(** [handleAuth] (lines 30-35). *)
Definition handleAuth (token : string) (userData : json) (b : Browser) : Browser :=
  mkBrowser (mkState true (Some userData))
            (<["user" := JSON_stringify userData]>
               (<["token" := token]> (localStorage b)))
            (location b) (thrown b).

(** [handleLogout] (lines 37-42). *)
Definition handleLogout (b : Browser) : Browser :=
  mkBrowser (mkState false None)
            (delete "user" (delete "token" (localStorage b)))
            (location b) (thrown b).

(** [navigate(...)] of a page. *)
Definition visit (r : Route) (b : Browser) : Browser :=
  mkBrowser (state b) (localStorage b) r (thrown b).

(** The page on screen; nothing is on screen after an uncaught exception,
    or while a [Navigate] element is rendered. *)
Definition shown (b : Browser) : option PageName :=
  match thrown b, element (isAuthenticated (state b)) (location b) with
  | [], Page p => Some p
  | _, _ => None
  end.

(** One event, with the render that follows it.  Loading the document
    starts afresh on the local storage; the handlers of the pages exist
    while something is on screen. *)
Definition step (e : event) (b : Browser) : Browser :=
  match e with
  | Open r => mount (localStorage b) r
  | Reload => mount (localStorage b) (location b)
  | _ =>
      match thrown b with
      | [] =>
          match e with
          | Auth token userData => rerender (handleAuth token userData b)
          | Logout => rerender (handleLogout b)
          | Visit r => rerender (visit r b)
          | Open _ | Reload => b
          end
      | _ => b
      end
  end.

Definition run (es : list event) (b : Browser) : Browser :=
  foldl (fun b e => step e b) b es.
End Controller.
End App.

(** Signed in with what the local storage holds: both keys are stored and
    a parsed user value is held; signed out, no user value is held. *)
Definition signedInv `{ResultRuntime} (b : App.Browser) : Prop :=
  if App.isAuthenticated (App.state b)
  then is_Some (App.localStorage b !! "token")
       /\ is_Some (App.localStorage b !! "user")
       /\ is_Some (App.user (App.state b))
  else App.user (App.state b) = None.

(** What a browser that shows something shows: the sign-in state agrees
    with the storage, and the page on screen is one the sign-in state
    allows. *)
Definition appInv `{ResultRuntime} (b : App.Browser) : Prop :=
  App.thrown b = [] ->
  signedInv b
  /\ exists p, App.shown b = Some p
       /\ (App.isAuthenticated (App.state b) = false ->
           p = App.LandingPage \/ p = App.AuthPage)
       /\ (App.isAuthenticated (App.state b) = true -> p <> App.AuthPage).

(** The page a freshly loaded document ends on. *)
Definition landing (authenticated : bool) (r : App.Route) : App.PageName :=
  match r with
  | App.RootRoute => App.LandingPage
  | _ => if authenticated then App.Dashboard else App.AuthPage
  end.

(** ** maths_story/frontend/src/components/DarkModeToggle.js: DarkModeToggle *)
Module DarkModeToggle.

(** The component and the browser around it: the [dark] state, the local
    storage and the class list of the root element. *)
Record Browser := mkBrowser {
  dark : bool;
  localStorage : gmap string string;
  classList : gset string
}.

Inductive event :=
  | Toggle                          (* the button *)
  | Remount (prefersDark : bool).   (* the component is mounted again *)

(** The [useState] initialiser (lines 5-14); [prefersDark] is what
    [matchMedia("(prefers-color-scheme: dark)").matches] gives. *)
Definition initialDark (prefersDark : bool) (storage : gmap string string) : bool :=
  match storage !! "theme" with
  | Some theme => String.eqb theme "dark" || (falsy theme && prefersDark)
  | None => prefersDark
  end.

(** The effect (lines 16-25). *)
Definition applyTheme (b : Browser) : Browser :=
  if dark b
  then mkBrowser (dark b) (<["theme" := "dark"]> (localStorage b))
                 ({["dark"]} ∪ classList b)
  else mkBrowser (dark b) (<["theme" := "light"]> (localStorage b))
                 (classList b ∖ {["dark"]}).

Definition mount (prefersDark : bool) (storage : gmap string string)
           (classes : gset string) : Browser :=
  applyTheme (mkBrowser (initialDark prefersDark storage) storage classes).

(** The button (line 29), and the effect of the render it causes. *)
Definition toggle (b : Browser) : Browser :=
  applyTheme (mkBrowser (negb (dark b)) (localStorage b) (classList b)).

Definition step (e : event) (b : Browser) : Browser :=
  match e with
  | Toggle => toggle b
  | Remount prefersDark => mount prefersDark (localStorage b) (classList b)
  end.

Definition run (es : list event) (b : Browser) : Browser :=
  foldl (fun b e => step e b) b es.
End DarkModeToggle.

(** The number of clicks on the toggle in a run. *)
Fixpoint toggles (es : list DarkModeToggle.event) : nat :=
  match es with
  | [] => 0
  | DarkModeToggle.Toggle :: es' => S (toggles es')
  | DarkModeToggle.Remount _ :: es' => toggles es'
  end.

(** * Properties *)

(** ** JavaScript strings *)

Lemma trim_three_spaces : trim "   " = EmptyString.
Proof. reflexivity. Qed.

Lemma charAt_label : charAt "A) x" 0 = "A".
Proof. reflexivity. Qed.

Lemma time_taken_nonneg (since now : Z) :
  (since <= now)%Z -> (0 <= Qmake (now - since) 1000)%Q.
Proof. intros Hle. unfold Qle. simpl. lia. Qed.

(** ** The current copy, one event at a time *)

Section CurrentSteps.
Context `{Runtime}.
Implicit Type w : World Current.State.
Import Current.

Lemma current_render_card s cq :
  render s = QuestionCard cq ->
  exists qs, quiz s ≫= questions = Some qs /\ qs !! currentIndex s = Some cq
             /\ submitting s = false.
Proof.
  unfold render. destruct (quiz s) as [q|]; [|discriminate]. simpl.
  destruct (submitting s); [discriminate|].
  destruct (questions q) as [[|q0 qs]|]; try discriminate.
  destruct ((q0 :: qs) !! currentIndex s) eqn:E; [|discriminate].
  intros [= <-]. eauto.
Qed.

(** The three outcomes of [handleAnswerSubmit] on a question that exists. *)
Lemma current_submit_empty now now' w :
  falsy (trim (userAnswer (component w))) = true ->
  handleAnswerSubmit now now' w = toast_error "Please provide an answer" w.
Proof. unfold handleAnswerSubmit. intros ->. reflexivity. Qed.

Lemma current_submit_next now now' w qs cq :
  falsy (trim (userAnswer (component w))) = false ->
  quiz (component w) ≫= questions = Some qs ->
  qs !! currentIndex (component w) = Some cq ->
  S (currentIndex (component w)) < length qs ->
  handleAnswerSubmit now now' w
  = setState (fun s =>
      mkState (quiz s) (currentIndex s + 1)
              (answers s ++ [answerOf cq (userAnswer s) (questionStartTime s) now])
              EmptyString (startTime s) now' (submitting s) false) w.
Proof.
  intros Hne Hqs Hcq Hlt. unfold handleAnswerSubmit.
  rewrite Hne, Hqs, Hcq.
  destruct (Z.ltb_spec (Z.of_nat (currentIndex (component w)))
                       (Z.of_nat (length qs) - 1)) as [_|Hge]; [|lia].
  destruct w as [[] ?]. reflexivity.
Qed.

Lemma current_submit_final now now' w qs cq :
  falsy (trim (userAnswer (component w))) = false ->
  quiz (component w) ≫= questions = Some qs ->
  qs !! currentIndex (component w) = Some cq ->
  ~ S (currentIndex (component w)) < length qs ->
  handleAnswerSubmit now now' w
  = api_post "/quiz/submit" (quizId w)
      (answers (component w)
       ++ [answerOf cq (userAnswer (component w))
                    (questionStartTime (component w)) now])
      (setState (fun s =>
         mkState (quiz s) (currentIndex s)
                 (answers s ++ [answerOf cq (userAnswer s) (questionStartTime s) now])
                 EmptyString (startTime s) (questionStartTime s) true false) w).
Proof.
  intros Hne Hqs Hcq Hlt. unfold handleAnswerSubmit.
  rewrite Hne, Hqs, Hcq.
  destruct (Z.ltb_spec (Z.of_nat (currentIndex (component w)))
                       (Z.of_nat (length qs) - 1)) as [Hl|_]; [lia|].
  destruct w as [[] ?]. reflexivity.
Qed.

Lemma current_step_unmounted e w p : location w = Some p -> step e w = w.
Proof. unfold step. intros ->. reflexivity. Qed.

Lemma current_run_unmounted es w p : location w = Some p -> run es w = w.
Proof.
  unfold run. induction es as [|e es IH]; simpl; [reflexivity|].
  intros Hp. rewrite (current_step_unmounted e w p Hp). auto.
Qed.

(** What a step can do to the draft only. *)
Lemma current_clickOption_frame idx cq w :
  exists text, clickOption idx cq w = setState (setUserAnswer text) w.
Proof.
  unfold clickOption. destruct (isMcq cq ≫= (.!! idx)) as [o|]; [eauto|].
  exists (userAnswer (component w)). destruct w as [[] ?]. reflexivity.
Qed.

Lemma current_clickShowHint_frame cq w :
  exists b, clickShowHint cq w = setState (setShowHint b) w.
Proof.
  unfold clickShowHint.
  destruct (quiz (component w) ≫= mode) as [m|], (hint cq) as [h|];
    try (exists (showHint (component w)); destruct w as [[] ?]; reflexivity).
  destruct (String.eqb m "practice" && negb (falsy h)
            && negb (showHint (component w)));
    [eauto | exists (showHint (component w)); destruct w as [[] ?]; reflexivity].
Qed.
End CurrentSteps.

Section CurrentInvariants.
Context `{Runtime}.
Implicit Type w : World Current.State.
Import Current.

(** Every step has one of the shapes of [currentStep]. *)
Lemma current_step_shape e w : currentStep e w (step e w).
Proof.
  unfold step. destruct (location w) eqn:Hloc; [constructor|].
  destruct e as [text|idx| |now now'|r];
    [| | | |destruct (submitting (component w)) eqn:Hs;
            [by apply cs_settled with (r := r) | constructor]];
    destruct (render (component w)) as [| |cq|] eqn:Hr; try constructor.
  - destruct (current_clickOption_frame idx cq w) as [text ->]. constructor.
  - destruct (current_clickShowHint_frame cq w) as [b ->]. constructor.
  - destruct (current_render_card _ _ Hr) as (qs & Hqs & Hcq & Hsub).
    destruct (falsy (trim (userAnswer (component w)))) eqn:Hne.
    + rewrite current_submit_empty by done. by constructor.
    + destruct (decide (S (currentIndex (component w)) < length qs)) as [Hlt|Hge].
      * rewrite (current_submit_next now now' w qs cq) by done.
        by apply cs_next with (now := now) (now' := now') (qs := qs).
      * rewrite (current_submit_final now now' w qs cq) by done.
        by apply cs_final with (now' := now') (qs := qs).
Qed.

Lemma current_settled_frame r w :
  component (submitQuiz_settled r w) = component w
  \/ component (submitQuiz_settled r w) = setSubmitting false (component w).
Proof.
  unfold submitQuiz_settled.
  destruct r as [result|]; [destruct (result_id result)|]; simpl; auto.
Qed.

Lemma current_settled_requests r w :
  requests (submitQuiz_settled r w) = requests w
  /\ quizId (submitQuiz_settled r w) = quizId w.
Proof.
  unfold submitQuiz_settled.
  destruct r as [result|]; [destruct (result_id result)|]; simpl; auto.
Qed.

Lemma last_snoc_request (l : list Request) (x d : Request) :
  List.last (l ++ [x]) d = x.
Proof. apply List.last_last. Qed.

(** The invariant of a loaded session is kept by every step. *)
Lemma current_step_inv qs e w : currentInv qs w -> currentInv qs (step e w).
Proof.
  intros (Hqs & Hidx & Hreq).
  destruct (current_step_shape e w)
    as [ | text | b | Hloc Hne | now now' qs' cq He Hloc Hsub Hne Hqs' Hcq Hlt
       | now now' qs' cq He Hloc Hsub Hne Hqs' Hcq Hge | r He Hloc Hsub ];
    unfold currentInv in *; simpl in *; try done.
  - (* next question *)
    rewrite Hqs in Hqs'. injection Hqs' as <-.
    split; [done|]. split; [lia|].
    destruct (requests w); [|lia].
    destruct Hreq as [Hlen _]. rewrite length_app. simpl. split; [lia|done].
  - (* last question *)
    rewrite Hqs in Hqs'. injection Hqs' as <-.
    split; [done|]. split; [done|].
    destruct (requests w ++ _) eqn:E.
    + by destruct (requests w).
    + rewrite <- E. split; [lia|]. apply last_snoc_request.
  - (* the request settles *)
    destruct (current_settled_requests r w) as [-> ->].
    destruct (current_settled_frame r w) as [-> | ->]; simpl;
      (split; [done|]; split; [done|]);
      destruct (requests w); try done; destruct Hreq; congruence.
Qed.

Lemma current_run_inv qs es w : currentInv qs w -> currentInv qs (run es w).
Proof.
  unfold run. revert w. induction es as [|e es IH]; simpl; [done|].
  intros w Hinv. apply IH. by apply current_step_inv.
Qed.

(** Mounting either redirects to the quiz selection, with nothing loaded,
    or loads a quiz with at least one question. *)
Lemma current_mount_cases quizId storage t0 t1 now :
  let w := mount quizId storage t0 t1 now in
  (quiz (component w) = None /\ location w = Some "/quiz/select"
   /\ exists msg, toasts w = [msg])
  \/ (exists qs, qs <> [] /\ currentInv qs w /\ requests w = []
      /\ location w = None
      /\ questionStartTime (component w) = now
      /\ answers (component w) = []).
Proof.
  unfold mount, loadQuiz, getItem. simpl.
  destruct (storage !! "currentQuiz") as [text|]; [|left; eauto].
  destruct (falsy text); [left; eauto|].
  destruct (JSON_parse text) as [| |q]; [left; eauto|left; eauto|].
  destruct (questions q) as [qs|] eqn:Hqs; [|left; eauto].
  destruct (Nat.eqb_spec (length qs) 0) as [H0|Hn]; [left; eauto|].
  right. exists qs. unfold currentInv. simpl. rewrite Hqs.
  repeat split; try done.
  - by intros ->.
  - lia.
Qed.
End CurrentInvariants.

Section CurrentRecordAnswer.
Context `{Runtime}.
Implicit Type w : World Current.State.
Import Current.

Lemma countNonEmpty_cons rawInput now now' ins :
  countNonEmpty ((rawInput, now, now') :: ins)
  = (if nonEmpty rawInput then 1 else 0) + countNonEmpty ins.
Proof.
  unfold countNonEmpty. rewrite filter_cons. simpl.
  destruct (nonEmpty rawInput); by case_decide.
Qed.

Lemma current_inv_card qs w :
  currentInv qs w -> submitting (component w) = false ->
  exists cq, qs !! currentIndex (component w) = Some cq
             /\ render (component w) = QuestionCard cq.
Proof.
  intros (Hqs & Hidx & _) Hsub.
  destruct (lookup_lt_is_Some_2 qs _ Hidx) as [cq Hcq].
  exists cq. split; [done|]. unfold render.
  destruct (quiz (component w)) as [q|]; [|discriminate]. simpl in Hqs.
  rewrite Hsub, Hqs. destruct qs; [done|]. by rewrite Hcq.
Qed.

(** While the request is pending the card is not on screen: a call of
    [recordAnswer] finds no widget. *)
Lemma current_recordAnswer_submitting rawInput now now' w :
  submitting (component w) = true -> recordAnswer rawInput now now' w = w.
Proof.
  intros Hsub. unfold recordAnswer, step.
  destruct (location w) eqn:Hloc; rewrite ?Hloc; [done|].
  assert (Hr : render (component w) = LoadingState).
  { unfold render. destruct (quiz (component w)); [by rewrite Hsub|done]. }
  rewrite Hr. simpl. by rewrite Hloc, Hr.
Qed.

(** With the card on screen, [recordAnswer] is [handleAnswerSubmit] on
    the new draft. *)
Lemma current_recordAnswer_card rawInput now now' w cq :
  location w = None -> render (component w) = QuestionCard cq ->
  recordAnswer rawInput now now' w
  = handleAnswerSubmit now now' (setState (setUserAnswer rawInput) w).
Proof.
  intros Hloc Hcard. unfold recordAnswer.
  assert (H1 : step (Change rawInput) w = setState (setUserAnswer rawInput) w).
  { unfold step. by rewrite Hloc, Hcard. }
  rewrite H1. unfold step. simpl. rewrite Hloc.
  assert (Hcard1 : render (setUserAnswer rawInput (component w))
                   = QuestionCard cq) by exact Hcard.
  by rewrite Hcard1.
Qed.

(** One [recordAnswer] before any submission call. *)
Lemma current_recordAnswer_answering qs rawInput now now' w :
  currentInv qs w -> requests w = [] -> location w = None ->
  let w' := recordAnswer rawInput now now' w in
  let i := currentIndex (component w) in
  currentInv qs w' /\ location w' = None /\ quizId w' = quizId w /\
  if nonEmpty rawInput
  then if decide (S i < length qs)
       then requests w' = [] /\ currentIndex (component w') = S i
       else requests w' = [mkRequest "/quiz/submit" (quizId w)
                                     (answers (component w'))]
            /\ submitting (component w') = true
            /\ length (answers (component w')) = length qs
  else requests w' = [] /\ component w' = setUserAnswer rawInput (component w)
       /\ toasts w' = toasts w ++ ["Please provide an answer"].
Proof.
  intros Hinv Hreq Hloc w' i.
  assert (Hinv' : currentInv qs w') by (by do 2 apply current_step_inv).
  split; [done|].
  pose proof Hinv as (Hqs & Hidx & Hr). rewrite Hreq in Hr.
  destruct Hr as [Hlen Hsub].
  destruct (current_inv_card qs w Hinv Hsub) as (cq & Hcq & Hcard).
  subst w'. rewrite (current_recordAnswer_card rawInput now now' w cq) by done.
  set (w1 := setState (setUserAnswer rawInput) w).
  unfold nonEmpty.
  destruct (falsy (trim rawInput)) eqn:Hne; simpl.
  - rewrite current_submit_empty by done. subst w1. simpl. by rewrite Hreq.
  - destruct (decide (S i < length qs)) as [Hlt|Hge].
    + rewrite (current_submit_next now now' w1 qs cq) by done.
      subst w1. simpl. repeat split; try done. subst i. lia.
    + rewrite (current_submit_final now now' w1 qs cq) by done.
      subst w1. simpl. rewrite Hreq. repeat split; try done.
      rewrite length_app. simpl. subst i. lia.
Qed.

Lemma currentRecordAnswers_cons rawInput now now' ins w :
  currentRecordAnswers ((rawInput, now, now') :: ins) w
  = currentRecordAnswers ins (recordAnswer rawInput now now' w).
Proof. reflexivity. Qed.

Lemma currentRecordAnswers_submitting ins : forall w,
  submitting (component w) = true -> currentRecordAnswers ins w = w.
Proof.
  induction ins as [|[[rawInput now] now'] ins IH]; intros w Hsub; [done|].
  rewrite currentRecordAnswers_cons.
  rewrite current_recordAnswer_submitting by done. by apply IH.
Qed.

(** A run of [recordAnswer] calls from a session that has not submitted
    yet: what matters is how many inputs are not empty. *)
Lemma current_recordAnswers_outcome qs ins : forall w,
  currentInv qs w -> requests w = [] -> location w = None ->
  let w' := currentRecordAnswers ins w in
  let k := currentIndex (component w) + countNonEmpty ins in
  location w' = None /\
  if decide (k < length qs)
  then requests w' = [] /\ currentIndex (component w') = k
       /\ length (answers (component w')) = k
       /\ submitting (component w') = false
  else requests w' = [mkRequest "/quiz/submit" (quizId w)
                                (answers (component w'))]
       /\ submitting (component w') = true
       /\ length (answers (component w')) = length qs.
Proof.
  induction ins as [|[[rawInput now] now'] ins IH]; intros w Hinv Hreq Hloc.
  - cbn zeta. unfold countNonEmpty. simpl. rewrite Nat.add_0_r.
    destruct Hinv as (_ & Hidx & Hr). rewrite Hreq in Hr.
    split; [done|]. destruct (decide _); [|lia]. by destruct Hr.
  - cbn zeta. rewrite currentRecordAnswers_cons, countNonEmpty_cons.
    destruct (current_recordAnswer_answering qs rawInput now now' w
                Hinv Hreq Hloc) as (Hinv1 & Hloc1 & Hid1 & Hcase).
    destruct (nonEmpty rawInput).
    + destruct (decide (S (currentIndex (component w)) < length qs))
        as [Hlt|Hge].
      * destruct Hcase as [Hreq1 Hidx1].
        specialize (IH _ Hinv1 Hreq1 Hloc1). cbn zeta in IH.
        rewrite Hidx1, Hid1 in IH.
        replace (currentIndex (component w) + (1 + countNonEmpty ins))
          with (S (currentIndex (component w)) + countNonEmpty ins) by lia.
        exact IH.
      * destruct Hcase as (Hreq1 & Hsub1 & Hlen1).
        rewrite currentRecordAnswers_submitting by done.
        split; [done|]. destruct (decide _); [lia|done].
    + destruct Hcase as (Hreq1 & Hcomp & _).
      specialize (IH _ Hinv1 Hreq1 Hloc1). cbn zeta in IH.
      rewrite Hcomp, Hid1 in IH. simpl in IH. exact IH.
Qed.
End CurrentRecordAnswer.

Section CurrentIndexAndClock.
Context `{Runtime}.
Implicit Type w : World Current.State.
Import Current.

(** A step leaves [currentIndex] alone or adds one to it; it adds one
    exactly when it is a [Submit] that is accepted on a question that is
    not the last, and then the question's clock restarts at the second
    reading. *)
Lemma current_step_index e w :
  let w' := step e w in
  (currentIndex (component w') = currentIndex (component w)
   /\ questionStartTime (component w') = questionStartTime (component w))
  \/ (currentIndex (component w') = S (currentIndex (component w))
      /\ exists now now' qs,
           e = Submit now now'
           /\ questionStartTime (component w') = now'
           /\ falsy (trim (userAnswer (component w))) = false
           /\ quiz (component w) ≫= questions = Some qs
           /\ S (currentIndex (component w)) < length qs).
Proof.
  cbn zeta.
  destruct (current_step_shape e w)
    as [ | text | b | Hloc Hne | now now' qs' cq He Hloc Hsub Hne Hqs' Hcq Hlt
       | now now' qs' cq He Hloc Hsub Hne Hqs' Hcq Hge | r He Hloc Hsub ];
    simpl; auto.
  - right. split; [lia|]. exists now, now', qs'. done.
  - left. destruct (current_settled_frame r w) as [-> | ->]; done.
Qed.



(** [questionStartTime] is the reading at which the question on screen
    became current. *)
Lemma current_since_run es : forall w t,
  questionStartTime (component w) = t ->
  questionStartTime (component (run es w)) = currentSince t w es.
Proof.
  unfold run. induction es as [|e es IH]; intros w t Ht; simpl; [done|].
  apply IH.
  destruct (current_step_index e w)
    as [[Hi Hq]|(Hi & now & now' & qs & -> & Hq & _)].
  - rewrite decide_True by done. congruence.
  - rewrite decide_False by lia. done.
Qed.

(** The records a step adds. *)
Lemma current_step_answers e w :
  let w' := step e w in
  answers (component w') = answers (component w)
  \/ exists now now' cq,
       e = Submit now now'
       /\ answers (component w')
          = answers (component w)
            ++ [answerOf cq (userAnswer (component w))
                         (questionStartTime (component w)) now].
Proof.
  cbn zeta.
  destruct (current_step_shape e w)
    as [ | text | b | Hloc Hne | now now' qs' cq He Hloc Hsub Hne Hqs' Hcq Hlt
       | now now' qs' cq He Hloc Hsub Hne Hqs' Hcq Hge | r He Hloc Hsub ];
    simpl; eauto 6.
  left. destruct (current_settled_frame r w) as [-> | ->]; done.
Qed.

Lemma last_cons_default (x : Z) l d d' :
  List.last (x :: l) d = List.last (x :: l) d'.
Proof.
  revert x. induction l as [|y l IH]; intros x; [done|].
  change (List.last (y :: l) d = List.last (y :: l) d'). apply IH.
Qed.

Lemma monotoneFrom_app t l1 l2 :
  monotoneFrom t (l1 ++ l2) ->
  monotoneFrom t l1 /\ monotoneFrom (List.last l1 t) l2.
Proof.
  revert t. induction l1 as [|x l1 IH]; intros t; [done|].
  intros [Hle Hrest]. destruct (IH x Hrest) as [H1 H2].
  split; [by split|].
  destruct l1 as [|y l1]; [exact H2|].
  change (List.last (x :: y :: l1) t) with (List.last (y :: l1) t).
  by rewrite (last_cons_default y l1 t x).
Qed.

Lemma monotoneFrom_last_le t l : monotoneFrom t l -> (t <= List.last l t)%Z.
Proof.
  revert t. induction l as [|x l IH]; intros t; [simpl; lia|].
  intros [Hle Hrest]. specialize (IH x Hrest).
  destruct l as [|y l]; [simpl; lia|].
  change (List.last (x :: y :: l) t) with (List.last (y :: l) t).
  rewrite (last_cons_default y l t x). lia.
Qed.

(** Under a clock that never runs backwards no recorded time is negative. *)
Lemma current_run_nonneg es : forall w t,
  (questionStartTime (component w) <= t)%Z ->
  Forall (fun a => (0 <= time_taken a)%Q) (answers (component w)) ->
  monotoneFrom t (flat_map readings es) ->
  Forall (fun a => (0 <= time_taken a)%Q) (answers (component (run es w))).
Proof.
  unfold run. induction es as [|e es IH]; intros w t Hq Hall Hmono; [done|].
  simpl in *. apply monotoneFrom_app in Hmono as [Hme Hrest].
  pose proof (monotoneFrom_last_le _ _ Hme) as Hlast.
  apply (IH _ (List.last (readings e) t)); [| |done].
  - destruct (current_step_index e w)
      as [[_ ->]|(_ & now & now' & _ & -> & -> & _)]; simpl; lia.
  - destruct (current_step_answers e w)
      as [->|(now & now' & cq & -> & ->)]; [done|].
    apply Forall_app. split; [done|]. apply Forall_singleton. simpl.
    apply time_taken_nonneg. simpl in Hme. lia.
Qed.

End CurrentIndexAndClock.

(** ** The legacy copy, one event at a time *)

Section LegacySteps.
Context `{Runtime}.
Implicit Type w : World Legacy.State.
Import Legacy.

Lemma legacy_render_card s cq :
  render s = QuestionCard cq ->
  exists qs, quiz s ≫= questions = Some qs /\ qs !! currentIndex s = Some cq
             /\ submitting s = false.
Proof.
  unfold render. destruct (quiz s) as [q|]; [|discriminate]. simpl.
  destruct (submitting s); [discriminate|].
  destruct (questions q) as [qs|]; [|discriminate]. simpl.
  destruct (qs !! currentIndex s) eqn:E; [|discriminate].
  intros [= <-]. eauto.
Qed.

(** The three outcomes of [handleAnswerSubmit] on a question that exists. *)
Lemma legacy_submit_empty now now' w :
  falsy (trim (userAnswer (component w))) = true ->
  handleAnswerSubmit now now' w = toast_error "Please provide an answer" w.
Proof. unfold handleAnswerSubmit. intros ->. reflexivity. Qed.

Lemma legacy_submit_next now now' w qs cq :
  falsy (trim (userAnswer (component w))) = false ->
  quiz (component w) ≫= questions = Some qs ->
  qs !! currentIndex (component w) = Some cq ->
  S (currentIndex (component w)) < length qs ->
  handleAnswerSubmit now now' w
  = setState (fun s =>
      mkState (quiz s) (currentIndex s + 1)
              (answers s ++ [answerOf cq (userAnswer s) (questionStartTime s) now])
              EmptyString (startTime s) now' (submitting s)) w.
Proof.
  intros Hne Hqs Hcq Hlt. unfold handleAnswerSubmit.
  rewrite Hne, Hqs, Hcq.
  destruct (Z.ltb_spec (Z.of_nat (currentIndex (component w)))
                       (Z.of_nat (length qs) - 1)) as [_|Hge]; [|lia].
  destruct w as [[] ?]. reflexivity.
Qed.

Lemma legacy_submit_final now now' w qs cq :
  falsy (trim (userAnswer (component w))) = false ->
  quiz (component w) ≫= questions = Some qs ->
  qs !! currentIndex (component w) = Some cq ->
  ~ S (currentIndex (component w)) < length qs ->
  handleAnswerSubmit now now' w
  = api_post "/quiz/submit" (quizId w)
      (answers (component w)
       ++ [answerOf cq (userAnswer (component w))
                    (questionStartTime (component w)) now])
      (setState (fun s =>
         mkState (quiz s) (currentIndex s)
                 (answers s ++ [answerOf cq (userAnswer s) (questionStartTime s) now])
                 EmptyString (startTime s) (questionStartTime s) true) w).
Proof.
  intros Hne Hqs Hcq Hlt. unfold handleAnswerSubmit.
  rewrite Hne, Hqs, Hcq.
  destruct (Z.ltb_spec (Z.of_nat (currentIndex (component w)))
                       (Z.of_nat (length qs) - 1)) as [Hl|_]; [lia|].
  destruct w as [[] ?]. reflexivity.
Qed.

Lemma legacy_step_unmounted e w p : location w = Some p -> step e w = w.
Proof. unfold step. intros ->. reflexivity. Qed.

Lemma legacy_run_unmounted es w p : location w = Some p -> run es w = w.
Proof.
  unfold run. induction es as [|e es IH]; simpl; [reflexivity|].
  intros Hp. rewrite (legacy_step_unmounted e w p Hp). auto.
Qed.

(** What a step can do to the draft only. *)
Lemma legacy_clickOption_frame idx cq w :
  exists text, clickOption idx cq w = setState (setUserAnswer text) w.
Proof.
  unfold clickOption. destruct (isMcq cq ≫= (.!! idx)) as [o|]; [eauto|].
  exists (userAnswer (component w)). destruct w as [[] ?]. reflexivity.
Qed.

End LegacySteps.

Section LegacyInvariants.
Context `{Runtime}.
Implicit Type w : World Legacy.State.
Import Legacy.

(** Every step has one of the shapes of [legacyStep]. *)
Lemma legacy_step_shape e w : legacyStep e w (step e w).
Proof.
  unfold step. destruct (location w) eqn:Hloc; [constructor|].
  destruct e as [text|idx| |now now'|r];
    [| | | |destruct (submitting (component w)) eqn:Hs;
            [by apply ls_settled with (r := r) | constructor]];
    destruct (render (component w)) as [| |cq|] eqn:Hr; try constructor.
  - destruct (legacy_clickOption_frame idx cq w) as [text ->]. constructor.
  - destruct (legacy_render_card _ _ Hr) as (qs & Hqs & Hcq & Hsub).
    destruct (falsy (trim (userAnswer (component w)))) eqn:Hne.
    + rewrite legacy_submit_empty by done. by constructor.
    + destruct (decide (S (currentIndex (component w)) < length qs)) as [Hlt|Hge].
      * rewrite (legacy_submit_next now now' w qs cq) by done.
        by apply ls_next with (now := now) (now' := now') (qs := qs).
      * rewrite (legacy_submit_final now now' w qs cq) by done.
        by apply ls_final with (now' := now') (qs := qs).
Qed.

Lemma legacy_settled_frame r w :
  component (submitQuiz_settled r w) = component w
  \/ component (submitQuiz_settled r w) = setSubmitting false (component w).
Proof.
  unfold submitQuiz_settled.
  destruct r as [result|]; [destruct (result_id result)|]; simpl; auto.
Qed.

Lemma legacy_settled_requests r w :
  requests (submitQuiz_settled r w) = requests w
  /\ quizId (submitQuiz_settled r w) = quizId w.
Proof.
  unfold submitQuiz_settled.
  destruct r as [result|]; [destruct (result_id result)|]; simpl; auto.
Qed.

(** The invariant of a loaded session is kept by every step. *)
Lemma legacy_step_inv qs e w : legacyInv qs w -> legacyInv qs (step e w).
Proof.
  intros (Hqs & Hidx & Hreq).
  destruct (legacy_step_shape e w)
    as [ | text | Hloc Hne | now now' qs' cq He Hloc Hsub Hne Hqs' Hcq Hlt
       | now now' qs' cq He Hloc Hsub Hne Hqs' Hcq Hge | r He Hloc Hsub ];
    unfold legacyInv in *; simpl in *; try done.
  - (* next question *)
    rewrite Hqs in Hqs'. injection Hqs' as <-.
    split; [done|]. split; [lia|].
    destruct (requests w); [|lia].
    destruct Hreq as [Hlen _]. rewrite length_app. simpl. split; [lia|done].
  - (* last question *)
    rewrite Hqs in Hqs'. injection Hqs' as <-.
    split; [done|]. split; [done|].
    destruct (requests w ++ _) eqn:E.
    + by destruct (requests w).
    + rewrite <- E. split; [lia|]. apply last_snoc_request.
  - (* the request settles *)
    destruct (legacy_settled_requests r w) as [-> ->].
    destruct (legacy_settled_frame r w) as [-> | ->]; simpl;
      (split; [done|]; split; [done|]);
      destruct (requests w); try done; destruct Hreq; congruence.
Qed.

Lemma legacy_run_inv qs es w : legacyInv qs w -> legacyInv qs (run es w).
Proof.
  unfold run. revert w. induction es as [|e es IH]; simpl; [done|].
  intros w Hinv. apply IH. by apply legacy_step_inv.
Qed.

(** Mounting loads whatever object the slot holds; nothing is loaded
    when the slot is empty or holds [null], or when [JSON.parse] throws. *)
Lemma legacy_mount_cases quizId storage t0 t1 now :
  let w := mount quizId storage t0 t1 now in
  requests w = [] /\ answers (component w) = []
  /\ currentIndex (component w) = 0 /\ submitting (component w) = false
  /\ (quiz (component w) = None
      \/ (location w = None /\ questionStartTime (component w) = now
          /\ exists q, quiz (component w) = Some q)).
Proof.
  unfold mount, loadQuiz, getItem. simpl.
  destruct (storage !! "currentQuiz") as [text|];
    [|repeat split; by auto].
  destruct (falsy text); [repeat split; by auto|].
  destruct (JSON_parse text) as [| |q]; simpl; repeat split; eauto.
Qed.

(** A loaded quiz with at least one question starts the invariant. *)
Lemma legacy_mount_inv quizId storage t0 t1 now qs :
  let w := mount quizId storage t0 t1 now in
  quiz (component w) ≫= questions = Some qs -> qs <> [] ->
  legacyInv qs w /\ requests w = [] /\ location w = None
  /\ questionStartTime (component w) = now.
Proof.
  intros w Hqs Hne.
  destruct (legacy_mount_cases quizId storage t0 t1 now)
    as (Hreq & Hans & Hidx & Hsub & Hq). fold w in Hreq, Hans, Hidx, Hsub, Hq.
  destruct Hq as [Hq|(Hloc & Hnow & q & Hq)].
  { rewrite Hq in Hqs. discriminate. }
  split; [|done]. unfold legacyInv. cbn zeta.
  rewrite Hreq, Hans, Hidx, Hsub. repeat split; try done.
  destruct qs; [done|simpl; lia].
Qed.

(** Without a question at [currentIndex] rendering throws and no widget
    exists: nothing changes any more. *)
Lemma legacy_step_no_card e w :
  submitting (component w) = false ->
  (forall cq, render (component w) <> QuestionCard cq) -> step e w = w.
Proof.
  intros Hsub Hno. unfold step. destruct (location w); [done|].
  destruct e; rewrite ?Hsub; try done;
    destruct (render (component w)) eqn:Hr; try done; by destruct (Hno q).
Qed.

Lemma legacy_run_no_card es w :
  submitting (component w) = false ->
  (forall cq, render (component w) <> QuestionCard cq) -> run es w = w.
Proof.
  intros Hsub Hno. unfold run.
  induction es as [|e es IH]; simpl; [done|].
  by rewrite legacy_step_no_card.
Qed.
End LegacyInvariants.

Section LegacyRecordAnswer.
Context `{Runtime}.
Implicit Type w : World Legacy.State.
Import Legacy.

Lemma legacy_inv_card qs w :
  legacyInv qs w -> submitting (component w) = false ->
  exists cq, qs !! currentIndex (component w) = Some cq
             /\ render (component w) = QuestionCard cq.
Proof.
  intros (Hqs & Hidx & _) Hsub.
  destruct (lookup_lt_is_Some_2 qs _ Hidx) as [cq Hcq].
  exists cq. split; [done|]. unfold render.
  destruct (quiz (component w)) as [q|]; [|discriminate]. simpl in Hqs.
  rewrite Hsub, Hqs. simpl. by rewrite Hcq.
Qed.

(** While the request is pending the card is not on screen: a call of
    [recordAnswer] finds no widget. *)
Lemma legacy_recordAnswer_submitting rawInput now now' w :
  submitting (component w) = true -> recordAnswer rawInput now now' w = w.
Proof.
  intros Hsub. unfold recordAnswer, step.
  destruct (location w) eqn:Hloc; rewrite ?Hloc; [done|].
  assert (Hr : render (component w) = LoadingState).
  { unfold render. destruct (quiz (component w)); [by rewrite Hsub|done]. }
  rewrite Hr. simpl. by rewrite Hloc, Hr.
Qed.

(** With the card on screen, [recordAnswer] is [handleAnswerSubmit] on
    the new draft. *)
Lemma legacy_recordAnswer_card rawInput now now' w cq :
  location w = None -> render (component w) = QuestionCard cq ->
  recordAnswer rawInput now now' w
  = handleAnswerSubmit now now' (setState (setUserAnswer rawInput) w).
Proof.
  intros Hloc Hcard. unfold recordAnswer.
  assert (H1 : step (Change rawInput) w = setState (setUserAnswer rawInput) w).
  { unfold step. by rewrite Hloc, Hcard. }
  rewrite H1. unfold step. simpl. rewrite Hloc.
  assert (Hcard1 : render (setUserAnswer rawInput (component w))
                   = QuestionCard cq) by exact Hcard.
  by rewrite Hcard1.
Qed.

(** One [recordAnswer] before any submission call. *)
Lemma legacy_recordAnswer_answering qs rawInput now now' w :
  legacyInv qs w -> requests w = [] -> location w = None ->
  let w' := recordAnswer rawInput now now' w in
  let i := currentIndex (component w) in
  legacyInv qs w' /\ location w' = None /\ quizId w' = quizId w /\
  if nonEmpty rawInput
  then if decide (S i < length qs)
       then requests w' = [] /\ currentIndex (component w') = S i
       else requests w' = [mkRequest "/quiz/submit" (quizId w)
                                     (answers (component w'))]
            /\ submitting (component w') = true
            /\ length (answers (component w')) = length qs
  else requests w' = [] /\ component w' = setUserAnswer rawInput (component w)
       /\ toasts w' = toasts w ++ ["Please provide an answer"].
Proof.
  intros Hinv Hreq Hloc w' i.
  assert (Hinv' : legacyInv qs w') by (by do 2 apply legacy_step_inv).
  split; [done|].
  pose proof Hinv as (Hqs & Hidx & Hr). rewrite Hreq in Hr.
  destruct Hr as [Hlen Hsub].
  destruct (legacy_inv_card qs w Hinv Hsub) as (cq & Hcq & Hcard).
  subst w'. rewrite (legacy_recordAnswer_card rawInput now now' w cq) by done.
  set (w1 := setState (setUserAnswer rawInput) w).
  unfold nonEmpty.
  destruct (falsy (trim rawInput)) eqn:Hne; simpl.
  - rewrite legacy_submit_empty by done. subst w1. simpl. by rewrite Hreq.
  - destruct (decide (S i < length qs)) as [Hlt|Hge].
    + rewrite (legacy_submit_next now now' w1 qs cq) by done.
      subst w1. simpl. repeat split; try done. subst i. lia.
    + rewrite (legacy_submit_final now now' w1 qs cq) by done.
      subst w1. simpl. rewrite Hreq. repeat split; try done.
      rewrite length_app. simpl. subst i. lia.
Qed.

Lemma legacyRecordAnswers_cons rawInput now now' ins w :
  legacyRecordAnswers ((rawInput, now, now') :: ins) w
  = legacyRecordAnswers ins (recordAnswer rawInput now now' w).
Proof. reflexivity. Qed.

Lemma legacyRecordAnswers_submitting ins : forall w,
  submitting (component w) = true -> legacyRecordAnswers ins w = w.
Proof.
  induction ins as [|[[rawInput now] now'] ins IH]; intros w Hsub; [done|].
  rewrite legacyRecordAnswers_cons.
  rewrite legacy_recordAnswer_submitting by done. by apply IH.
Qed.

(** A run of [recordAnswer] calls from a session that has not submitted
    yet: what matters is how many inputs are not empty. *)
Lemma legacy_recordAnswers_outcome qs ins : forall w,
  legacyInv qs w -> requests w = [] -> location w = None ->
  let w' := legacyRecordAnswers ins w in
  let k := currentIndex (component w) + countNonEmpty ins in
  location w' = None /\
  if decide (k < length qs)
  then requests w' = [] /\ currentIndex (component w') = k
       /\ length (answers (component w')) = k
       /\ submitting (component w') = false
  else requests w' = [mkRequest "/quiz/submit" (quizId w)
                                (answers (component w'))]
       /\ submitting (component w') = true
       /\ length (answers (component w')) = length qs.
Proof.
  induction ins as [|[[rawInput now] now'] ins IH]; intros w Hinv Hreq Hloc.
  - cbn zeta. unfold countNonEmpty. simpl. rewrite Nat.add_0_r.
    destruct Hinv as (_ & Hidx & Hr). rewrite Hreq in Hr.
    split; [done|]. destruct (decide _); [|lia]. by destruct Hr.
  - cbn zeta. rewrite legacyRecordAnswers_cons, countNonEmpty_cons.
    destruct (legacy_recordAnswer_answering qs rawInput now now' w
                Hinv Hreq Hloc) as (Hinv1 & Hloc1 & Hid1 & Hcase).
    destruct (nonEmpty rawInput).
    + destruct (decide (S (currentIndex (component w)) < length qs))
        as [Hlt|Hge].
      * destruct Hcase as [Hreq1 Hidx1].
        specialize (IH _ Hinv1 Hreq1 Hloc1). cbn zeta in IH.
        rewrite Hidx1, Hid1 in IH.
        replace (currentIndex (component w) + (1 + countNonEmpty ins))
          with (S (currentIndex (component w)) + countNonEmpty ins) by lia.
        exact IH.
      * destruct Hcase as (Hreq1 & Hsub1 & Hlen1).
        rewrite legacyRecordAnswers_submitting by done.
        split; [done|]. destruct (decide _); [lia|done].
    + destruct Hcase as (Hreq1 & Hcomp & _).
      specialize (IH _ Hinv1 Hreq1 Hloc1). cbn zeta in IH.
      rewrite Hcomp, Hid1 in IH. simpl in IH. exact IH.
Qed.
End LegacyRecordAnswer.

Section LegacyIndexAndClock.
Context `{Runtime}.
Implicit Type w : World Legacy.State.
Import Legacy.

(** A step leaves [currentIndex] alone or adds one to it; it adds one
    exactly when it is a [Submit] that is accepted on a question that is
    not the last, and then the question's clock restarts at the second
    reading. *)
Lemma legacy_step_index e w :
  let w' := step e w in
  (currentIndex (component w') = currentIndex (component w)
   /\ questionStartTime (component w') = questionStartTime (component w))
  \/ (currentIndex (component w') = S (currentIndex (component w))
      /\ exists now now' qs,
           e = Submit now now'
           /\ questionStartTime (component w') = now'
           /\ falsy (trim (userAnswer (component w))) = false
           /\ quiz (component w) ≫= questions = Some qs
           /\ S (currentIndex (component w)) < length qs).
Proof.
  cbn zeta.
  destruct (legacy_step_shape e w)
    as [ | text | Hloc Hne | now now' qs' cq He Hloc Hsub Hne Hqs' Hcq Hlt
       | now now' qs' cq He Hloc Hsub Hne Hqs' Hcq Hge | r He Hloc Hsub ];
    simpl; auto.
  - right. split; [lia|]. exists now, now', qs'. done.
  - left. destruct (legacy_settled_frame r w) as [-> | ->]; done.
Qed.



(** [questionStartTime] is the reading at which the question on screen
    became current. *)
Lemma legacy_since_run es : forall w t,
  questionStartTime (component w) = t ->
  questionStartTime (component (run es w)) = legacySince t w es.
Proof.
  unfold run. induction es as [|e es IH]; intros w t Ht; simpl; [done|].
  apply IH.
  destruct (legacy_step_index e w)
    as [[Hi Hq]|(Hi & now & now' & qs & -> & Hq & _)].
  - rewrite decide_True by done. congruence.
  - rewrite decide_False by lia. done.
Qed.

(** The records a step adds. *)
Lemma legacy_step_answers e w :
  let w' := step e w in
  answers (component w') = answers (component w)
  \/ exists now now' cq,
       e = Submit now now'
       /\ answers (component w')
          = answers (component w)
            ++ [answerOf cq (userAnswer (component w))
                         (questionStartTime (component w)) now].
Proof.
  cbn zeta.
  destruct (legacy_step_shape e w)
    as [ | text | Hloc Hne | now now' qs' cq He Hloc Hsub Hne Hqs' Hcq Hlt
       | now now' qs' cq He Hloc Hsub Hne Hqs' Hcq Hge | r He Hloc Hsub ];
    simpl; eauto 6.
  left. destruct (legacy_settled_frame r w) as [-> | ->]; done.
Qed.

(** Under a clock that never runs backwards no recorded time is negative. *)
Lemma legacy_run_nonneg es : forall w t,
  (questionStartTime (component w) <= t)%Z ->
  Forall (fun a => (0 <= time_taken a)%Q) (answers (component w)) ->
  monotoneFrom t (flat_map readings es) ->
  Forall (fun a => (0 <= time_taken a)%Q) (answers (component (run es w))).
Proof.
  unfold run. induction es as [|e es IH]; intros w t Hq Hall Hmono; [done|].
  simpl in *. apply monotoneFrom_app in Hmono as [Hme Hrest].
  pose proof (monotoneFrom_last_le _ _ Hme) as Hlast.
  apply (IH _ (List.last (readings e) t)); [| |done].
  - destruct (legacy_step_index e w)
      as [[_ ->]|(_ & now & now' & _ & -> & -> & _)]; simpl; lia.
  - destruct (legacy_step_answers e w)
      as [->|(now & now' & cq & -> & ->)]; [done|].
    apply Forall_app. split; [done|]. apply Forall_singleton. simpl.
    apply time_taken_nonneg. simpl in Hme. lia.
Qed.

End LegacyIndexAndClock.
(** ** The two copies side by side *)

Section Simulation.
Context `{Runtime}.
Implicit Type w : World Current.State.

Lemma forget_render s :
  Legacy.render (forget s)
  = match Current.render s with
    | NoQuestionsAvailable => RenderThrows
    | screen => screen
    end.
Proof.
  unfold Legacy.render, Current.render, forget. simpl.
  destruct (Current.quiz s) as [q|]; [|done].
  destruct (Current.submitting s); [done|].
  destruct (questions q) as [[|q0 qs]|]; simpl; try done.
  by destruct ((q0 :: qs) !! Current.currentIndex s).
Qed.

Lemma forget_handleAnswerSubmit now now' w :
  forgetW (Current.handleAnswerSubmit now now' w)
  = Legacy.handleAnswerSubmit now now' (forgetW w).
Proof.
  unfold Current.handleAnswerSubmit, Legacy.handleAnswerSubmit. simpl.
  destruct (falsy (trim (Current.userAnswer (component w)))); [done|].
  destruct (Current.quiz (component w) ≫= questions) as [qs|]; [|done].
  destruct (qs !! Current.currentIndex (component w)) as [cq|]; [|done].
  by destruct (_ <? _)%Z.
Qed.

Lemma forget_settled r w :
  forgetW (Current.submitQuiz_settled r w)
  = Legacy.submitQuiz_settled r (forgetW w).
Proof.
  unfold Current.submitQuiz_settled, Legacy.submitQuiz_settled.
  destruct r as [result|]; [|done]. by destruct (result_id result).
Qed.

Lemma forget_clickOption idx cq w :
  forgetW (Current.clickOption idx cq w)
  = Legacy.clickOption idx cq (forgetW w).
Proof.
  unfold Current.clickOption, Legacy.clickOption.
  by destruct (isMcq cq ≫= (.!! idx)).
Qed.

(** Each step of the current copy is, once the hint flag is forgotten,
    the step of the legacy copy on the same event. *)
Lemma forget_step e w :
  forgetW (Current.step e w) = Legacy.step e (forgetW w).
Proof.
  unfold Current.step, Legacy.step.
  change (location (forgetW w)) with (location w).
  destruct (location w); [done|].
  change (component (forgetW w)) with (forget (component w)).
  assert (Hsettle : forall r,
    forgetW (if Current.submitting (component w)
             then Current.submitQuiz_settled r w else w)
    = if Legacy.submitting (forget (component w))
      then Legacy.submitQuiz_settled r (forgetW w) else forgetW w).
  { intros r. simpl. destruct (Current.submitting (component w)); [|done].
    apply forget_settled. }
  rewrite forget_render.
  destruct e as [text|idx| |now now'|r]; try apply Hsettle;
    destruct (Current.render (component w)) as [| |cq|]; try done.
  - apply forget_clickOption.
  - destruct (current_clickShowHint_frame cq w) as [b ->]. done.
  - apply forget_handleAnswerSubmit.
Qed.

Lemma forget_run es : forall w,
  forgetW (Current.run es w) = Legacy.run es (forgetW w).
Proof.
  unfold Current.run, Legacy.run.
  induction es as [|e es IH]; intros w; simpl; [done|].
  by rewrite IH, forget_step.
Qed.

Lemma forget_recordAnswers ins : forall w,
  forgetW (currentRecordAnswers ins w) = legacyRecordAnswers ins (forgetW w).
Proof.
  unfold currentRecordAnswers, legacyRecordAnswers.
  induction ins as [|[[rawInput now] now'] ins IH]; intros w; simpl; [done|].
  rewrite IH. unfold Current.recordAnswer, Legacy.recordAnswer.
  by rewrite !forget_step.
Qed.

(** The load effects agree whenever the current copy accepts the quiz. *)
Lemma forget_mount quizId storage t0 t1 now :
  Current.status (Current.mount quizId storage t0 t1 now) = Answering ->
  forgetW (Current.mount quizId storage t0 t1 now)
  = Legacy.mount quizId storage t0 t1 now.
Proof.
  unfold Current.mount, Legacy.mount, Current.loadQuiz, Legacy.loadQuiz,
    getItem, Current.status. simpl.
  destruct (storage !! "currentQuiz") as [text|]; [|done].
  destruct (falsy text); [done|].
  destruct (JSON_parse text) as [| |q]; try done.
  destruct (questions q) as [qs|]; [|done].
  by destruct (length qs =? 0)%nat.
Qed.

Lemma current_step_provisional e w :
  allProvisional (Current.answers (component w)) (requests w) ->
  allProvisional (Current.answers (component (Current.step e w)))
                 (requests (Current.step e w)).
Proof.
  intros [Ha Hr].
  destruct (current_step_shape e w)
    as [ | text | b | Hloc Hne | now now' qs' cq He Hloc Hsub Hne Hqs' Hcq Hlt
       | now now' qs' cq He Hloc Hsub Hne Hqs' Hcq Hge | r He Hloc Hsub ];
    unfold allProvisional; simpl; try done.
  - split; [|done]. apply Forall_app. split; [done|]. by apply Forall_singleton.
  - assert (Hnew : Forall (fun a => is_correct a = false)
             (Current.answers (component w)
              ++ [answerOf cq (Current.userAnswer (component w))
                           (Current.questionStartTime (component w)) now])).
    { apply Forall_app. split; [done|]. by apply Forall_singleton. }
    split; [done|]. apply Forall_app. split; [done|]. by apply Forall_singleton.
  - destruct (current_settled_requests r w) as [-> _].
    by destruct (current_settled_frame r w) as [-> | ->].
Qed.

Lemma current_run_provisional es : forall w,
  allProvisional (Current.answers (component w)) (requests w) ->
  allProvisional (Current.answers (component (Current.run es w)))
                 (requests (Current.run es w)).
Proof.
  unfold Current.run. induction es as [|e es IH]; intros w Hp; [done|].
  simpl. apply IH. by apply current_step_provisional.
Qed.

Lemma current_mount_provisional quizId storage t0 t1 now :
  allProvisional
    (Current.answers (component (Current.mount quizId storage t0 t1 now)))
    (requests (Current.mount quizId storage t0 t1 now)).
Proof.
  destruct (current_mount_cases quizId storage t0 t1 now)
    as [(Hq & Hloc & _)|(qs & _ & _ & -> & _ & _ & ->)]; [|by split].
  unfold Current.mount, Current.loadQuiz, getItem. simpl.
  destruct (storage !! "currentQuiz") as [text|]; [|by split].
  destruct (falsy text); [by split|].
  destruct (JSON_parse text) as [| |q]; try by split.
  destruct (questions q) as [qs|]; [|by split].
  by destruct (length qs =? 0)%nat.
Qed.
End Simulation.

Section RecordAnswersFacts.
Context `{Runtime}.

Lemma currentRecordAnswers_inv qs ins : forall w,
  currentInv qs w -> currentInv qs (currentRecordAnswers ins w).
Proof.
  induction ins as [|[[r n] n'] ins IH]; intros w Hinv; [done|].
  rewrite currentRecordAnswers_cons. apply IH. unfold Current.recordAnswer.
  by do 2 apply current_step_inv.
Qed.

Lemma legacyRecordAnswers_inv qs ins : forall w,
  legacyInv qs w -> legacyInv qs (legacyRecordAnswers ins w).
Proof.
  induction ins as [|[[r n] n'] ins IH]; intros w Hinv; [done|].
  rewrite legacyRecordAnswers_cons. apply IH. unfold Legacy.recordAnswer.
  by do 2 apply legacy_step_inv.
Qed.

Lemma currentRecordAnswers_unmounted ins p : forall w,
  location w = Some p -> currentRecordAnswers ins w = w.
Proof.
  induction ins as [|[[r n] n'] ins IH]; intros w Hloc; [done|].
  rewrite currentRecordAnswers_cons. unfold Current.recordAnswer.
  rewrite !(current_step_unmounted _ _ _ Hloc). by apply IH.
Qed.

Lemma current_status_answering w :
  location w = None -> Current.submitting (component w) = false ->
  is_Some (Current.quiz (component w)) -> Current.status w = Answering.
Proof.
  intros Hloc Hsub [q Hq]. unfold Current.status. by rewrite Hloc, Hq, Hsub.
Qed.

Lemma current_status_submitting w :
  location w = None -> Current.submitting (component w) = true ->
  is_Some (Current.quiz (component w)) -> Current.status w = Submitting.
Proof.
  intros Hloc Hsub [q Hq]. unfold Current.status. by rewrite Hloc, Hq, Hsub.
Qed.

Lemma legacy_status_answering (w : World Legacy.State) :
  location w = None -> Legacy.submitting (component w) = false ->
  is_Some (Legacy.quiz (component w)) -> Legacy.status w = Answering.
Proof.
  intros Hloc Hsub [q Hq]. unfold Legacy.status. by rewrite Hloc, Hq, Hsub.
Qed.

Lemma legacy_status_submitting (w : World Legacy.State) :
  location w = None -> Legacy.submitting (component w) = true ->
  is_Some (Legacy.quiz (component w)) -> Legacy.status w = Submitting.
Proof.
  intros Hloc Hsub [q Hq]. unfold Legacy.status. by rewrite Hloc, Hq, Hsub.
Qed.

Lemma current_inv_quiz qs w : currentInv qs w -> is_Some (Current.quiz (component w)).
Proof.
  intros (Hqs & _). destruct (Current.quiz (component w)); [eauto|done].
Qed.

Lemma legacy_inv_quiz qs (w : World Legacy.State) :
  legacyInv qs w -> is_Some (Legacy.quiz (component w)).
Proof.
  intros (Hqs & _). destruct (Legacy.quiz (component w)); [eauto|done].
Qed.
End RecordAnswersFacts.

(** * The claims *)

(** ** C1: records held and question index *)

(** C1, as stated, fails: after the only question was answered and the
    submission request was rejected, the session is back in the Answering
    status with one record held while [currentIndex] is still 0. *)
Lemma C1_counterexample :
  let w := Current.run failedOnce sampleSession in
  Current.status w = Answering
  /\ length (Current.answers (component w)) = 1
  /\ Current.currentIndex (component w) = 0
  /\ length (Current.answers (component w)) <> Current.currentIndex (component w).
Proof. vm_compute. repeat split; congruence. Qed.

(** Without a question at [currentIndex] no [recordAnswer] call of the
    legacy copy changes anything. *)
Lemma legacyRecordAnswers_no_card `{Runtime} ins (w : World Legacy.State) :
  Legacy.submitting (component w) = false ->
  (forall cq, Legacy.render (component w) <> QuestionCard cq) ->
  legacyRecordAnswers ins w = w.
Proof.
  intros Hsub Hno. induction ins as [|[[r n] n'] ins IH]; [done|].
  rewrite legacyRecordAnswers_cons. unfold Legacy.recordAnswer.
  rewrite (legacy_step_no_card (Change r) w) by done.
  by rewrite (legacy_step_no_card (Submit n n') w).
Qed.

(** C1, amended: in every session, in both copies, that is in the Answering
    status and has not called the submission endpoint yet, the number of
    records held equals [currentIndex]; after [recordAnswer] calls of
    which [k] have a non-empty input, [k] below the number of questions, the
    session is in the Answering status with [k] records and
    [currentIndex = k], in both copies; and the records are only ever
    appended to, one at a time. *)
Theorem C1_answers_track_index `{Runtime} quizId storage t0 t1 now es ins e :
  let c := Current.run es (Current.mount quizId storage t0 t1 now) in
  let l := Legacy.run es (Legacy.mount quizId storage t0 t1 now) in
  let c' := currentRecordAnswers ins (Current.mount quizId storage t0 t1 now) in
  let l' := legacyRecordAnswers ins (Legacy.mount quizId storage t0 t1 now) in
  (Current.status c = Answering -> requests c = [] ->
   length (Current.answers (component c)) = Current.currentIndex (component c))
  /\ (Legacy.status l = Answering -> requests l = [] ->
      length (Legacy.answers (component l)) = Legacy.currentIndex (component l))
  /\ (forall qs,
        Current.quiz (component c') ≫= questions = Some qs ->
        countNonEmpty ins < length qs ->
        Current.status c' = Answering
        /\ length (Current.answers (component c')) = countNonEmpty ins
        /\ Current.currentIndex (component c') = countNonEmpty ins)
  /\ (forall qs,
        Legacy.quiz (component l') ≫= questions = Some qs ->
        countNonEmpty ins < length qs ->
        Legacy.status l' = Answering
        /\ length (Legacy.answers (component l')) = countNonEmpty ins
        /\ Legacy.currentIndex (component l') = countNonEmpty ins)
  /\ (Current.answers (component (Current.step e c))
      = Current.answers (component c)
      \/ exists record,
           Current.answers (component (Current.step e c))
           = Current.answers (component c) ++ [record])
  /\ (Legacy.answers (component (Legacy.step e l))
      = Legacy.answers (component l)
      \/ exists record,
           Legacy.answers (component (Legacy.step e l))
           = Legacy.answers (component l) ++ [record]).
Proof.
  cbn zeta. split; [|split; [|split; [|split; [|split]]]];
    [| | | |destruct (current_step_answers e
                      (Current.run es (Current.mount quizId storage t0 t1 now)))
            as [->|(n & n' & cq & _ & ->)]; eauto
         |destruct (legacy_step_answers e
                      (Legacy.run es (Legacy.mount quizId storage t0 t1 now)))
            as [->|(n & n' & cq & _ & ->)]; eauto].
  - destruct (current_mount_cases quizId storage t0 t1 now)
      as [(Hq & Hloc & _)|(qs & _ & Hinv & _)].
    + rewrite (current_run_unmounted es _ _ Hloc).
      unfold Current.status. by rewrite Hloc.
    + intros _ Hreq.
      destruct (current_run_inv qs es _ Hinv) as (_ & _ & Hr).
      rewrite Hreq in Hr. by destruct Hr.
  - intros _.
    destruct (legacy_mount_cases quizId storage t0 t1 now)
      as (Hreq & Hans & Hidx & Hsub & Hq).
    set (w0 := Legacy.mount quizId storage t0 t1 now) in *.
    destruct (Legacy.quiz (component w0) ≫= questions) as [qs|] eqn:Hqs.
    + destruct (decide (qs = [])) as [->|Hne].
      * rewrite legacy_run_no_card; [by rewrite Hans, Hidx|done|].
        intros cq Hc. apply legacy_render_card in Hc as (qs' & Hqs' & Hcq & _).
        rewrite Hqs in Hqs'. by injection Hqs' as <-.
      * destruct (legacy_mount_inv quizId storage t0 t1 now qs Hqs Hne)
          as (Hinv & _). fold w0 in Hinv.
        intros Hr0. destruct (legacy_run_inv qs es _ Hinv) as (_ & _ & Hr).
        rewrite Hr0 in Hr. by destruct Hr.
    + rewrite legacy_run_no_card; [by rewrite Hans, Hidx|done|].
      intros cq Hc. apply legacy_render_card in Hc as (qs' & Hqs' & _).
      by rewrite Hqs in Hqs'.
  - intros qs Hqs Hk.
    destruct (current_mount_cases quizId storage t0 t1 now)
      as [(Hq & Hloc & _)|(qs0 & _ & Hinv & Hreq & Hloc & _ & Hans)].
    + rewrite (currentRecordAnswers_unmounted ins _ _ Hloc) in Hqs.
      by rewrite Hq in Hqs.
    + set (w0 := Current.mount quizId storage t0 t1 now) in *.
      pose proof (currentRecordAnswers_inv qs0 ins w0 Hinv) as Hinv'.
      assert (qs0 = qs) as -> by (destruct Hinv' as (Hqs0 & _); congruence).
      destruct (current_recordAnswers_outcome qs ins w0 Hinv Hreq Hloc)
        as (Hloc' & Hcase).
      destruct Hinv as (_ & _ & Hr0). rewrite Hreq, Hans in Hr0.
      destruct Hr0 as [Hz _]. rewrite <- Hz in Hcase. simpl in Hcase.
      destruct (decide _) as [_|]; [|lia].
      destruct Hcase as (_ & Hidx & Hlen & Hsub).
      split; [|done].
      apply current_status_answering; [done|done|].
      by apply (current_inv_quiz qs).
  - intros qs Hqs Hk.
    destruct (legacy_mount_cases quizId storage t0 t1 now)
      as (Hreq & Hans & Hidx & Hsub & Hq).
    set (w0 := Legacy.mount quizId storage t0 t1 now) in *.
    assert (Hcard : Legacy.quiz (component w0) ≫= questions = Some qs /\ qs <> []).
    { destruct (Legacy.quiz (component w0) ≫= questions) as [qs0|] eqn:Hqs0.
      - destruct (decide (qs0 = [])) as [->|Hne].
        + rewrite legacyRecordAnswers_no_card in Hqs; [|done|].
          * rewrite Hqs0 in Hqs. injection Hqs as <-. simpl in Hk. lia.
          * intros cq Hc.
            apply legacy_render_card in Hc as (qs' & Hqs' & Hcq & _).
            rewrite Hqs0 in Hqs'. by injection Hqs' as <-.
        + destruct (legacy_mount_inv quizId storage t0 t1 now qs0 Hqs0 Hne)
            as (Hinv & _). fold w0 in Hinv.
          destruct (legacyRecordAnswers_inv qs0 ins w0 Hinv) as (Hqs' & _).
          rewrite Hqs in Hqs'. by injection Hqs' as <-.
      - rewrite legacyRecordAnswers_no_card in Hqs; [|done|].
        + by rewrite Hqs0 in Hqs.
        + intros cq Hc.
          apply legacy_render_card in Hc as (qs' & Hqs' & _).
          by rewrite Hqs0 in Hqs'. }
    destruct Hcard as [Hqs0 Hne].
    destruct (legacy_mount_inv quizId storage t0 t1 now qs Hqs0 Hne)
      as (Hinv & _ & Hloc & _). fold w0 in Hinv, Hloc.
    destruct (legacy_recordAnswers_outcome qs ins w0 Hinv Hreq Hloc)
      as (Hloc' & Hcase).
    rewrite Hidx in Hcase. simpl in Hcase.
    destruct (decide _) as [_|]; [|lia].
    destruct Hcase as (_ & Hidx' & Hlen & Hsub').
    split; [|done].
    apply legacy_status_answering; [done|done|].
    apply (legacy_inv_quiz qs). by apply legacyRecordAnswers_inv.
Qed.

Lemma C1_answers_track_index_witness :
  let ins := [("A", 1100, 1200)%Z] in
  let c := Current.run (H := sampleRuntime) [] twoQuestionSession in
  let c' := currentRecordAnswers (H := sampleRuntime) ins twoQuestionSession in
  length (Current.answers (component c)) = Current.currentIndex (component c)
  /\ Current.status c' = Answering
  /\ length (Current.answers (component c')) = countNonEmpty ins
  /\ Current.currentIndex (component c') = countNonEmpty ins.
Proof.
  pose proof (@C1_answers_track_index sampleRuntime "7" (stored "two") 0 0 100
                [] [("A", 1100, 1200)%Z] (Change "A")) as (Hc & _ & Hk & _).
  split.
  - apply Hc; reflexivity.
  - apply (Hk [Q1; Q2]); [reflexivity | vm_compute; lia].
Defined.

(** ** C2: when the submission call is made *)

(** C2, as stated, fails: after a rejected submission the session is
    Answering again, and the next accepted answer moves it to Submitting a
    second time, with a second call, when two records are held for the one
    question. *)
Lemma C2_counterexample :
  let w1 := Current.run (H := sampleRuntime)
              [Change "42"; Submit 1100 1100] sampleSession in
  let w2 := Current.run (H := sampleRuntime) [Settle Rejected] w1 in
  let w3 := Current.run answeredAgain w2 in
  Current.status w1 = Submitting
  /\ Current.status w2 = Answering
  /\ Current.status w3 = Submitting
  /\ length (requests w3) = 2
  /\ length (Current.answers (component w3)) = 2
  /\ (Current.quiz (component w3) ≫= questions) = Some [Q2].
Proof. vm_compute. repeat split; congruence. Qed.

(** C2, amended: from a freshly loaded quiz with [n >= 1] questions, a run of
    [recordAnswer] calls of which fewer than [n] have a non-empty input makes
    no submission call and stays Answering; a run with at least [n] of them
    is Submitting and has made exactly one call, carrying the [n] records
    held: the call is made by the [n]-th accepted input, when
    [answers.length] reaches [questions.length], and calls that follow while
    the request is pending do nothing.  (What follows a failed request is
    not covered.) *)
Theorem C2_submission_after_n_answers `{Runtime} qid storage t0 t1 now ins qs :
  let c0 := Current.mount qid storage t0 t1 now in
  let l0 := Legacy.mount qid storage t0 t1 now in
  let c := currentRecordAnswers ins c0 in
  let l := legacyRecordAnswers ins l0 in
  qs <> [] ->
  (Current.quiz (component c0) ≫= questions = Some qs ->
   if decide (countNonEmpty ins < length qs)
   then requests c = [] /\ Current.status c = Answering
   else requests c = [mkRequest "/quiz/submit" qid (Current.answers (component c))]
        /\ Current.status c = Submitting
        /\ length (Current.answers (component c)) = length qs)
  /\ (Legacy.quiz (component l0) ≫= questions = Some qs ->
      if decide (countNonEmpty ins < length qs)
      then requests l = [] /\ Legacy.status l = Answering
      else requests l = [mkRequest "/quiz/submit" qid (Legacy.answers (component l))]
           /\ Legacy.status l = Submitting
           /\ length (Legacy.answers (component l)) = length qs).
Proof.
  cbn zeta. intros Hne. split; intros Hqs.
  - destruct (current_mount_cases qid storage t0 t1 now)
      as [(Hq & _)|(qs0 & _ & Hinv & Hreq & Hloc & _ & Hans)];
      [by rewrite Hq in Hqs|].
    set (w0 := Current.mount qid storage t0 t1 now) in *.
    assert (qs0 = qs) as -> by (destruct Hinv as (Hqs0 & _); congruence).
    pose proof (currentRecordAnswers_inv qs ins w0 Hinv) as Hinv'.
    destruct (current_recordAnswers_outcome qs ins w0 Hinv Hreq Hloc)
      as (Hloc' & Hcase).
    assert (Hid : qid = quizId w0).
    { clear. unfold w0, Current.mount, Current.loadQuiz, getItem. simpl.
      destruct (storage !! "currentQuiz") as [text|]; [|done].
      destruct (falsy text); [done|].
      destruct (JSON_parse text) as [| |q]; try done.
      destruct (questions q) as [qs|]; [|done].
      by destruct (length qs =? 0)%nat. }
    destruct Hinv as (_ & _ & Hr0). rewrite Hreq, Hans in Hr0.
    destruct Hr0 as [Hz _]. rewrite <- Hz in Hcase. simpl in Hcase.
    rewrite <- Hid in Hcase.
    destruct (decide _) as [Hlt|Hge].
    + destruct Hcase as (Hr & _ & _ & Hsub). split; [done|].
      apply current_status_answering; [done|done|by apply (current_inv_quiz qs)].
    + destruct Hcase as (Hr & Hsub & Hlen). repeat split; try done.
      apply current_status_submitting; [done|done|by apply (current_inv_quiz qs)].
  - destruct (legacy_mount_inv qid storage t0 t1 now qs Hqs Hne)
      as (Hinv & Hreq & Hloc & _).
    destruct (legacy_mount_cases qid storage t0 t1 now)
      as (_ & Hans & Hidx & _).
    set (w0 := Legacy.mount qid storage t0 t1 now) in *.
    pose proof (legacyRecordAnswers_inv qs ins w0 Hinv) as Hinv'.
    destruct (legacy_recordAnswers_outcome qs ins w0 Hinv Hreq Hloc)
      as (Hloc' & Hcase).
    assert (Hid : qid = quizId w0).
    { clear. unfold w0, Legacy.mount, Legacy.loadQuiz, getItem. simpl.
      destruct (storage !! "currentQuiz") as [text|]; [|done].
      destruct (falsy text); [done|].
      by destruct (JSON_parse text) as [| |q]. }
    rewrite Hidx in Hcase. simpl in Hcase. rewrite <- Hid in Hcase.
    destruct (decide _) as [Hlt|Hge].
    + destruct Hcase as (Hr & _ & _ & Hsub). split; [done|].
      apply legacy_status_answering; [done|done|by apply (legacy_inv_quiz qs)].
    + destruct Hcase as (Hr & Hsub & Hlen). repeat split; try done.
      apply legacy_status_submitting; [done|done|by apply (legacy_inv_quiz qs)].
Qed.

Lemma C2_submission_after_n_answers_witness :
  let ins := [("A", 1100, 1200); ("  ", 1300, 1300); ("42", 2100, 2200)]%Z in
  let c := currentRecordAnswers (H := sampleRuntime) ins twoQuestionSession in
  requests c = [mkRequest "/quiz/submit" "7" (Current.answers (component c))]
  /\ Current.status c = Submitting
  /\ length (Current.answers (component c)) = 2.
Proof.
  pose proof (@C2_submission_after_n_answers sampleRuntime "7" (stored "two")
                0 0 100 [("A", 1100, 1200); ("  ", 1300, 1300); ("42", 2100, 2200)]%Z
                [Q1; Q2]) as Hc.
  cbn zeta in Hc. destruct Hc as [Hc _]; [discriminate|].
  apply Hc. reflexivity.
Defined.

(** ** C3: the two-question example and the option labels *)

Section OptionLabels.
Context `{Runtime}.

(** Clicking an option of a multiple-choice question and submitting it
    records the first character of the option. *)
Lemma current_option_recorded (w : World Current.State) cq opts idx option now now' :
  location w = None ->
  Current.render (component w) = QuestionCard cq ->
  isMcq cq = Some opts -> opts !! idx = Some option ->
  nonEmpty (charAt option 0) = true ->
  Current.answers (component
    (Current.step (Submit now now') (Current.step (ClickOption idx) w)))
  = Current.answers (component w)
    ++ [answerOf cq (charAt option 0)
                 (Current.questionStartTime (component w)) now].
Proof.
  intros Hloc Hcard Hmcq Hopt Hne.
  assert (H1 : Current.step (ClickOption idx) w
               = setState (Current.setUserAnswer (charAt option 0)) w).
  { unfold Current.step. rewrite Hloc, Hcard. unfold Current.clickOption.
    rewrite Hmcq. simpl. by rewrite Hopt. }
  rewrite H1. unfold Current.step. simpl. rewrite Hloc.
  assert (Hcard1 : Current.render
                     (Current.setUserAnswer (charAt option 0) (component w))
                   = QuestionCard cq) by exact Hcard.
  rewrite Hcard1.
  destruct (current_render_card _ _ Hcard) as (qs & Hqs & Hcq & Hsub).
  unfold nonEmpty in Hne. apply negb_true_iff in Hne.
  set (w1 := setState (Current.setUserAnswer (charAt option 0)) w).
  destruct (decide (S (Current.currentIndex (component w1)) < length qs)).
  - by rewrite (current_submit_next now now' w1 qs cq).
  - by rewrite (current_submit_final now now' w1 qs cq).
Qed.

Lemma legacy_option_recorded (w : World Legacy.State) cq opts idx option now now' :
  location w = None ->
  Legacy.render (component w) = QuestionCard cq ->
  isMcq cq = Some opts -> opts !! idx = Some option ->
  nonEmpty (charAt option 0) = true ->
  Legacy.answers (component
    (Legacy.step (Submit now now') (Legacy.step (ClickOption idx) w)))
  = Legacy.answers (component w)
    ++ [answerOf cq (charAt option 0)
                 (Legacy.questionStartTime (component w)) now].
Proof.
  intros Hloc Hcard Hmcq Hopt Hne.
  assert (H1 : Legacy.step (ClickOption idx) w
               = setState (Legacy.setUserAnswer (charAt option 0)) w).
  { unfold Legacy.step. rewrite Hloc, Hcard. unfold Legacy.clickOption.
    rewrite Hmcq. simpl. by rewrite Hopt. }
  rewrite H1. unfold Legacy.step. simpl. rewrite Hloc.
  assert (Hcard1 : Legacy.render
                     (Legacy.setUserAnswer (charAt option 0) (component w))
                   = QuestionCard cq) by exact Hcard.
  rewrite Hcard1.
  destruct (legacy_render_card _ _ Hcard) as (qs & Hqs & Hcq & Hsub).
  unfold nonEmpty in Hne. apply negb_true_iff in Hne.
  set (w1 := setState (Legacy.setUserAnswer (charAt option 0)) w).
  destruct (decide (S (Legacy.currentIndex (component w1)) < length qs)).
  - by rewrite (legacy_submit_next now now' w1 qs cq).
  - by rewrite (legacy_submit_final now now' w1 qs cq).
Qed.

(** When the first character of the option is white space, or the option
    is the empty string, the click leaves a draft that the handler
    refuses. *)
Lemma current_option_refused (w : World Current.State) cq opts idx option now now' :
  location w = None ->
  Current.render (component w) = QuestionCard cq ->
  isMcq cq = Some opts -> opts !! idx = Some option ->
  nonEmpty (charAt option 0) = false ->
  Current.step (Submit now now') (Current.step (ClickOption idx) w)
  = toast_error "Please provide an answer"
      (setState (Current.setUserAnswer (charAt option 0)) w).
Proof.
  intros Hloc Hcard Hmcq Hopt Hne.
  assert (H1 : Current.step (ClickOption idx) w
               = setState (Current.setUserAnswer (charAt option 0)) w).
  { unfold Current.step. rewrite Hloc, Hcard. unfold Current.clickOption.
    rewrite Hmcq. simpl. by rewrite Hopt. }
  rewrite H1. unfold Current.step. simpl. rewrite Hloc.
  assert (Hcard1 : Current.render
                     (Current.setUserAnswer (charAt option 0) (component w))
                   = QuestionCard cq) by exact Hcard.
  rewrite Hcard1.
  unfold nonEmpty in Hne. apply negb_false_iff in Hne.
  by apply current_submit_empty.
Qed.

Lemma legacy_option_refused (w : World Legacy.State) cq opts idx option now now' :
  location w = None ->
  Legacy.render (component w) = QuestionCard cq ->
  isMcq cq = Some opts -> opts !! idx = Some option ->
  nonEmpty (charAt option 0) = false ->
  Legacy.step (Submit now now') (Legacy.step (ClickOption idx) w)
  = toast_error "Please provide an answer"
      (setState (Legacy.setUserAnswer (charAt option 0)) w).
Proof.
  intros Hloc Hcard Hmcq Hopt Hne.
  assert (H1 : Legacy.step (ClickOption idx) w
               = setState (Legacy.setUserAnswer (charAt option 0)) w).
  { unfold Legacy.step. rewrite Hloc, Hcard. unfold Legacy.clickOption.
    rewrite Hmcq. simpl. by rewrite Hopt. }
  rewrite H1. unfold Legacy.step. simpl. rewrite Hloc.
  assert (Hcard1 : Legacy.render
                     (Legacy.setUserAnswer (charAt option 0) (component w))
                   = QuestionCard cq) by exact Hcard.
  rewrite Hcard1.
  unfold nonEmpty in Hne. apply negb_false_iff in Hne.
  by apply legacy_submit_empty.
Qed.

(** The session right after a successful load. *)
Lemma current_mount_loaded qid storage t0 t1 now text quizData q qs :
  storage !! "currentQuiz" = Some text -> falsy text = false ->
  JSON_parse text = JObject quizData -> questions quizData = Some (q :: qs) ->
  Current.mount qid storage t0 t1 now
  = mkWorld (Current.mkState (Some quizData) 0 [] EmptyString t0 now false false)
            qid storage None [] [] [].
Proof.
  intros Hs Hf Hp Hq. unfold Current.mount, Current.loadQuiz, getItem. simpl.
  by rewrite Hs, Hf, Hp, Hq.
Qed.

Lemma legacy_mount_loaded qid storage t0 t1 now text quizData :
  storage !! "currentQuiz" = Some text -> falsy text = false ->
  JSON_parse text = JObject quizData ->
  Legacy.mount qid storage t0 t1 now
  = mkWorld (Legacy.mkState (Some quizData) 0 [] EmptyString t0 now false)
            qid storage None [] [] [].
Proof.
  intros Hs Hf Hp. unfold Legacy.mount, Legacy.loadQuiz, getItem. simpl.
  by rewrite Hs, Hf, Hp.
Qed.
End OptionLabels.

(** C3: on the stored quiz [[Q1 (mcq, options "A) x", "B) y"); Q2 (open)]],
    [recordAnswer("A")] then [recordAnswer("42")] leave the two records
    [{question_id: Q1.id, user_answer: "A"}], [{question_id: Q2.id,
    user_answer: "42"}] in this order and make exactly one submission call,
    carrying both; this holds in both copies.  Clicking the option at [idx]
    of Q1 and submitting records the first character of that option, and
    clicking "A) x" is [recordAnswer("A")].  In general, for every
    multiple-choice question on screen, in either copy, whatever its
    options: clicking the option at [idx] and submitting appends one
    record whose [user_answer] is the first character of that option; only
    when that character is white space, or the option is the empty string,
    the handler refuses the draft and nothing is recorded.  So every record
    made from an option carries its leading character. *)
Theorem C3_two_question_example `{Runtime}
    qid storage text quizData q1 q2 t0 t1 now a a' b b' :
  storage !! "currentQuiz" = Some text -> falsy text = false ->
  JSON_parse text = JObject quizData ->
  questions quizData = Some [q1; q2] ->
  isMcq q1 = Some ["A) x"; "B) y"] -> isMcq q2 = None ->
  let c0 := Current.mount qid storage t0 t1 now in
  let l0 := Legacy.mount qid storage t0 t1 now in
  let c := Current.recordAnswer "42" b b' (Current.recordAnswer "A" a a' c0) in
  let l := Legacy.recordAnswer "42" b b' (Legacy.recordAnswer "A" a a' l0) in
  let records := [answerOf q1 "A" now a; answerOf q2 "42" a' b] in
  (Current.answers (component c) = records
   /\ requests c = [mkRequest "/quiz/submit" qid records])
  /\ (Legacy.answers (component l) = records
      /\ requests l = [mkRequest "/quiz/submit" qid records])
  /\ (forall idx option,
        ["A) x"; "B) y"] !! idx = Some option ->
        Current.answers (component
          (Current.step (Submit a a') (Current.step (ClickOption idx) c0)))
        = [answerOf q1 (charAt option 0) now a]
        /\ Legacy.answers (component
             (Legacy.step (Submit a a') (Legacy.step (ClickOption idx) l0)))
           = [answerOf q1 (charAt option 0) now a])
  /\ Current.step (Submit a a') (Current.step (ClickOption 0) c0)
     = Current.recordAnswer "A" a a' c0
  /\ (forall (w : World Current.State) (v : World Legacy.State)
             cq opts idx option n n',
        location w = None -> Current.render (component w) = QuestionCard cq ->
        location v = None -> Legacy.render (component v) = QuestionCard cq ->
        isMcq cq = Some opts -> opts !! idx = Some option ->
        let w' := Current.step (Submit n n') (Current.step (ClickOption idx) w) in
        let v' := Legacy.step (Submit n n') (Legacy.step (ClickOption idx) v) in
        (if nonEmpty (charAt option 0)
         then Current.answers (component w')
              = Current.answers (component w)
                ++ [answerOf cq (charAt option 0)
                             (Current.questionStartTime (component w)) n]
         else Current.answers (component w') = Current.answers (component w)
              /\ requests w' = requests w)
        /\ (if nonEmpty (charAt option 0)
            then Legacy.answers (component v')
                 = Legacy.answers (component v)
                   ++ [answerOf cq (charAt option 0)
                                (Legacy.questionStartTime (component v)) n]
            else Legacy.answers (component v') = Legacy.answers (component v)
                 /\ requests v' = requests v)).
Proof.
  intros Hs Hf Hp Hq Hm1 Hm2. cbn zeta.
  rewrite (current_mount_loaded qid storage t0 t1 now text quizData q1 [q2])
    by done.
  rewrite (legacy_mount_loaded qid storage t0 t1 now text quizData) by done.
  split; [|split; [|split; [|split]]].
  - rewrite (current_recordAnswer_card "A" a a' _ q1);
      [|reflexivity|unfold Current.render; simpl; rewrite Hq; reflexivity].
    rewrite (current_submit_next a a' _ [q1; q2] q1);
      [|reflexivity|exact Hq|reflexivity|simpl; lia].
    simpl.
    rewrite (current_recordAnswer_card "42" b b' _ q2);
      [|reflexivity|unfold Current.render; simpl; rewrite Hq; reflexivity].
    rewrite (current_submit_final b b' _ [q1; q2] q2);
      [|reflexivity|exact Hq|reflexivity|simpl; lia].
    simpl. split; reflexivity.
  - rewrite (legacy_recordAnswer_card "A" a a' _ q1);
      [|reflexivity|unfold Legacy.render; simpl; rewrite Hq; reflexivity].
    rewrite (legacy_submit_next a a' _ [q1; q2] q1);
      [|reflexivity|exact Hq|reflexivity|simpl; lia].
    simpl.
    rewrite (legacy_recordAnswer_card "42" b b' _ q2);
      [|reflexivity|unfold Legacy.render; simpl; rewrite Hq; reflexivity].
    rewrite (legacy_submit_final b b' _ [q1; q2] q2);
      [|reflexivity|exact Hq|reflexivity|simpl; lia].
    simpl. split; reflexivity.
  - intros idx option Hopt.
    assert (Hne : nonEmpty (charAt option 0) = true).
    { destruct idx as [|[|idx]]; simpl in Hopt; try done;
        by injection Hopt as <-. }
    split.
    + rewrite (current_option_recorded _ q1 ["A) x"; "B) y"] idx option);
        try done.
      unfold Current.render. simpl. by rewrite Hq.
    + rewrite (legacy_option_recorded _ q1 ["A) x"; "B) y"] idx option);
        try done.
      unfold Legacy.render. simpl. by rewrite Hq.
  - unfold Current.recordAnswer. f_equal.
    unfold Current.step, Current.render. simpl. rewrite Hq. simpl.
    unfold Current.clickOption. rewrite Hm1. reflexivity.
  - intros w v cq opts idx option n n' Hlw Hcw Hlv Hcv Hmcq Hopt.
    destruct (nonEmpty (charAt option 0)) eqn:Hne.
    + split.
      * by apply (current_option_recorded w cq opts idx option).
      * by apply (legacy_option_recorded v cq opts idx option).
    + rewrite (current_option_refused w cq opts idx option) by done.
      by rewrite (legacy_option_refused v cq opts idx option).
Qed.

Lemma C3_two_question_example_witness :
  let c := Current.recordAnswer (H := sampleRuntime) "42" 2100 2200
             (Current.recordAnswer (H := sampleRuntime) "A" 1100 1200
                twoQuestionSession) in
  let records := [answerOf Q1 "A" 100 1100; answerOf Q2 "42" 1200 2100] in
  Current.answers (component c) = records
  /\ requests c = [mkRequest "/quiz/submit" "7" records].
Proof.
  apply (@C3_two_question_example sampleRuntime "7" (stored "two") "two"
           twoQuestions Q1 Q2 0 0 100 1100 1200 2100 2200); reflexivity.
Defined.

(** ** C4: a failed submission and the retry *)

Section FailedSubmission.
Context `{Runtime}.

(** A rejected request changes nothing but the spinner and the toasts. *)
Lemma current_rejected_frame (w : World Current.State) :
  let w' := Current.submitQuiz_settled Rejected w in
  sessionStorage w' = sessionStorage w
  /\ Current.answers (component w') = Current.answers (component w)
  /\ Current.currentIndex (component w') = Current.currentIndex (component w)
  /\ Current.submitting (component w') = false
  /\ requests w' = requests w /\ location w' = location w
  /\ toasts w' = toasts w ++ ["Failed to submit quiz"].
Proof. done. Qed.

Lemma legacy_rejected_frame (w : World Legacy.State) :
  let w' := Legacy.submitQuiz_settled Rejected w in
  sessionStorage w' = sessionStorage w
  /\ Legacy.answers (component w') = Legacy.answers (component w)
  /\ Legacy.currentIndex (component w') = Legacy.currentIndex (component w)
  /\ Legacy.submitting (component w') = false
  /\ requests w' = requests w /\ location w' = location w
  /\ toasts w' = toasts w ++ ["Failed to submit quiz"].
Proof. done. Qed.

(** The only way back to [submitQuiz] is [handleAnswerSubmit]: once a
    call has been made, an accepted answer posts the records of that call
    followed by one more. *)
Lemma current_retry_payload qs (w : World Current.State) now now' :
  currentInv qs w -> requests w <> [] -> location w = None ->
  Current.submitting (component w) = false ->
  falsy (trim (Current.userAnswer (component w))) = false ->
  exists cq,
    requests (Current.step (Submit now now') w)
    = requests w
      ++ [mkRequest "/quiz/submit" (quizId w)
            (sent_answers (List.last (requests w)
                                     (mkRequest EmptyString EmptyString []))
             ++ [answerOf cq (Current.userAnswer (component w))
                          (Current.questionStartTime (component w)) now])].
Proof.
  intros Hinv Hreq Hloc Hsub Hne.
  destruct (current_inv_card qs w Hinv Hsub) as (cq & Hcq & Hcard).
  destruct Hinv as (Hqs & Hidx & Hr).
  destruct (requests w) as [|r rs] eqn:Hrs; [done|]. destruct Hr as [Hlast ->].
  exists cq. unfold Current.step. rewrite Hloc, Hcard.
  rewrite (current_submit_final now now' w qs cq); [|done|done|done|lia].
  simpl. by rewrite Hrs.
Qed.
End FailedSubmission.

(** C4, evaluated on the one-question quiz (the defect): after the rejected
    request the quiz slot is still populated and the one record is still
    held, but the draft is empty and the controller has no operation that
    sends the held records again; answering the question again is the only
    way to submit, and the second call carries two records, not the one of
    the first call.  Both copies behave so. *)
Lemma C4_retry_payload_differs :
  let w1 := Current.run failedOnce sampleSession in
  let w2 := Current.run answeredAgain w1 in
  let l2 := Legacy.run (failedOnce ++ answeredAgain) sampleLegacySession in
  let first := mkRequest "/quiz/submit" "7" [answerOf Q2 "42" 100 1100] in
  let second := mkRequest "/quiz/submit" "7"
                  [answerOf Q2 "42" 100 1100; answerOf Q2 "42" 100 2100] in
  sessionStorage w1 !! "currentQuiz" = Some "one"
  /\ Current.answers (component w1) = [answerOf Q2 "42" 100 1100]
  /\ Current.userAnswer (component w1) = EmptyString
  /\ Current.status w1 = Answering
  /\ requests w1 = [first]
  /\ requests w2 = [first; second]
  /\ requests l2 = [first; second]
  /\ second <> first.
Proof. vm_compute. repeat split; congruence. Qed.

(** ** C5: a stored quiz without questions *)

Section EmptyQuiz.
Context `{Runtime}.

(** The current copy refuses a quiz whose question list is empty or
    absent: nothing is loaded, a notice is shown and the router goes to
    the quiz selection. *)
Lemma current_load_empty_fails qid storage t0 t1 now text quizData :
  storage !! "currentQuiz" = Some text -> falsy text = false ->
  JSON_parse text = JObject quizData ->
  questions quizData = Some [] \/ questions quizData = None ->
  let w := Current.mount qid storage t0 t1 now in
  w = navigate "/quiz/select"
        (toast_error "Quiz has no questions"
                     (Current.initialWorld qid storage t0 t1))
  /\ Current.status w = Terminated
  /\ Current.quiz (component w) = None.
Proof.
  intros Hs Hf Hp Hq. unfold Current.mount, Current.loadQuiz, getItem. simpl.
  rewrite Hs, Hf, Hp. by destruct Hq as [-> | ->].
Qed.

(** The legacy copy loads it. *)
Lemma legacy_load_empty_loads qid storage t0 t1 now text quizData :
  storage !! "currentQuiz" = Some text -> falsy text = false ->
  JSON_parse text = JObject quizData ->
  let w := Legacy.mount qid storage t0 t1 now in
  Legacy.quiz (component w) = Some quizData
  /\ Legacy.status w = Answering
  /\ toasts w = [] /\ location w = None.
Proof.
  intros Hs Hf Hp. unfold Legacy.mount, Legacy.loadQuiz, getItem. simpl.
  by rewrite Hs, Hf, Hp.
Qed.
End EmptyQuiz.

(** C5, evaluated on a stored quiz with [questions: []] (the defect): the
    legacy copy loads it, shows no notice and does not redirect; the session
    is in the Answering status with nothing to render.  The current copy, on
    the same slot, fails as the claim says. *)
Lemma C5_legacy_loads_empty_quiz :
  let l := @Legacy.mount sampleRuntime "7" (stored "none") 0 0 100 in
  let c := @Current.mount sampleRuntime "7" (stored "none") 0 0 100 in
  Legacy.status l = Answering
  /\ Legacy.quiz (component l) = Some noQuestions
  /\ toasts l = [] /\ location l = None
  /\ Legacy.render (component l) = RenderThrows
  /\ Current.status c = Terminated
  /\ Current.quiz (component c) = None
  /\ toasts c = ["Quiz has no questions"] /\ location c = Some "/quiz/select".
Proof. vm_compute. repeat split; congruence. Qed.

(** ** C6: an empty answer *)

Section EmptyAnswer.
Context `{Runtime}.

(** A session reached from mounting that is in the Answering status has
    its question card on screen. *)
Lemma current_answering_card qid storage t0 t1 t es :
  let c := Current.run es (Current.mount qid storage t0 t1 t) in
  Current.status c = Answering ->
  location c = None /\ exists cq, Current.render (component c) = QuestionCard cq.
Proof.
  cbn zeta. intros Hst.
  destruct (current_mount_cases qid storage t0 t1 t)
    as [(Hq & Hloc & _)|(qs & _ & Hinv & _)].
  - rewrite (current_run_unmounted es _ _ Hloc) in Hst.
    unfold Current.status in Hst. by rewrite Hloc in Hst.
  - pose proof (current_run_inv qs es _ Hinv) as Hinv'.
    revert Hst. unfold Current.status.
    destruct (location (Current.run es _)) eqn:Hloc; [done|].
    destruct (Current.quiz _); [|done].
    destruct (Current.submitting _) eqn:Hsub; [done|]. intros _.
    split; [done|].
    destruct (current_inv_card qs _ Hinv' Hsub) as (cq & _ & Hcard). eauto.
Qed.

Lemma current_recordAnswer_empty (w : World Current.State) cq rawInput now now' :
  location w = None -> Current.render (component w) = QuestionCard cq ->
  trim rawInput = EmptyString ->
  Current.recordAnswer rawInput now now' w
  = toast_error "Please provide an answer"
                (setState (Current.setUserAnswer rawInput) w).
Proof.
  intros Hloc Hcard Hraw.
  rewrite (current_recordAnswer_card rawInput now now' w cq) by done.
  apply current_submit_empty. simpl. by rewrite Hraw.
Qed.

Lemma legacy_recordAnswer_empty (w : World Legacy.State) cq rawInput now now' :
  location w = None -> Legacy.render (component w) = QuestionCard cq ->
  trim rawInput = EmptyString ->
  Legacy.recordAnswer rawInput now now' w
  = toast_error "Please provide an answer"
                (setState (Legacy.setUserAnswer rawInput) w).
Proof.
  intros Hloc Hcard Hraw.
  rewrite (legacy_recordAnswer_card rawInput now now' w cq) by done.
  apply legacy_submit_empty. simpl. by rewrite Hraw.
Qed.
End EmptyAnswer.

(** C6: in a session that is in the Answering status, [recordAnswer] with an
    input that trims to the empty string leaves [currentIndex], the records,
    the clock of the question, the stored slots and the list of submission
    calls as they were, stays in the Answering status and shows the notice
    "Please provide an answer"; only the draft holds the input.
    [handleAnswerSubmit] itself, on a draft that trims to the empty
    string, returns the whole component state unchanged, in both copies. *)
Theorem C6_empty_answer_rejected `{Runtime} qid storage t0 t1 t es rawInput now now' :
  let c := Current.run es (Current.mount qid storage t0 t1 t) in
  let c' := Current.recordAnswer rawInput now now' c in
  trim rawInput = EmptyString ->
  Current.status c = Answering ->
  (Current.currentIndex (component c') = Current.currentIndex (component c)
   /\ Current.answers (component c') = Current.answers (component c)
   /\ component c' = Current.setUserAnswer rawInput (component c)
   /\ requests c' = requests c
   /\ sessionStorage c' = sessionStorage c
   /\ Current.status c' = Answering
   /\ toasts c' = toasts c ++ ["Please provide an answer"])
  /\ (forall w : World Current.State,
        Current.userAnswer (component w) = rawInput ->
        Current.handleAnswerSubmit now now' w
        = toast_error "Please provide an answer" w)
  /\ (forall w : World Legacy.State,
        Legacy.userAnswer (component w) = rawInput ->
        Legacy.handleAnswerSubmit now now' w
        = toast_error "Please provide an answer" w)
  /\ (forall (l : World Legacy.State) cq,
        location l = None -> Legacy.render (component l) = QuestionCard cq ->
        Legacy.recordAnswer rawInput now now' l
        = toast_error "Please provide an answer"
                      (setState (Legacy.setUserAnswer rawInput) l)).
Proof.
  cbn zeta. intros Hraw Hst. split; [|split; [|split]].
  - destruct (current_answering_card qid storage t0 t1 t es Hst)
      as (Hloc & cq & Hcard).
    rewrite (current_recordAnswer_empty _ cq rawInput now now') by done.
    simpl. repeat split; done.
  - intros w Hw. apply current_submit_empty. by rewrite Hw, Hraw.
  - intros w Hw. apply legacy_submit_empty. by rewrite Hw, Hraw.
  - intros l cq Hloc Hcard. by apply (legacy_recordAnswer_empty l cq).
Qed.

Lemma C6_empty_answer_rejected_witness :
  let c := Current.run (H := sampleRuntime) [] twoQuestionSession in
  let c' := Current.recordAnswer (H := sampleRuntime) "   " 1100 1200 c in
  Current.currentIndex (component c') = Current.currentIndex (component c)
  /\ Current.answers (component c') = Current.answers (component c)
  /\ component c' = Current.setUserAnswer "   " (component c)
  /\ requests c' = requests c
  /\ sessionStorage c' = sessionStorage c
  /\ Current.status c' = Answering
  /\ toasts c' = toasts c ++ ["Please provide an answer"].
Proof.
  apply (@C6_empty_answer_rejected sampleRuntime "7" (stored "two") 0 0 100
           [] "   " 1100 1200); reflexivity.
Defined.

(** ** C7: a successful submission *)

(** C7: when the request is fulfilled with a result that has an [id], the
    continuation of [submitQuiz] removes the "currentQuiz" slot, stores
    [JSON.stringify(result)] in the "quizResult" slot, navigates to
    ["/results/" + id], and touches no other slot, no component state, no
    toast and no request; this is what the pending session does on the
    event, in both copies. *)
Theorem C7_successful_submission `{Runtime}
    (c : World Current.State) (l : World Legacy.State) result i :
  result_id result = Some i ->
  let c' := Current.submitQuiz_settled (Fulfilled result) c in
  let l' := Legacy.submitQuiz_settled (Fulfilled result) l in
  (sessionStorage c' !! "currentQuiz" = None
   /\ sessionStorage c' !! "quizResult" = Some (JSON_stringify result)
   /\ location c' = Some ("/results/" +:+ i)
   /\ (forall k, k <> "currentQuiz" -> k <> "quizResult" ->
                 sessionStorage c' !! k = sessionStorage c !! k)
   /\ component c' = component c /\ toasts c' = toasts c
   /\ requests c' = requests c
   /\ (location c = None -> Current.submitting (component c) = true ->
       Current.step (Settle (Fulfilled result)) c = c'
       /\ Current.status c' = Terminated))
  /\ (sessionStorage l' !! "currentQuiz" = None
      /\ sessionStorage l' !! "quizResult" = Some (JSON_stringify result)
      /\ location l' = Some ("/results/" +:+ i)
      /\ (forall k, k <> "currentQuiz" -> k <> "quizResult" ->
                    sessionStorage l' !! k = sessionStorage l !! k)
      /\ component l' = component l /\ toasts l' = toasts l
      /\ requests l' = requests l
      /\ (location l = None -> Legacy.submitting (component l) = true ->
          Legacy.step (Settle (Fulfilled result)) l = l'
          /\ Legacy.status l' = Terminated)).
Proof.
  intros Hid. cbn zeta.
  unfold Current.submitQuiz_settled, Legacy.submitQuiz_settled. rewrite Hid.
  split; simpl.
  - split; [apply lookup_delete_eq|].
    split; [rewrite lookup_delete_ne by done; apply lookup_insert_eq|].
    split; [done|].
    split; [intros k Hk1 Hk2; rewrite lookup_delete_ne by done;
            by rewrite lookup_insert_ne|].
    split; [done|]. split; [done|]. split; [done|].
    intros Hloc Hsub. split; [|done].
    unfold Current.step. rewrite Hloc, Hsub.
    unfold Current.submitQuiz_settled. by rewrite Hid.
  - split; [apply lookup_delete_eq|].
    split; [rewrite lookup_delete_ne by done; apply lookup_insert_eq|].
    split; [done|].
    split; [intros k Hk1 Hk2; rewrite lookup_delete_ne by done;
            by rewrite lookup_insert_ne|].
    split; [done|]. split; [done|]. split; [done|].
    intros Hloc Hsub. split; [|done].
    unfold Legacy.step. rewrite Hloc, Hsub.
    unfold Legacy.submitQuiz_settled. by rewrite Hid.
Qed.

Lemma C7_successful_submission_witness :
  let c := Current.run (H := sampleRuntime) [Change "42"; Submit 1100 1100]
             sampleSession in
  let c' := Current.submitQuiz_settled (H := sampleRuntime)
              (Fulfilled (Some "r9" : @json sampleRuntime)) c in
  sessionStorage c' !! "currentQuiz" = None
  /\ sessionStorage c' !! "quizResult" = Some "{id:r9}"
  /\ location c' = Some "/results/r9".
Proof.
  pose proof (@C7_successful_submission sampleRuntime
                (Current.run (H := sampleRuntime)
                   [Change "42"; Submit 1100 1100] sampleSession)
                sampleLegacySession (Some "r9" : @json sampleRuntime) "r9"
                eq_refl) as Hc.
  cbn zeta in Hc. destruct Hc as ((H1 & H2 & H3 & _) & _).
  repeat split; assumption.
Defined.

(** ** C8 and C9: the clock of a question and the question index *)

Section AcceptedAnswers.
Context `{Runtime}.

(** The loaded quiz never changes. *)
Lemma current_run_quiz es : forall w : World Current.State,
  Current.quiz (component (Current.run es w)) = Current.quiz (component w).
Proof.
  unfold Current.run. induction es as [|e es IH]; intros w; [done|].
  simpl. rewrite IH.
  destruct (current_step_shape e w)
    as [ | text | b | Hloc Hne | now now' qs' cq He Hloc Hsub Hne Hqs' Hcq Hlt
       | now now' qs' cq He Hloc Hsub Hne Hqs' Hcq Hge | r He Hloc Hsub ];
    try done.
  by destruct (current_settled_frame r w) as [-> | ->].
Qed.

Lemma legacy_run_quiz es : forall w : World Legacy.State,
  Legacy.quiz (component (Legacy.run es w)) = Legacy.quiz (component w).
Proof.
  unfold Legacy.run. induction es as [|e es IH]; intros w; [done|].
  simpl. rewrite IH.
  destruct (legacy_step_shape e w)
    as [ | text | Hloc Hne | now now' qs' cq He Hloc Hsub Hne Hqs' Hcq Hlt
       | now now' qs' cq He Hloc Hsub Hne Hqs' Hcq Hge | r He Hloc Hsub ];
    try done.
  by destruct (legacy_settled_frame r w) as [-> | ->].
Qed.

(** An accepted answer appends the record of the question on screen,
    timed from [questionStartTime]. *)
Lemma current_accept_record (w : World Current.State) cq now now' :
  location w = None -> Current.render (component w) = QuestionCard cq ->
  nonEmpty (Current.userAnswer (component w)) = true ->
  Current.answers (component (Current.step (Submit now now') w))
  = Current.answers (component w)
    ++ [answerOf cq (Current.userAnswer (component w))
                 (Current.questionStartTime (component w)) now].
Proof.
  intros Hloc Hcard Hne. unfold Current.step. rewrite Hloc, Hcard.
  destruct (current_render_card _ _ Hcard) as (qs & Hqs & Hcq & Hsub).
  unfold nonEmpty in Hne. apply negb_true_iff in Hne.
  destruct (decide (S (Current.currentIndex (component w)) < length qs)).
  - by rewrite (current_submit_next now now' w qs cq).
  - by rewrite (current_submit_final now now' w qs cq).
Qed.

Lemma legacy_accept_record (w : World Legacy.State) cq now now' :
  location w = None -> Legacy.render (component w) = QuestionCard cq ->
  nonEmpty (Legacy.userAnswer (component w)) = true ->
  Legacy.answers (component (Legacy.step (Submit now now') w))
  = Legacy.answers (component w)
    ++ [answerOf cq (Legacy.userAnswer (component w))
                 (Legacy.questionStartTime (component w)) now].
Proof.
  intros Hloc Hcard Hne. unfold Legacy.step. rewrite Hloc, Hcard.
  destruct (legacy_render_card _ _ Hcard) as (qs & Hqs & Hcq & Hsub).
  unfold nonEmpty in Hne. apply negb_true_iff in Hne.
  destruct (decide (S (Legacy.currentIndex (component w)) < length qs)).
  - by rewrite (legacy_submit_next now now' w qs cq).
  - by rewrite (legacy_submit_final now now' w qs cq).
Qed.



(** What a successful load leaves behind. *)
Lemma current_mount_answering qid storage t0 t1 t :
  let c0 := Current.mount qid storage t0 t1 t in
  Current.status c0 = Answering ->
  Current.questionStartTime (component c0) = t
  /\ Current.answers (component c0) = [].
Proof.
  cbn zeta. intros Hst.
  destruct (current_mount_cases qid storage t0 t1 t)
    as [(_ & Hloc & _)|(_ & _ & _ & _ & _ & Hq & Ha)]; [|done].
  unfold Current.status in Hst. by rewrite Hloc in Hst.
Qed.

Lemma legacy_mount_answering qid storage t0 t1 t :
  let l0 := Legacy.mount qid storage t0 t1 t in
  Legacy.status l0 = Answering ->
  Legacy.questionStartTime (component l0) = t
  /\ Legacy.answers (component l0) = [].
Proof.
  cbn zeta. intros Hst.
  destruct (legacy_mount_cases qid storage t0 t1 t)
    as (_ & Ha & _ & _ & [Hq|(_ & Ht & _)]); [|done].
  unfold Legacy.status in Hst. rewrite Hq in Hst.
  by destruct (location _).
Qed.
End AcceptedAnswers.

(** C8: in a session loaded at reading [t], [questionStartTime] always is
    the reading at which the question on screen became current (the load, or
    the acceptance of the previous answer); an accepted answer to that
    question, at reading [now], is recorded with [time_taken] the
    difference of the two readings divided by 1000; and when the readings
    never decrease, no recorded [time_taken] is negative.  Both copies. *)
Theorem C8_time_taken `{Runtime} qid storage t0 t1 t es now now' :
  let c0 := Current.mount qid storage t0 t1 t in
  let c := Current.run es c0 in
  let l0 := Legacy.mount qid storage t0 t1 t in
  let l := Legacy.run es l0 in
  (Current.status c0 = Answering ->
   Current.questionStartTime (component c) = currentSince t c0 es
   /\ (forall cq,
         location c = None -> Current.render (component c) = QuestionCard cq ->
         nonEmpty (Current.userAnswer (component c)) = true ->
         exists record,
           Current.answers (component (Current.step (Submit now now') c))
           = Current.answers (component c) ++ [record]
           /\ question_id record = id cq
           /\ time_taken record = Qmake (now - currentSince t c0 es) 1000)
   /\ (monotoneFrom t (flat_map readings es) ->
       Forall (fun a => (0 <= time_taken a)%Q) (Current.answers (component c))))
  /\ (Legacy.status l0 = Answering ->
      Legacy.questionStartTime (component l) = legacySince t l0 es
      /\ (forall cq,
            location l = None -> Legacy.render (component l) = QuestionCard cq ->
            nonEmpty (Legacy.userAnswer (component l)) = true ->
            exists record,
              Legacy.answers (component (Legacy.step (Submit now now') l))
              = Legacy.answers (component l) ++ [record]
              /\ question_id record = id cq
              /\ time_taken record = Qmake (now - legacySince t l0 es) 1000)
      /\ (monotoneFrom t (flat_map readings es) ->
          Forall (fun a => (0 <= time_taken a)%Q) (Legacy.answers (component l)))).
Proof.
  cbn zeta. split; intros Hst.
  - destruct (current_mount_answering qid storage t0 t1 t Hst) as [Ht Ha].
    pose proof (current_since_run es _ t Ht) as Hsince.
    split; [done|]. split.
    + intros cq Hloc Hcard Hne. eexists. split; [|split].
      * by apply current_accept_record.
      * done.
      * simpl. by rewrite Hsince.
    + intros Hmono. apply (current_run_nonneg es _ t); [lia| |done].
      rewrite Ha. constructor.
  - destruct (legacy_mount_answering qid storage t0 t1 t Hst) as [Ht Ha].
    pose proof (legacy_since_run es _ t Ht) as Hsince.
    split; [done|]. split.
    + intros cq Hloc Hcard Hne. eexists. split; [|split].
      * by apply legacy_accept_record.
      * done.
      * simpl. by rewrite Hsince.
    + intros Hmono. apply (legacy_run_nonneg es _ t); [lia| |done].
      rewrite Ha. constructor.
Qed.

Lemma C8_time_taken_witness :
  let es := [ClickOption 0; Submit 1100 1200; Change "42"] in
  let c := Current.run (H := sampleRuntime) es twoQuestionSession in
  Current.questionStartTime (component c) = currentSince 100 twoQuestionSession es
  /\ Forall (fun a => (0 <= time_taken a)%Q) (Current.answers (component c)).
Proof.
  pose proof (@C8_time_taken sampleRuntime "7" (stored "two") 0 0 100
                [ClickOption 0; Submit 1100 1200; Change "42"] 2100 2200) as Hc.
  cbn zeta in Hc. destruct Hc as [Hc _].
  destruct Hc as (Hq & _ & Hall); [reflexivity|].
  split; [exact Hq|]. apply Hall. simpl. lia.
Defined.





(** ** C10: the two copies *)

(** C10: when the current copy accepts the stored quiz, the legacy copy
    loads the same session, and along every run of events the two sessions
    stay equal up to the hint flag: the same records, the same submission
    calls (same [quiz_id], same records, every [is_correct] false), the same
    stored slots, the same navigation and notices; the same holds for runs
    of [recordAnswer] calls.  The copies differ in what they load (C5) and
    in the hint flag, which is not part of the legacy state. *)
Theorem C10_copies_agree `{Runtime} qid storage t0 t1 t es ins :
  let c0 := Current.mount qid storage t0 t1 t in
  let l0 := Legacy.mount qid storage t0 t1 t in
  let c := Current.run es c0 in
  let l := Legacy.run es l0 in
  Current.status c0 = Answering ->
  forgetW c0 = l0
  /\ forgetW c = l
  /\ Current.answers (component c) = Legacy.answers (component l)
  /\ requests c = requests l
  /\ sessionStorage c = sessionStorage l
  /\ location c = location l
  /\ toasts c = toasts l
  /\ forgetW (currentRecordAnswers ins c0) = legacyRecordAnswers ins l0
  /\ allProvisional (Current.answers (component c)) (requests c)
  /\ Forall (fun r => url r = "/quiz/submit" /\ quiz_id r = qid) (requests c).
Proof.
  cbn zeta. intros Hst.
  pose proof (forget_mount qid storage t0 t1 t Hst) as H0.
  pose proof (forget_run es (Current.mount qid storage t0 t1 t)) as Hrun.
  rewrite H0 in Hrun.
  split; [done|]. split; [done|].
  rewrite <- Hrun. simpl.
  split; [done|]. split; [done|]. split; [done|]. split; [done|].
  split; [done|].
  split; [by rewrite forget_recordAnswers, H0|].
  split.
  - apply current_run_provisional, current_mount_provisional.
  - destruct (current_mount_cases qid storage t0 t1 t)
      as [(Hq & Hloc & _)|(qs & _ & Hinv & Hreq & Hloc & _)].
    { unfold Current.status in Hst. by rewrite Hloc in Hst. }
    assert (Hid : quizId (Current.mount qid storage t0 t1 t) = qid).
    { clear. unfold Current.mount, Current.loadQuiz, getItem. simpl.
      destruct (storage !! "currentQuiz") as [text|]; [|done].
      destruct (falsy text); [done|].
      destruct (JSON_parse text) as [| |q]; try done.
      destruct (questions q) as [qs|]; [|done].
      by destruct (length qs =? 0)%nat. }
    revert Hreq Hid. generalize (Current.mount qid storage t0 t1 t).
    clear. unfold Current.run.
    induction es as [|e es IH] using rev_ind; intros w Hreq Hid.
    + simpl. rewrite Hreq. constructor.
    + rewrite foldl_app. simpl.
      specialize (IH w Hreq Hid).
      assert (Hq : quizId (foldl (fun w e => Current.step e w) w es) = qid).
      { clear IH Hreq. revert w Hid.
        induction es as [|e' es IH]; intros w Hid; [done|]. simpl. apply IH.
        destruct (current_step_shape e' w)
          as [ | text | b | Hloc Hne | now now' qs' cq He Hloc Hsub Hne Hqs' Hcq Hlt
             | now now' qs' cq He Hloc Hsub Hne Hqs' Hcq Hge | r He Hloc Hsub ];
          try done.
        by destruct (current_settled_requests r w) as [_ ->]. }
      revert IH Hq. generalize (foldl (fun w e => Current.step e w) w es).
      intros w' IH Hq.
      destruct (current_step_shape e w')
        as [ | text | b | Hloc Hne | now now' qs' cq He Hloc Hsub Hne Hqs' Hcq Hlt
           | now now' qs' cq He Hloc Hsub Hne Hqs' Hcq Hge | r He Hloc Hsub ];
        try done.
      * simpl. apply Forall_app. split; [done|]. by apply Forall_singleton.
      * by destruct (current_settled_requests r w') as [-> _].
Qed.

Lemma C10_copies_agree_witness :
  let es := [ClickOption 0; Submit 1100 1200; Change "42"; Submit 2100 2200;
             Settle Rejected] in
  let c := Current.run (H := sampleRuntime) es twoQuestionSession in
  let l := Legacy.run (H := sampleRuntime) es
             (Legacy.mount (H := sampleRuntime) "7" (stored "two") 0 0 100) in
  forgetW c = l /\ requests c = requests l /\ sessionStorage c = sessionStorage l.
Proof.
  pose proof (@C10_copies_agree sampleRuntime "7" (stored "two") 0 0 100
                [ClickOption 0; Submit 1100 1200; Change "42"; Submit 2100 2200;
                 Settle Rejected] [] eq_refl) as Hc.
  cbn zeta in Hc. destruct Hc as (_ & H1 & _ & H2 & H3 & _).
  repeat split; assumption.
Defined.

(** * Further properties of the code *)

(** ** Which drafts [handleAnswerSubmit] accepts *)

Lemma trimStart_hasVisible s : hasVisible (trimStart s) = hasVisible s.
Proof.
  induction s as [|c s IH]; [done|]. simpl.
  destruct (isWhiteSpace c) eqn:Hc; simpl; [done|]. by rewrite Hc.
Qed.

Lemma trimEnd_empty s : trimEnd s = EmptyString <-> hasVisible s = false.
Proof.
  induction s as [|c s IH]; [done|]. simpl.
  destruct (trimEnd s) eqn:Ht.
  - destruct (isWhiteSpace c); simpl; [tauto|]. split; discriminate.
  - split; [discriminate|]. intros Hv.
    apply orb_false_iff in Hv as [_ Hv]. apply IH in Hv. discriminate.
Qed.

(** [trim] leaves nothing exactly when every code unit is white space. *)
Lemma falsy_trim s : falsy (trim s) = negb (hasVisible s).
Proof.
  unfold trim. rewrite <- (trimStart_hasVisible s).
  destruct (trimEnd (trimStart s)) eqn:Ht; simpl.
  - apply trimEnd_empty in Ht. by rewrite Ht.
  - destruct (hasVisible (trimStart s)) eqn:Hv; [done|].
    apply trimEnd_empty in Hv. congruence.
Qed.

Lemma nonEmpty_hasVisible s : nonEmpty s = hasVisible s.
Proof. unfold nonEmpty. rewrite falsy_trim. by destruct (hasVisible s). Qed.

Lemma hasVisible_nonempty s : hasVisible s = true -> falsy s = false.
Proof. by destruct s. Qed.

(** ** From the legacy copy to the current copy and back *)

Section Transfer.
Context `{Runtime}.

Lemma forget_rememberW (w : World Legacy.State) : forgetW (rememberW w) = w.
Proof. by destruct w as [[] ?]. Qed.

Lemma legacy_step_remember e (w : World Legacy.State) :
  Legacy.step e w = forgetW (Current.step e (rememberW w)).
Proof. by rewrite forget_step, forget_rememberW. Qed.

Lemma legacy_run_remember es (w : World Legacy.State) :
  Legacy.run es w = forgetW (Current.run es (rememberW w)).
Proof. by rewrite forget_run, forget_rememberW. Qed.

Lemma remember_render (s : Legacy.State) cq :
  Legacy.render s = QuestionCard cq ->
  Current.render (remember s) = QuestionCard cq.
Proof.
  intros Hr. pose proof (forget_render (remember s)) as Hf.
  assert (Hs : forget (remember s) = s) by (by destruct s).
  rewrite Hs, Hr in Hf. by destruct (Current.render (remember s)).
Qed.
End Transfer.

Section Acceptance.
Context `{Runtime}.

Lemma current_submit_accepts (w : World Current.State) cq now now' :
  location w = None -> Current.render (component w) = QuestionCard cq ->
  let ua := Current.userAnswer (component w) in
  let w' := Current.step (Submit now now') w in
  (hasVisible ua = true ->
   Current.answers (component w')
   = Current.answers (component w)
     ++ [mkAnswerData (id cq) ua
           (Qmake (now - Current.questionStartTime (component w)) 1000) false])
  /\ (hasVisible ua = false -> w' = toast_error "Please provide an answer" w).
Proof.
  intros Hloc Hcard ua w'. split; intros Hv.
  - apply current_accept_record; [done|done|]. by rewrite nonEmpty_hasVisible.
  - subst w'. unfold Current.step. rewrite Hloc, Hcard.
    apply current_submit_empty. rewrite falsy_trim. by fold ua; rewrite Hv.
Qed.
End Acceptance.

(** X1: with the question card on screen, [handleAnswerSubmit] appends a
    record exactly when the draft has a code unit that is not white space,
    and the record keeps the draft as typed, blanks included; otherwise it
    only shows "Please provide an answer".  The submit button, which either
    copy renders with the card, is disabled for the empty draft only, so a
    draft of blanks can be submitted and is refused by the handler.  Both
    copies. *)
Theorem X1_accepts_visible_drafts `{Runtime}
    (c : World Current.State) (l : World Legacy.State) cq now now' t v :
  location c = None -> currentView t (component c) = Some v ->
  Current.render (component c) = QuestionCard cq ->
  location l = None -> Legacy.render (component l) = QuestionCard cq ->
  let cu := Current.userAnswer (component c) in
  let lu := Legacy.userAnswer (component l) in
  let c' := Current.step (Submit now now') c in
  let l' := Legacy.step (Submit now now') l in
  (if hasVisible cu
   then Current.answers (component c')
        = Current.answers (component c)
          ++ [mkAnswerData (id cq) cu
                (Qmake (now - Current.questionStartTime (component c)) 1000) false]
   else c' = toast_error "Please provide an answer" c)
  /\ (if hasVisible lu
      then Legacy.answers (component l')
           = Legacy.answers (component l)
             ++ [mkAnswerData (id cq) lu
                   (Qmake (now - Legacy.questionStartTime (component l)) 1000) false]
      else l' = toast_error "Please provide an answer" l)
  /\ (submitDisabled v = true <-> cu = EmptyString)
  /\ (submitDisabled v = true -> hasVisible cu = false)
  /\ (exists v', legacyView t (component l) = Some v'
                 /\ (submitDisabled v' = true <-> lu = EmptyString)
                 /\ (submitDisabled v' = true -> hasVisible lu = false)).
Proof.
  intros Hloc Hview Hcard Hloc' Hcard'. cbn zeta.
  destruct (current_submit_accepts c cq now now' Hloc Hcard) as [Hacc Hrej].
  split; [|split; [|split; [|split]]].
  - destruct (hasVisible (Current.userAnswer (component c))) eqn:Hv; auto.
  - clear Hacc Hrej.
    destruct (hasVisible (Legacy.userAnswer (component l))) eqn:Hv.
    + pose proof (legacy_accept_record l cq now now' Hloc' Hcard') as Hl.
      rewrite nonEmpty_hasVisible in Hl. exact (Hl Hv).
    + unfold Legacy.step. rewrite Hloc', Hcard'.
      apply legacy_submit_empty. by rewrite falsy_trim, Hv.
  - revert Hview. unfold currentView. rewrite Hcard.
    destruct (Current.quiz _) as [q|]; [|done].
    destruct (questions q); [|done]. intros [= <-]. simpl.
    by destruct (Current.userAnswer _).
  - revert Hview. unfold currentView. rewrite Hcard.
    destruct (Current.quiz _) as [q|]; [|done].
    destruct (questions q); [|done]. intros [= <-]. simpl.
    by destruct (Current.userAnswer _).
  - clear Hacc Hrej Hview.
    destruct (legacy_render_card _ _ Hcard') as (qs & Hqs & _).
    unfold legacyView. rewrite Hcard'.
    destruct (Legacy.quiz (component l)) as [q|]; [|done].
    simpl in Hqs. rewrite Hqs.
    eexists. split; [reflexivity|]. simpl.
    by destruct (Legacy.userAnswer (component l)).
Qed.

Lemma X1_accepts_visible_drafts_witness :
  let c := Current.step (H := sampleRuntime) (Change "  42 ") twoQuestionSession in
  let c' := Current.step (H := sampleRuntime) (Submit 1100 1200) c in
  Current.answers (component c')
  = [mkAnswerData "q1" "  42 " (Qmake 1000 1000) false].
Proof.
  pose proof (@X1_accepts_visible_drafts sampleRuntime
                (Current.step (H := sampleRuntime) (Change "  42 ")
                              twoQuestionSession)
                (Legacy.mount (H := sampleRuntime) "7" (stored "two") 0 0 100)
                Q1 1100 1200 5000) as Hx.
  cbn zeta in Hx.
  edestruct Hx as (Hc & _); [reflexivity|reflexivity|reflexivity|reflexivity
                            |reflexivity|].
  exact Hc.
Defined.

(** ** The question card *)

Lemma progressOf_bounds idx n :
  idx < n ->
  (0 < progressOf idx n)%Q /\ (progressOf idx n <= 100)%Q
  /\ ((progressOf idx n == 100)%Q <-> S idx = n).
Proof.
  intros Hlt. unfold progressOf, Qdiv. change (inject_Z 100) with 100%Q.
  assert (Hn : (0 < inject_Z (Z.of_nat n))%Q).
  { unfold Qlt. simpl. lia. }
  assert (Hk : (0 < inject_Z (Z.of_nat (idx + 1)))%Q).
  { unfold Qlt. simpl. lia. }
  assert (Hkn : (inject_Z (Z.of_nat (idx + 1)) <= inject_Z (Z.of_nat n))%Q).
  { rewrite <- Zle_Qle. lia. }
  assert (Hinj : (inject_Z (Z.of_nat (idx + 1)) == inject_Z (Z.of_nat n))%Q
                 <-> S idx = n).
  { split; [intros Heq; unfold Qeq in Heq; simpl in Heq; lia|].
    intros <-. by replace (idx + 1) with (S idx) by lia. }
  revert Hn Hk Hkn Hinj.
  generalize (inject_Z (Z.of_nat (idx + 1))) (inject_Z (Z.of_nat n)).
  intros k m Hm Hk Hkm Hinj.
  assert (Hinv : (0 < / m)%Q) by (by apply Qinv_lt_0_compat).
  assert (Hone : (m * / m == 1)%Q) by (apply Qmult_inv_r; lra).
  assert (Hpos : (0 < k * / m)%Q) by (by apply Qmult_lt_0_compat).
  assert (Hle : (k * / m <= 1)%Q).
  { rewrite <- Hone. apply Qmult_le_compat_r; lra. }
  assert (Hback : (k * / m * m == k)%Q).
  { rewrite <- Qmult_assoc, (Qmult_comm (/ m)), Hone. ring. }
  revert Hpos Hle Hback. generalize (k * / m)%Q. intros x Hpos Hle Hback.
  split; [lra|]. split; [lra|]. rewrite <- Hinj. split.
  - intros Hx. assert (Hx1 : (x == 1)%Q) by lra. rewrite Hx1 in Hback. lra.
  - intros Heq. rewrite Heq in Hback.
    assert (Hx1 : (x == 1)%Q).
    { apply (Qmult_inj_r x 1 m); [lra|]. lra. }
    lra.
Qed.

Lemma submitLabelOf_next idx n : submitLabelOf idx n = NextQuestion <-> S idx < n.
Proof.
  unfold submitLabelOf.
  destruct (Z.ltb_spec (Z.of_nat idx) (Z.of_nat n - 1)); split; try done; lia.
Qed.

Section Card.
Context `{Runtime}.

(** What is behind a card of the current copy. *)
Lemma currentView_card t (s : Current.State) v :
  currentView t s = Some v ->
  exists cq qs,
    Current.render s = QuestionCard cq
    /\ Current.quiz s ≫= questions = Some qs
    /\ qs !! Current.currentIndex s = Some cq
    /\ progress v = progressOf (Current.currentIndex s) (length qs)
    /\ questionNumber v = S (Current.currentIndex s)
    /\ questionCount v = length qs
    /\ submitLabel v = submitLabelOf (Current.currentIndex s) (length qs)
    /\ answerInput v = answerInputOf (Current.userAnswer s) cq.
Proof.
  unfold currentView. destruct (Current.render s) as [| |cq|] eqn:Hr; try done.
  destruct (current_render_card _ _ Hr) as (qs & Hqs & Hcq & _).
  destruct (Current.quiz s) as [q|]; [|done]. simpl in Hqs. rewrite Hqs.
  intros [= <-]. exists cq, qs. simpl.
  repeat split; try done. lia.
Qed.

Lemma legacyView_card t (s : Legacy.State) v :
  legacyView t s = Some v ->
  exists cq qs,
    Legacy.render s = QuestionCard cq
    /\ Legacy.quiz s ≫= questions = Some qs
    /\ qs !! Legacy.currentIndex s = Some cq
    /\ progress v = progressOf (Legacy.currentIndex s) (length qs)
    /\ questionNumber v = S (Legacy.currentIndex s)
    /\ questionCount v = length qs
    /\ submitLabel v = submitLabelOf (Legacy.currentIndex s) (length qs)
    /\ answerInput v = answerInputOf (Legacy.userAnswer s) cq.
Proof.
  unfold legacyView. destruct (Legacy.render s) as [| |cq|] eqn:Hr; try done.
  destruct (legacy_render_card _ _ Hr) as (qs & Hqs & Hcq & _).
  destruct (Legacy.quiz s) as [q|]; [|done]. simpl in Hqs. rewrite Hqs.
  intros [= <-]. exists cq, qs. simpl.
  repeat split; try done. lia.
Qed.

(** The two outcomes of an accepted answer, as whole worlds. *)
Lemma current_accept_outcome (w : World Current.State) cq qs now now' :
  location w = None -> Current.render (component w) = QuestionCard cq ->
  Current.quiz (component w) ≫= questions = Some qs ->
  hasVisible (Current.userAnswer (component w)) = true ->
  let i := Current.currentIndex (component w) in
  let w' := Current.step (Submit now now') w in
  let record := answerOf cq (Current.userAnswer (component w))
                         (Current.questionStartTime (component w)) now in
  Current.answers (component w') = Current.answers (component w) ++ [record]
  /\ Current.userAnswer (component w') = EmptyString
  /\ Current.showHint (component w') = false
  /\ location w' = None /\ sessionStorage w' = sessionStorage w
  /\ toasts w' = toasts w /\ quizId w' = quizId w
  /\ Current.quiz (component w') = Current.quiz (component w)
  /\ if decide (S i < length qs)
     then requests w' = requests w
          /\ Current.currentIndex (component w') = S i
          /\ Current.questionStartTime (component w') = now'
          /\ Current.submitting (component w') = false
     else requests w'
          = requests w
            ++ [mkRequest "/quiz/submit" (quizId w)
                          (Current.answers (component w) ++ [record])]
          /\ Current.currentIndex (component w') = i
          /\ Current.questionStartTime (component w')
             = Current.questionStartTime (component w)
          /\ Current.submitting (component w') = true.
Proof.
  intros Hloc Hcard Hqs Hv. cbn zeta.
  destruct (current_render_card _ _ Hcard) as (qs' & Hqs' & Hcq & Hsub).
  rewrite Hqs in Hqs'. injection Hqs' as <-.
  assert (Hne : falsy (trim (Current.userAnswer (component w))) = false)
    by (by rewrite falsy_trim, Hv).
  unfold Current.step. rewrite Hloc, Hcard.
  destruct (decide _) as [Hlt|Hge].
  - rewrite (current_submit_next now now' w qs cq) by done. simpl.
    repeat split; try done. lia.
  - rewrite (current_submit_final now now' w qs cq) by done. simpl.
    repeat split; done.
Qed.
End Card.

(** X2: whenever the question card is on screen, in either copy, the
    progress bar is above 0 and at most 100 percent, the header reads
    "Question k of n" with [1 <= k <= n], and the bar is full exactly on the
    last question, which is exactly when the button reads "Submit Quiz". *)
Theorem X2_progress_in_range `{Runtime}
    t (c : Current.State) (l : Legacy.State) v v' :
  currentView t c = Some v -> legacyView t l = Some v' ->
  ((0 < progress v)%Q /\ (progress v <= 100)%Q
   /\ 1 <= questionNumber v <= questionCount v
   /\ ((progress v == 100)%Q <-> questionNumber v = questionCount v)
   /\ (submitLabel v = SubmitQuiz <-> questionNumber v = questionCount v))
  /\ ((0 < progress v')%Q /\ (progress v' <= 100)%Q
      /\ 1 <= questionNumber v' <= questionCount v'
      /\ ((progress v' == 100)%Q <-> questionNumber v' = questionCount v')
      /\ (submitLabel v' = SubmitQuiz <-> questionNumber v' = questionCount v')).
Proof.
  intros Hv Hv'.
  destruct (currentView_card t c v Hv)
    as (cq & qs & _ & _ & Hcq & -> & -> & -> & -> & _).
  destruct (legacyView_card t l v' Hv')
    as (cq' & qs' & _ & _ & Hcq' & -> & -> & -> & -> & _).
  apply lookup_lt_Some in Hcq, Hcq'.
  assert (Hlabel : forall idx n, idx < n ->
            submitLabelOf idx n = SubmitQuiz <-> S idx = n).
  { intros idx n Hlt. pose proof (submitLabelOf_next idx n) as Hn.
    destruct (submitLabelOf idx n).
    - split; [done|]. intros Hx. assert (S idx < n) by (by apply Hn). lia.
    - split; [|done]. intros _.
      destruct (decide (S idx < n)) as [Hd|Hd]; [|lia].
      apply Hn in Hd. discriminate. }
  split.
  - destruct (progressOf_bounds _ _ Hcq) as (H1 & H2 & H3).
    split; [done|]. split; [done|]. split; [lia|]. split; [done|].
    by apply Hlabel.
  - destruct (progressOf_bounds _ _ Hcq') as (H1 & H2 & H3).
    split; [done|]. split; [done|]. split; [lia|]. split; [done|].
    by apply Hlabel.
Qed.

Lemma X2_progress_in_range_witness :
  exists v, currentView 5000 (component twoQuestionSession) = Some v
            /\ (0 < progress v)%Q /\ (progress v <= 100)%Q
            /\ questionNumber v = 1 /\ questionCount v = 2.
Proof.
  eexists. split; [reflexivity|].
  edestruct (@X2_progress_in_range sampleRuntime 5000
               (component twoQuestionSession)
               (component (Legacy.mount (H := sampleRuntime) "7" (stored "two")
                                        0 0 100)))
    as ((H1 & H2 & _) & _); [reflexivity|reflexivity|].
  split; [exact H1|]. split; [exact H2|]. split; reflexivity.
Defined.

Section CardAndHandler.
Context `{Runtime}.

(** The same outcomes in the legacy copy, through the current one. *)
Lemma legacy_accept_outcome (w : World Legacy.State) cq qs now now' :
  location w = None -> Legacy.render (component w) = QuestionCard cq ->
  Legacy.quiz (component w) ≫= questions = Some qs ->
  hasVisible (Legacy.userAnswer (component w)) = true ->
  let i := Legacy.currentIndex (component w) in
  let w' := Legacy.step (Submit now now') w in
  let record := answerOf cq (Legacy.userAnswer (component w))
                         (Legacy.questionStartTime (component w)) now in
  Legacy.answers (component w') = Legacy.answers (component w) ++ [record]
  /\ Legacy.userAnswer (component w') = EmptyString
  /\ location w' = None /\ sessionStorage w' = sessionStorage w
  /\ toasts w' = toasts w /\ quizId w' = quizId w
  /\ Legacy.quiz (component w') = Legacy.quiz (component w)
  /\ if decide (S i < length qs)
     then requests w' = requests w
          /\ Legacy.currentIndex (component w') = S i
          /\ Legacy.questionStartTime (component w') = now'
          /\ Legacy.submitting (component w') = false
     else requests w'
          = requests w
            ++ [mkRequest "/quiz/submit" (quizId w)
                          (Legacy.answers (component w) ++ [record])]
          /\ Legacy.currentIndex (component w') = i
          /\ Legacy.questionStartTime (component w')
             = Legacy.questionStartTime (component w)
          /\ Legacy.submitting (component w') = true.
Proof.
  intros Hloc Hcard Hqs Hv. cbn zeta.
  rewrite (legacy_step_remember (Submit now now') w).
  pose proof (current_accept_outcome (rememberW w) cq qs now now'
                Hloc (remember_render _ _ Hcard) Hqs Hv) as Hc.
  cbn zeta in Hc. simpl in Hc. simpl.
  destruct Hc as (Ha & Hu & _ & Hl & Hs & Ht & Hi & Hq & Hcase).
  repeat (split; [done|]). done.
Qed.
End CardAndHandler.

(** X3: the label of the submit button tells what an accepted answer
    does.  With "Next Question" the answer moves to the next question and
    no request is made; with "Submit Quiz" the index stays, the spinner
    comes up and one request is posted to "/quiz/submit" with the route's
    quiz id and all records held, the new one included.  Both copies. *)
Theorem X3_button_label_tells_outcome `{Runtime}
    (c : World Current.State) (l : World Legacy.State) t v v' now now' :
  location c = None -> currentView t (component c) = Some v ->
  hasVisible (Current.userAnswer (component c)) = true ->
  location l = None -> legacyView t (component l) = Some v' ->
  hasVisible (Legacy.userAnswer (component l)) = true ->
  let c' := Current.step (Submit now now') c in
  let l' := Legacy.step (Submit now now') l in
  match submitLabel v with
  | NextQuestion =>
      requests c' = requests c
      /\ Current.currentIndex (component c') = S (Current.currentIndex (component c))
      /\ Current.submitting (component c') = false
  | SubmitQuiz =>
      requests c'
      = requests c ++ [mkRequest "/quiz/submit" (quizId c)
                                 (Current.answers (component c'))]
      /\ Current.currentIndex (component c') = Current.currentIndex (component c)
      /\ Current.submitting (component c') = true
  end
  /\ match submitLabel v' with
     | NextQuestion =>
         requests l' = requests l
         /\ Legacy.currentIndex (component l') = S (Legacy.currentIndex (component l))
         /\ Legacy.submitting (component l') = false
     | SubmitQuiz =>
         requests l'
         = requests l ++ [mkRequest "/quiz/submit" (quizId l)
                                    (Legacy.answers (component l'))]
         /\ Legacy.currentIndex (component l') = Legacy.currentIndex (component l)
         /\ Legacy.submitting (component l') = true
     end.
Proof.
  intros Hloc Hv Hvis Hloc' Hv' Hvis'. cbn zeta.
  destruct (currentView_card t _ v Hv)
    as (cq & qs & Hcard & Hqs & _ & _ & _ & _ & Hlabel & _).
  destruct (legacyView_card t _ v' Hv')
    as (cq' & qs' & Hcard' & Hqs' & _ & _ & _ & _ & Hlabel' & _).
  split.
  - pose proof (current_accept_outcome c cq qs now now' Hloc Hcard Hqs Hvis)
      as (Ha & _ & _ & _ & _ & _ & _ & _ & Hcase).
    pose proof (submitLabelOf_next (Current.currentIndex (component c))
                                   (length qs)) as Hn.
    rewrite Hlabel. clear Hlabel Hlabel'.
    destruct (submitLabelOf (Current.currentIndex (component c)) (length qs))
      eqn:E.
    + destruct (decide _) as [_|Hd]; [|destruct Hd; by apply Hn].
      by destruct Hcase as (? & ? & _ & ?).
    + destruct (decide _) as [Hd|_].
      * apply Hn in Hd. discriminate.
      * destruct Hcase as (-> & ? & _ & ?). by rewrite Ha.
  - pose proof (legacy_accept_outcome l cq' qs' now now' Hloc' Hcard' Hqs' Hvis')
      as (Ha & _ & _ & _ & _ & _ & _ & Hcase).
    pose proof (submitLabelOf_next (Legacy.currentIndex (component l))
                                   (length qs')) as Hn.
    rewrite Hlabel'. clear Hlabel Hlabel'.
    destruct (submitLabelOf (Legacy.currentIndex (component l)) (length qs'))
      eqn:E.
    + destruct (decide _) as [_|Hd]; [|destruct Hd; by apply Hn].
      by destruct Hcase as (? & ? & _ & ?).
    + destruct (decide _) as [Hd|_].
      * apply Hn in Hd. discriminate.
      * destruct Hcase as (-> & ? & _ & ?). by rewrite Ha.
Qed.

Lemma X3_button_label_tells_outcome_witness :
  let c := Current.step (H := sampleRuntime) (Change "42") sampleSession in
  let c' := Current.step (H := sampleRuntime) (Submit 1100 1100) c in
  requests c' = [mkRequest "/quiz/submit" "7" (Current.answers (component c'))]
  /\ Current.currentIndex (component c') = 0
  /\ Current.submitting (component c') = true.
Proof.
  edestruct (@X3_button_label_tells_outcome sampleRuntime
               (Current.step (H := sampleRuntime) (Change "42") sampleSession)
               (Legacy.step (H := sampleRuntime) (Change "42")
                            sampleLegacySession)
               5000) as [Hc _];
    [reflexivity|reflexivity|reflexivity|reflexivity|reflexivity|reflexivity|].
  exact Hc.
Defined.

(** ** The option buttons *)

(** X4: clicking an option of a multiple-choice question highlights every
    option that begins with the same character as the clicked one, the
    clicked one included, and no other; two options with the same first
    character cannot be told apart, clicking either gives the same state,
    while options with different first characters give different drafts.
    Both copies. *)
Theorem X4_options_by_first_character `{Runtime}
    (c : World Current.State) (l : World Legacy.State) cq opts i j oi oj :
  location c = None -> Current.render (component c) = QuestionCard cq ->
  location l = None -> Legacy.render (component l) = QuestionCard cq ->
  isMcq cq = Some opts -> opts !! i = Some oi -> opts !! j = Some oj ->
  let c' := Current.step (ClickOption i) c in
  let l' := Legacy.step (ClickOption i) l in
  let buttons :=
    OptionButtons
      (map (fun o => (o, String.eqb (charAt oi 0) (charAt o 0))) opts) in
  (answerInputOf (Current.userAnswer (component c')) cq = buttons
   /\ answerInputOf (Legacy.userAnswer (component l')) cq = buttons)
  /\ (charAt oj 0 = charAt oi 0 ->
      Current.step (ClickOption j) c = c' /\ Legacy.step (ClickOption j) l = l')
  /\ (charAt oj 0 <> charAt oi 0 ->
      Current.userAnswer (component (Current.step (ClickOption j) c))
      <> Current.userAnswer (component c')
      /\ Legacy.userAnswer (component (Legacy.step (ClickOption j) l))
         <> Legacy.userAnswer (component l')).
Proof.
  intros Hloc Hcard Hloc' Hcard' Hmcq Hi Hj. cbn zeta.
  assert (Hc : forall k ok, opts !! k = Some ok ->
            Current.step (ClickOption k) c
            = setState (Current.setUserAnswer (charAt ok 0)) c).
  { intros k ok Hk. unfold Current.step, Current.clickOption.
    rewrite Hloc, Hcard, Hmcq. simpl. by rewrite Hk. }
  assert (Hl : forall k ok, opts !! k = Some ok ->
            Legacy.step (ClickOption k) l
            = setState (Legacy.setUserAnswer (charAt ok 0)) l).
  { intros k ok Hk. unfold Legacy.step, Legacy.clickOption.
    rewrite Hloc', Hcard', Hmcq. simpl. by rewrite Hk. }
  rewrite (Hc i oi Hi), (Hl i oi Hi), (Hc j oj Hj), (Hl j oj Hj). simpl.
  split; [|split].
  - unfold answerInputOf. by rewrite Hmcq.
  - by intros ->.
  - intros Hne. by split.
Qed.

Lemma X4_options_by_first_character_witness :
  let c' := Current.step (H := sampleRuntime) (ClickOption 1) twoQuestionSession in
  answerInputOf (Current.userAnswer (component c')) Q1
  = OptionButtons [("A) x", false); ("B) y", true)].
Proof.
  edestruct (@X4_options_by_first_character sampleRuntime twoQuestionSession
               (Legacy.mount (H := sampleRuntime) "7" (stored "two") 0 0 100)
               Q1 ["A) x"; "B) y"] 1 0 "B) y" "A) x")
    as ((Hc & _) & _);
    [reflexivity|reflexivity|reflexivity|reflexivity|reflexivity|reflexivity
    |reflexivity|].
  exact Hc.
Defined.

(** ** The hint of the current copy *)

Section Hint.
Context `{Runtime}.

Lemma current_step_hint e (w : World Current.State) :
  (Current.showHint (component w) = true ->
   exists h, hintOnScreen (component w) h) ->
  Current.showHint (component (Current.step e w)) = true ->
  exists h, hintOnScreen (component (Current.step e w)) h.
Proof.
  intros Hinv. unfold Current.step.
  destruct (location w) eqn:Hloc; [done|].
  destruct e as [text|idx| |now now'|r].
  - destruct (Current.render (component w)); done.
  - destruct (Current.render (component w)) as [| |cq|]; try done.
    by destruct (current_clickOption_frame idx cq w) as [text ->].
  - destruct (Current.render (component w)) as [| |cq|] eqn:Hr; try done.
    unfold Current.clickShowHint.
    destruct (Current.quiz (component w) ≫= mode) as [m|] eqn:Hm; [|done].
    destruct (hint cq) as [h|] eqn:Hh; [|done].
    destruct (String.eqb m "practice") eqn:Hp; [|done].
    destruct (falsy h) eqn:Hf; [done|].
    destruct (Current.showHint (component w)) eqn:Hs; [by auto|]. simpl.
    intros _. exists h.
    destruct (current_render_card _ _ Hr) as (qs & Hqs & Hcq & Hsub).
    split; [done|].
    destruct (Current.quiz (component w)) as [q|] eqn:Hq; [|done].
    simpl in Hqs, Hm.
    exists q, qs, cq, m. repeat split; try done.
    unfold truthy. by rewrite Hh, Hf.
  - destruct (Current.render (component w)) as [| |cq|] eqn:Hr; try done.
    destruct (current_render_card _ _ Hr) as (qs & Hqs & Hcq & Hsub).
    destruct (falsy (trim (Current.userAnswer (component w)))) eqn:Hne.
    + by rewrite current_submit_empty.
    + destruct (decide (S (Current.currentIndex (component w)) < length qs)).
      * by rewrite (current_submit_next now now' w qs cq).
      * by rewrite (current_submit_final now now' w qs cq).
  - destruct (Current.submitting (component w)) eqn:Hsub; [|done].
    destruct (current_settled_frame r w) as [-> | ->]; [done|]. simpl.
    intros Hs. destruct (Hinv Hs) as (h & Hsub' & _). congruence.
Qed.

Lemma current_run_hint es : forall w : World Current.State,
  (Current.showHint (component w) = true ->
   exists h, hintOnScreen (component w) h) ->
  Current.showHint (component (Current.run es w)) = true ->
  exists h, hintOnScreen (component (Current.run es w)) h.
Proof.
  unfold Current.run. induction es as [|e es IH]; intros w Hinv; [done|].
  simpl. apply IH. by apply current_step_hint.
Qed.

Lemma current_mount_hint qid storage t0 t1 now :
  Current.showHint (component (Current.mount qid storage t0 t1 now)) = false.
Proof.
  unfold Current.mount, Current.loadQuiz, getItem. simpl.
  destruct (storage !! "currentQuiz") as [text|]; [|done].
  destruct (falsy text); [done|].
  destruct (JSON_parse text) as [| |q]; try done.
  destruct (questions q) as [qs|]; [|done].
  by destruct (length qs =? 0)%nat.
Qed.

Lemma hintOnScreen_view t (s : Current.State) h :
  Current.showHint s = true -> hintOnScreen s h ->
  exists v, currentView t s = Some v /\ hintPanel v = HintText h.
Proof.
  intros Hs (Hsub & q & qs & cq & m & Hq & Hqs & Hcq & Hm & Hp & Hh).
  unfold currentView, Current.render. rewrite Hq, Hsub, Hqs.
  destruct qs as [|q0 qs]; [done|]. rewrite Hcq.
  eexists. split; [reflexivity|]. simpl. by rewrite Hm, Hh, Hp, Hs.
Qed.
End Hint.

(** X5: in the current copy a revealed hint never outlives its question.
    In every session reached from mounting, when the hint flag is set the
    question card is on screen and shows the hint of the question at
    [currentIndex], in a quiz in practice mode; the flag is clear after
    loading and after every accepted answer. *)
Theorem X5_hint_belongs_to_question `{Runtime} qid storage t0 t1 now es t :
  let w0 := Current.mount qid storage t0 t1 now in
  let w := Current.run es w0 in
  Current.showHint (component w0) = false
  /\ (Current.showHint (component w) = true ->
      exists v h, currentView t (component w) = Some v
                  /\ hintPanel v = HintText h
                  /\ hintOnScreen (component w) h)
  /\ (forall cq a a',
        location w = None -> Current.render (component w) = QuestionCard cq ->
        hasVisible (Current.userAnswer (component w)) = true ->
        Current.showHint (component (Current.step (Submit a a') w)) = false).
Proof.
  cbn zeta. split; [apply current_mount_hint|]. split.
  - intros Hs.
    destruct (current_run_hint es (Current.mount qid storage t0 t1 now))
      as [h Hh]; [by rewrite current_mount_hint|done|].
    destruct (hintOnScreen_view t _ h Hs Hh) as (v & Hv & Hp). eauto.
  - intros cq a a' Hloc Hcard Hv.
    destruct (current_render_card _ _ Hcard) as (qs & Hqs & _).
    by destruct (current_accept_outcome _ cq qs a a' Hloc Hcard Hqs Hv)
      as (_ & _ & Hhint & _).
Qed.

Lemma X5_hint_belongs_to_question_witness :
  let w := Current.run (H := sampleRuntime) [ClickShowHint; Change "A"]
             twoQuestionSession in
  Current.showHint (component (Current.step (H := sampleRuntime)
                                            (Submit 1100 1200) w)) = false.
Proof.
  pose proof (@X5_hint_belongs_to_question sampleRuntime "7" (stored "two")
                0 0 100 [ClickShowHint; Change "A"] 5000) as Hx.
  cbn zeta in Hx. destruct Hx as (_ & _ & Hx).
  apply (Hx Q1); reflexivity.
Defined.

(** ** Submitting twice in a row *)

Section Twice.
Context `{Runtime}.

(** With an empty draft [Submit] shows the notice or finds no card. *)
Lemma current_submit_blank (w : World Current.State) now now' :
  Current.userAnswer (component w) = EmptyString ->
  Current.step (Submit now now') w = w
  \/ Current.step (Submit now now') w = toast_error "Please provide an answer" w.
Proof.
  intros Hu. unfold Current.step. destruct (location w); [by left|].
  destruct (Current.render (component w)); try by left.
  right. apply current_submit_empty. by rewrite Hu.
Qed.

Lemma legacy_submit_blank (w : World Legacy.State) now now' :
  Legacy.userAnswer (component w) = EmptyString ->
  Legacy.step (Submit now now') w = w
  \/ Legacy.step (Submit now now') w = toast_error "Please provide an answer" w.
Proof.
  intros Hu. unfold Legacy.step. destruct (location w); [by left|].
  destruct (Legacy.render (component w)); try by left.
  right. apply legacy_submit_empty. by rewrite Hu.
Qed.
End Twice.

(** X6: an accepted answer clears the draft, so submitting again right
    away (a second Enter, a double click) records nothing: the records, the
    index, the requests and the stored slots stay as the first call left
    them, and at most the notice "Please provide an answer" is added.  Both
    copies. *)
Theorem X6_second_submit_records_nothing `{Runtime}
    (c : World Current.State) (l : World Legacy.State) cq cq' a a' b b' :
  location c = None -> Current.render (component c) = QuestionCard cq ->
  hasVisible (Current.userAnswer (component c)) = true ->
  location l = None -> Legacy.render (component l) = QuestionCard cq' ->
  hasVisible (Legacy.userAnswer (component l)) = true ->
  let c1 := Current.step (Submit a a') c in
  let c2 := Current.step (Submit b b') c1 in
  let l1 := Legacy.step (Submit a a') l in
  let l2 := Legacy.step (Submit b b') l1 in
  (Current.userAnswer (component c1) = EmptyString
   /\ (c2 = c1 \/ c2 = toast_error "Please provide an answer" c1)
   /\ Current.answers (component c2) = Current.answers (component c1)
   /\ Current.currentIndex (component c2) = Current.currentIndex (component c1)
   /\ requests c2 = requests c1 /\ sessionStorage c2 = sessionStorage c1)
  /\ (Legacy.userAnswer (component l1) = EmptyString
      /\ (l2 = l1 \/ l2 = toast_error "Please provide an answer" l1)
      /\ Legacy.answers (component l2) = Legacy.answers (component l1)
      /\ Legacy.currentIndex (component l2) = Legacy.currentIndex (component l1)
      /\ requests l2 = requests l1 /\ sessionStorage l2 = sessionStorage l1).
Proof.
  intros Hloc Hcard Hv Hloc' Hcard' Hv'. cbn zeta. split.
  - destruct (current_render_card _ _ Hcard) as (qs & Hqs & _).
    destruct (current_accept_outcome c cq qs a a' Hloc Hcard Hqs Hv)
      as (_ & Hu & _).
    split; [done|].
    destruct (current_submit_blank (Current.step (Submit a a') c) b b' Hu)
      as [-> | ->]; repeat split; auto.
  - destruct (legacy_render_card _ _ Hcard') as (qs & Hqs & _).
    destruct (legacy_accept_outcome l cq' qs a a' Hloc' Hcard' Hqs Hv')
      as (_ & Hu & _).
    split; [done|].
    destruct (legacy_submit_blank (Legacy.step (Submit a a') l) b b' Hu)
      as [-> | ->]; repeat split; auto.
Qed.

Lemma X6_second_submit_records_nothing_witness :
  let c := Current.step (H := sampleRuntime) (Change "A") twoQuestionSession in
  let c1 := Current.step (H := sampleRuntime) (Submit 1100 1200) c in
  let c2 := Current.step (H := sampleRuntime) (Submit 1300 1400) c1 in
  Current.answers (component c2) = Current.answers (component c1)
  /\ Current.currentIndex (component c2) = 1.
Proof.
  edestruct (@X6_second_submit_records_nothing sampleRuntime
               (Current.step (H := sampleRuntime) (Change "A") twoQuestionSession)
               (Legacy.step (H := sampleRuntime) (Change "A")
                  (Legacy.mount (H := sampleRuntime) "7" (stored "two") 0 0 100))
               Q1 Q1 1100 1200 1300 1400)
    as ((_ & _ & Ha & Hi & _) & _);
    [reflexivity|reflexivity|reflexivity|reflexivity|reflexivity|reflexivity|].
  split; [exact Ha|]. rewrite Hi. reflexivity.
Defined.


(** ** The records and the questions *)

Section RecordsFollow.
Context `{Runtime}.

Lemma current_step_follow qs e (w : World Current.State) :
  Current.quiz (component w) ≫= questions = Some qs ->
  recordsFollow qs (Current.answers (component w))
                (Current.currentIndex (component w)) (requests w)
  /\ allVisible (Current.answers (component w)) ->
  let w' := Current.step e w in
  recordsFollow qs (Current.answers (component w'))
                (Current.currentIndex (component w')) (requests w')
  /\ allVisible (Current.answers (component w')).
Proof.
  intros Hqs [Hf Hv]. cbn zeta.
  destruct (current_step_shape e w)
    as [ | text | b | Hloc Hne | now now' qs' cq He Hloc Hsub Hne Hqs' Hcq Hlt
       | now now' qs' cq He Hloc Hsub Hne Hqs' Hcq Hge | r He Hloc Hsub ];
    simpl; try done.
  - rewrite Hqs in Hqs'. injection Hqs' as <-. split.
    + unfold recordsFollow in *. destruct (requests w); [|done].
      unfold answeredIds in *. rewrite map_app, Hf. simpl.
      replace (Current.currentIndex (component w) + 1)
        with (S (Current.currentIndex (component w))) by lia.
      by rewrite (take_S_r _ _ _ Hcq), map_app.
    + apply Forall_app. split; [done|]. apply Forall_singleton. simpl.
      rewrite falsy_trim in Hne. by destruct (hasVisible _).
  - rewrite Hqs in Hqs'. injection Hqs' as <-. split.
    + unfold recordsFollow in *. destruct (requests w); [|done]. simpl.
      unfold answeredIds in *. rewrite map_app, Hf. simpl.
      apply lookup_lt_Some in Hcq as Hlt.
      rewrite <- (firstn_all qs) at 2.
      replace (length qs) with (S (Current.currentIndex (component w))) by lia.
      by rewrite (take_S_r _ _ _ Hcq), map_app.
    + apply Forall_app. split; [done|]. apply Forall_singleton. simpl.
      rewrite falsy_trim in Hne. by destruct (hasVisible _).
  - destruct (current_settled_requests r w) as [-> _].
    by destruct (current_settled_frame r w) as [-> | ->].
Qed.

Lemma current_run_follow qs es : forall w : World Current.State,
  Current.quiz (component w) ≫= questions = Some qs ->
  recordsFollow qs (Current.answers (component w))
                (Current.currentIndex (component w)) (requests w)
  /\ allVisible (Current.answers (component w)) ->
  let w' := Current.run es w in
  recordsFollow qs (Current.answers (component w'))
                (Current.currentIndex (component w')) (requests w')
  /\ allVisible (Current.answers (component w')).
Proof.
  unfold Current.run. induction es as [|e es IH]; intros w Hqs Hinv; [done|].
  simpl. apply IH.
  - by rewrite <- Hqs, <- (current_run_quiz [e] w).
  - by apply current_step_follow.
Qed.

(** Right after mounting nothing is recorded, in either copy. *)
Lemma current_mount_fresh qid storage t0 t1 now :
  let w := Current.mount qid storage t0 t1 now in
  Current.answers (component w) = [] /\ Current.currentIndex (component w) = 0
  /\ requests w = [] /\ Current.submitting (component w) = false
  /\ sessionStorage w = storage /\ quizId w = qid /\ uncaught w = [].
Proof.
  unfold Current.mount, Current.loadQuiz, getItem. simpl.
  destruct (storage !! "currentQuiz") as [text|]; [|done].
  destruct (falsy text); [done|].
  destruct (JSON_parse text) as [| |q]; try done.
  destruct (questions q) as [qs|]; [|done].
  by destruct (length qs =? 0)%nat.
Qed.

Lemma legacy_mount_fresh qid storage t0 t1 now :
  let w := Legacy.mount qid storage t0 t1 now in
  Legacy.answers (component w) = [] /\ Legacy.currentIndex (component w) = 0
  /\ requests w = [] /\ Legacy.submitting (component w) = false
  /\ sessionStorage w = storage /\ quizId w = qid.
Proof.
  unfold Legacy.mount, Legacy.loadQuiz, getItem. simpl.
  destruct (storage !! "currentQuiz") as [text|]; [|done].
  destruct (falsy text); [done|].
  by destruct (JSON_parse text) as [| |q].
Qed.
End RecordsFollow.

(** X7: the records follow the questions.  In every session reached from
    mounting, in both copies, as long as no submission call was made the
    records answer the first [currentIndex] questions in order (their
    [question_id]s are the ids of those questions); the first submission
    call carries exactly one record per question, in question order; and
    every record holds an answer with a character that is not white
    space. *)
Theorem X7_records_follow_questions `{Runtime} qid storage t0 t1 now es qs :
  let c := Current.run es (Current.mount qid storage t0 t1 now) in
  let l := Legacy.run es (Legacy.mount qid storage t0 t1 now) in
  (Current.quiz (component c) ≫= questions = Some qs ->
   recordsFollow qs (Current.answers (component c))
                 (Current.currentIndex (component c)) (requests c)
   /\ allVisible (Current.answers (component c)))
  /\ (Legacy.quiz (component l) ≫= questions = Some qs ->
      recordsFollow qs (Legacy.answers (component l))
                    (Legacy.currentIndex (component l)) (requests l)
      /\ allVisible (Legacy.answers (component l))).
Proof.
  cbn zeta. split; intros Hqs.
  - rewrite current_run_quiz in Hqs.
    apply (current_run_follow qs es); [done|].
    destruct (current_mount_fresh qid storage t0 t1 now)
      as (-> & -> & -> & _).
    split; [done|constructor].
  - rewrite legacy_run_quiz in Hqs.
    rewrite (legacy_run_remember es). simpl.
    apply (current_run_follow qs es (rememberW _)); [done|]. simpl.
    destruct (legacy_mount_fresh qid storage t0 t1 now)
      as (-> & -> & -> & _).
    split; [done|constructor].
Qed.

Lemma X7_records_follow_questions_witness :
  let c := Current.run (H := sampleRuntime)
             [ClickOption 1; Submit 1100 1200; Change "42"; Submit 2100 2200]
             twoQuestionSession in
  recordsFollow [Q1; Q2] (Current.answers (component c))
                (Current.currentIndex (component c)) (requests c)
  /\ allVisible (Current.answers (component c)).
Proof.
  pose proof (@X7_records_follow_questions sampleRuntime "7" (stored "two")
                0 0 100
                [ClickOption 1; Submit 1100 1200; Change "42"; Submit 2100 2200]
                [Q1; Q2]) as Hx.
  cbn zeta in Hx. destruct Hx as [Hx _].
  apply Hx. reflexivity.
Defined.
(** ** The submission calls of a session *)

Section RequestChain.
Context `{Runtime}.

Lemma last_lookup_request (l : list Request) (d r : Request) :
  l !! (length l - 1) = Some r -> List.last l d = r.
Proof.
  destruct l as [|x l] using rev_ind; [done|].
  rewrite length_app. simpl.
  replace (length l + 1 - 1) with (length l) by lia.
  rewrite lookup_app_r by lia. rewrite Nat.sub_diag. simpl.
  intros [= ->]. apply List.last_last.
Qed.

Lemma current_step_chain qs e (w : World Current.State) :
  currentInv qs w ->
  requestChain qs (quizId w) (requests w) ->
  requestChain qs (quizId (Current.step e w)) (requests (Current.step e w)).
Proof.
  intros (Hqs & Hidx & Hreq) Hch.
  destruct (current_step_shape e w)
    as [ | text | b | Hloc Hne | now now' qs' cq He Hloc Hsub Hne Hqs' Hcq Hlt
       | now now' qs' cq He Hloc Hsub Hne Hqs' Hcq Hge | r He Hloc Hsub ];
    simpl in *; try done.
  - (* the last question: one more call *)
    rewrite Hqs in Hqs'. injection Hqs' as <-.
    intros k r Hk.
    destruct (decide (k < length (requests w))) as [Hlt|Hnlt].
    + rewrite lookup_app_l in Hk by done.
      destruct (Hch k r Hk) as (Hu & Hq & Hlen & Hnext).
      split; [done|]. split; [done|]. split; [done|].
      intros r' Hk'.
      destruct (decide (S k < length (requests w))) as [Hlt'|Hnlt'].
      * rewrite lookup_app_l in Hk' by done. by apply Hnext.
      * assert (Hlast : S k = length (requests w)) by lia.
        rewrite lookup_app_r in Hk' by lia.
        rewrite Hlast, Nat.sub_diag in Hk'. injection Hk' as <-. simpl.
        destruct (requests w) as [|r0 rs] eqn:Hrs; [simpl in *; lia|].
        destruct Hreq as [Hsidx Hl].
        rewrite (last_lookup_request (r0 :: rs) _ r) in Hl.
        2:{ rewrite <- Hk. f_equal. simpl in *. lia. }
        subst r. simpl. exists (answerOf cq (Current.userAnswer (component w))
                                  (Current.questionStartTime (component w)) now), cq.
        split; [done|]. split; [|done].
        rewrite <- Hcq. f_equal. lia.
    + rewrite lookup_app_r in Hk by lia.
      destruct (length (requests w)) as [|m] eqn:Hm.
      * destruct (requests w) as [|r0 rs] eqn:Hrs; [|done].
        assert (k = 0) as ->.
        { destruct k; [done|]. by destruct k. }
        simpl in Hk. injection Hk as <-. simpl.
        destruct Hreq as [Hlen _].
        rewrite length_app. simpl.
        split; [done|]. split; [done|]. split; [lia|].
        intros r' Hr'. done.
      * destruct (k - S m) as [|j] eqn:Hj; [|by destruct j].
        simpl in Hk. injection Hk as <-. simpl.
        assert (k = S m) as -> by lia.
        destruct (requests w) as [|r0 rs] eqn:Hrs; [done|].
        destruct Hreq as [Hsidx Hl].
        destruct (lookup_lt_is_Some_2 (r0 :: rs) m) as [rm Hrm];
          [simpl in *; lia|].
        rewrite (last_lookup_request (r0 :: rs) _ rm) in Hl.
        2:{ rewrite <- Hrm. f_equal. simpl in *. lia. }
        destruct (Hch m rm Hrm) as (_ & _ & Hlen & _).
        subst rm. simpl in Hlen.
        rewrite length_app. simpl.
        split; [done|]. split; [done|]. split; [lia|].
        intros r' Hr'.
        apply lookup_lt_Some in Hr'. rewrite length_app in Hr'.
        simpl in *. lia.
  - destruct (current_settled_requests r w) as [-> ->]. done.
Qed.

Lemma current_run_chain qs es : forall w : World Current.State,
  currentInv qs w ->
  requestChain qs (quizId w) (requests w) ->
  requestChain qs (quizId (Current.run es w)) (requests (Current.run es w)).
Proof.
  unfold Current.run. induction es as [|e es IH]; intros w Hinv Hch; [done|].
  simpl. apply IH.
  - by apply current_step_inv.
  - by apply current_step_chain.
Qed.

Lemma current_run_quizId es : forall w : World Current.State,
  quizId (Current.run es w) = quizId w.
Proof.
  unfold Current.run. induction es as [|e es IH]; intros w; [done|].
  simpl. rewrite IH.
  destruct (current_step_shape e w); try done.
  by destruct (current_settled_requests r w) as [_ ->].
Qed.

Lemma remember_inv qs (w : World Legacy.State) :
  legacyInv qs w -> currentInv qs (rememberW w).
Proof. done. Qed.
End RequestChain.

(** X8: the submission calls of a session.  In every session reached from
    mounting, in both copies, every call goes to [/quiz/submit] with the
    quiz id of the route; the call at position [k] (counting from 0)
    carries as many records as the quiz has questions plus [k]; and every
    call after the first carries the records of the call before it followed
    by one more record for the last question.  So no call ever carries
    fewer records than there are questions, and only the first carries
    exactly one per question. *)
Theorem X8_submission_calls_grow `{Runtime} qid storage t0 t1 now es qs :
  let c := Current.run es (Current.mount qid storage t0 t1 now) in
  let l := Legacy.run es (Legacy.mount qid storage t0 t1 now) in
  (Current.quiz (component c) ≫= questions = Some qs ->
   requestChain qs qid (requests c))
  /\ (Legacy.quiz (component l) ≫= questions = Some qs ->
      requestChain qs qid (requests l)).
Proof.
  cbn zeta. split; intros Hqs.
  - rewrite current_run_quiz in Hqs.
    destruct (current_mount_fresh qid storage t0 t1 now)
      as (_ & _ & Hreq & _ & _ & Hid & _).
    destruct (current_mount_cases qid storage t0 t1 now)
      as [(Hq & _)|(qs' & _ & Hinv & _)].
    + by rewrite Hq in Hqs.
    + assert (qs' = qs) as ->.
      { destruct Hinv as (Hqs' & _). congruence. }
      rewrite <- Hid at 1. rewrite <- (current_run_quizId es).
      apply current_run_chain; [done|].
      rewrite Hreq. intros k r Hk. done.
  - rewrite legacy_run_quiz in Hqs.
    destruct (legacy_mount_fresh qid storage t0 t1 now)
      as (_ & _ & Hreq & _ & _ & Hid).
    destruct (decide (qs = [])) as [->|Hne].
    + rewrite legacy_run_no_card.
      * rewrite Hreq. intros k r Hk. done.
      * by destruct (legacy_mount_fresh qid storage t0 t1 now) as (_ & _ & _ & ? & _).
      * intros cq Hr. apply legacy_render_card in Hr as (qs' & Hqs' & Hcq & _).
        rewrite Hqs in Hqs'. injection Hqs' as <-. done.
    + destruct (legacy_mount_inv qid storage t0 t1 now qs Hqs Hne) as (Hinv & _).
      rewrite (legacy_run_remember es). simpl.
      rewrite <- Hid at 1.
      change (quizId (Legacy.mount qid storage t0 t1 now))
        with (quizId (rememberW (Legacy.mount qid storage t0 t1 now))).
      rewrite <- (current_run_quizId es).
      apply current_run_chain; [by apply remember_inv|].
      simpl. rewrite Hreq. intros k r Hk. done.
Qed.

Lemma X8_submission_calls_grow_witness :
  requestChain [Q2] "7"
    (requests (Current.run (H := sampleRuntime) (failedOnce ++ answeredAgain)
                           sampleSession)).
Proof.
  pose proof (@X8_submission_calls_grow sampleRuntime "7" (stored "one") 0 0 100
                (failedOnce ++ answeredAgain) [Q2]) as Hx.
  cbn zeta in Hx. destruct Hx as [Hx _].
  apply Hx. reflexivity.
Defined.

(** ** What the page leaves alone *)

Section Frame.
Context `{Runtime}.

(** One event: no handler throws; the storage and the route change only
    when a request is fulfilled, and then the route can only become the
    results page of the response; the only notices are the two of the
    page. *)
Lemma pageNotices_none (l : list string) :
  exists ts, l = l ++ ts /\ Forall (.∈ pageNotices) ts.
Proof. exists []. by rewrite app_nil_r. Qed.

Lemma pageNotices_one (l : list string) msg :
  msg ∈ pageNotices ->
  exists ts, l ++ [msg] = l ++ ts /\ Forall (.∈ pageNotices) ts.
Proof. intros Hin. exists [msg]. split; [done|]. by apply Forall_singleton. Qed.

Lemma current_step_frame e (w : World Current.State) :
  uncaught (Current.step e w) = uncaught w
  /\ ((sessionStorage (Current.step e w) = sessionStorage w
       /\ location (Current.step e w) = location w)
      \/ exists data, e = Settle (Fulfilled data) /\ location w = None
           /\ (location (Current.step e w) = None
               \/ exists i, result_id data = Some i
                    /\ location (Current.step e w) = Some ("/results/" +:+ i)))
  /\ exists ts, toasts (Current.step e w) = toasts w ++ ts
                /\ Forall (.∈ pageNotices) ts.
Proof.
  destruct (current_step_shape e w)
    as [ | text | b | Hloc Hne | now now' qs' cq He Hloc Hsub Hne Hqs' Hcq Hlt
       | now now' qs' cq He Hloc Hsub Hne Hqs' Hcq Hge | r He Hloc Hsub ];
    simpl; try (split; [done|]; split; [by left|]; apply pageNotices_none).
  - split; [done|]. split; [by left|].
    apply pageNotices_one. apply list_elem_of_here.
  - unfold Current.submitQuiz_settled.
    destruct r as [data|]; [destruct (result_id data) as [i|] eqn:Hi|]; simpl.
    + split; [done|]. split.
      { right. exists data. split; [done|]. split; [done|]. right. by exists i. }
      apply pageNotices_none.
    + split; [done|]. split.
      { right. exists data. split; [done|]. split; [done|]. by left. }
      apply pageNotices_one. apply list_elem_of_further, list_elem_of_here.
    + split; [done|]. split; [by left|].
      apply pageNotices_one. apply list_elem_of_further, list_elem_of_here.
Qed.

Lemma current_run_frame es : forall w : World Current.State,
  let c := Current.run es w in
  uncaught c = uncaught w
  /\ (noneFulfilled es ->
      sessionStorage c = sessionStorage w /\ location c = location w)
  /\ (location c = location w
      \/ exists data i, Settle (Fulfilled data) ∈ es
           /\ result_id data = Some i
           /\ location w = None
           /\ location c = Some ("/results/" +:+ i))
  /\ exists ts, toasts c = toasts w ++ ts /\ Forall (.∈ pageNotices) ts.
Proof.
  unfold Current.run. induction es as [|e es IH]; intros w; simpl.
  { split; [done|]. split; [done|]. split; [by left|].
    apply pageNotices_none. }
  destruct (IH (Current.step e w)) as (Hu & Hn & Hl & ts & Ht & Hts).
  destruct (current_step_frame e w) as (Hu' & Hf & ts' & Ht' & Hts').
  simpl in *.
  split; [congruence|]. split; [|split].
  - intros Hnone.
    destruct Hf as [[Hs Hloc]|(data & -> & _)].
    + destruct Hn as [Hs' Hloc'].
      { intros data Hin. apply (Hnone data). by apply list_elem_of_further. }
      split; congruence.
    + destruct (Hnone data). apply list_elem_of_here.
  - destruct Hf as [[_ Hloc]|(data & -> & Hnone & [Hloc|(i & Hi & Hloc)])].
    + destruct Hl as [Hl|(data & i & Hin & Hi & Hnone & Hl)].
      * left. congruence.
      * right. exists data, i. rewrite <- Hloc.
        repeat split; try done. by apply list_elem_of_further.
    + destruct Hl as [Hl|(data' & i & Hin & Hi & _ & Hl)].
      * left. congruence.
      * right. exists data', i.
        repeat split; try done. by apply list_elem_of_further.
    + right. exists data, i.
      split; [apply list_elem_of_here|]. split; [done|]. split; [done|].
      fold (Current.run es (Current.step (Settle (Fulfilled data)) w)).
      by rewrite (current_run_unmounted es _ _ Hloc).
  - exists (ts' ++ ts). split.
    + by rewrite Ht, Ht', app_assoc.
    + by apply Forall_app.
Qed.
End Frame.

(** X9: what the question page leaves alone.  Along every run of events
    from mounting, in both copies: no event handler throws; as long as no
    request was fulfilled, the session storage is the one the page was
    opened with and the route is the one mounting left; the route only
    ever changes to the results page [/results/<id>] of a fulfilled
    response whose body has an id; and every notice added after mounting
    is one of "Please provide an answer" and "Failed to submit quiz". *)
Theorem X9_storage_and_route `{Runtime} qid storage t0 t1 now es :
  let c0 := Current.mount qid storage t0 t1 now in
  let c := Current.run es c0 in
  let l0 := Legacy.mount qid storage t0 t1 now in
  let l := Legacy.run es l0 in
  (uncaught c = []
   /\ (noneFulfilled es ->
       sessionStorage c = storage /\ location c = location c0)
   /\ (location c = location c0
       \/ exists data i, Settle (Fulfilled data) ∈ es
            /\ result_id data = Some i
            /\ location c = Some ("/results/" +:+ i))
   /\ exists ts, toasts c = toasts c0 ++ ts /\ Forall (.∈ pageNotices) ts)
  /\ (uncaught l = uncaught l0
      /\ (noneFulfilled es ->
          sessionStorage l = storage /\ location l = location l0)
      /\ (location l = location l0
          \/ exists data i, Settle (Fulfilled data) ∈ es
               /\ result_id data = Some i
               /\ location l = Some ("/results/" +:+ i))
      /\ exists ts, toasts l = toasts l0 ++ ts /\ Forall (.∈ pageNotices) ts).
Proof.
  cbn zeta. split.
  - destruct (current_run_frame es (Current.mount qid storage t0 t1 now))
      as (Hu & Hn & Hl & Ht).
    destruct (current_mount_fresh qid storage t0 t1 now)
      as (_ & _ & _ & _ & Hs & _ & Hunc).
    cbn zeta in *. rewrite Hs, Hunc in *.
    split; [done|]. split; [done|]. split; [|done].
    destruct Hl as [Hl|(data & i & ? & ? & _ & ?)]; [by left|right; eauto].
  - rewrite (legacy_run_remember es).
    destruct (current_run_frame es (rememberW (Legacy.mount qid storage t0 t1 now)))
      as (Hu & Hn & Hl & Ht).
    destruct (legacy_mount_fresh qid storage t0 t1 now)
      as (_ & _ & _ & _ & Hs & _).
    cbn zeta in *. simpl in *. rewrite Hs in *.
    split; [done|]. split; [done|]. split; [|done].
    destruct Hl as [Hl|(data & i & ? & ? & _ & ?)]; [by left|right; eauto].
Qed.

Lemma X9_storage_and_route_witness :
  let c := Current.run (H := sampleRuntime) failedOnce sampleSession in
  sessionStorage c = stored "one" /\ location c = None.
Proof.
  pose proof (@X9_storage_and_route sampleRuntime "7" (stored "one") 0 0 100
                failedOnce) as Hx.
  cbn zeta in Hx. destruct Hx as [(_ & Hx & _) _].
  apply Hx. intros data Hin. unfold failedOnce in Hin.
  repeat (apply elem_of_cons in Hin as [Hin|Hin]; [discriminate Hin|]).
  by apply elem_of_nil in Hin.
Defined.

(** ** What mounting leads to *)

(** X10: what mounting leads to.  The load effect never writes to the
    session storage.  The current copy either shows the first question of
    the stored quiz, with no notice and no navigation, and then the legacy
    copy is in the same session; or it has loaded nothing, shows exactly
    one of its three notices and has navigated to [/quiz/select], after
    which no event changes anything.  In that second case the legacy copy
    never shows a question either (it redirects, or stays on the spinner,
    or its render throws), and no event changes anything there. *)
Theorem X10_mount_outcomes `{Runtime} qid storage t0 t1 now :
  let c := Current.mount qid storage t0 t1 now in
  let l := Legacy.mount qid storage t0 t1 now in
  sessionStorage c = storage /\ sessionStorage l = storage
  /\ ((exists q cq qs,
          Current.quiz (component c) = Some q
          /\ questions q = Some (cq :: qs)
          /\ Current.render (component c) = QuestionCard cq
          /\ location c = None /\ toasts c = []
          /\ forgetW c = l)
      \/ (Current.quiz (component c) = None
          /\ location c = Some "/quiz/select"
          /\ (exists msg, toasts c = [msg] /\ msg ∈ loadNotices)
          /\ (forall es, Current.run es c = c)
          /\ (forall cq, Legacy.render (component l) <> QuestionCard cq)
          /\ (forall es, Legacy.run es l = l))).
Proof.
  cbn zeta.
  split; [by destruct (current_mount_fresh qid storage t0 t1 now)
            as (_ & _ & _ & _ & ? & _)|].
  split; [by destruct (legacy_mount_fresh qid storage t0 t1 now)
            as (_ & _ & _ & _ & ? & _)|].
  assert (Hstuck : forall l : World Legacy.State,
             Legacy.submitting (component l) = false ->
             (forall cq, Legacy.render (component l) <> QuestionCard cq) ->
             (forall cq, Legacy.render (component l) <> QuestionCard cq)
             /\ (forall es, Legacy.run es l = l)).
  { intros l Hs Hr. split; [done|]. intros es. by apply legacy_run_no_card. }
  assert (Hgone : forall c : World Current.State,
             location c = Some "/quiz/select" -> forall es, Current.run es c = c).
  { intros c Hloc es. by apply (current_run_unmounted es c _ Hloc). }
  unfold Current.mount, Legacy.mount, Current.loadQuiz, Legacy.loadQuiz, getItem.
  simpl.
  destruct (storage !! "currentQuiz") as [text|].
  2:{ right. split; [done|]. split; [done|].
      split; [eexists; split; [done|apply list_elem_of_here]|].
      split; [by apply Hgone|]. by apply Hstuck. }
  destruct (falsy text).
  { right. split; [done|]. split; [done|].
    split; [eexists; split; [done|apply list_elem_of_here]|].
    split; [by apply Hgone|]. by apply Hstuck. }
  destruct (JSON_parse text) as [| |q].
  - right. split; [done|]. split; [done|].
    split; [eexists; split; [done|apply list_elem_of_further, list_elem_of_here]|].
    split; [by apply Hgone|]. by apply Hstuck.
  - right. split; [done|]. split; [done|].
    split; [eexists; split; [done|apply list_elem_of_further, list_elem_of_here]|].
    split; [by apply Hgone|]. by apply Hstuck.
  - destruct (questions q) as [[|cq qs]|] eqn:Hq; simpl.
    + right. split; [done|]. split; [done|].
      split; [eexists; split; [done|do 2 apply list_elem_of_further; apply list_elem_of_here]|].
      split; [by apply Hgone|]. match goal with
      | |- _ /\ (forall es, Legacy.run es ?l = _) => apply (Hstuck l); [done|]
      end.
      intros cq. unfold Legacy.render. simpl. by rewrite Hq.
    + left. exists q, cq, qs. unfold Current.render. simpl. by rewrite Hq.
    + right. split; [done|]. split; [done|].
      split; [eexists; split; [done|do 2 apply list_elem_of_further; apply list_elem_of_here]|].
      split; [by apply Hgone|]. match goal with
      | |- _ /\ (forall es, Legacy.run es ?l = _) => apply (Hstuck l); [done|]
      end.
      intros cq. unfold Legacy.render. simpl. by rewrite Hq.
Qed.

(** ** A fulfilled request whose body has no id *)

Section NoId.
Context `{Runtime}.

Lemma current_settled_no_id (c : World Current.State) data :
  result_id data = None ->
  Current.status c = Submitting ->
  Current.step (Settle (Fulfilled data)) c
  = setState (Current.setSubmitting false)
      (toast_error "Failed to submit quiz"
         (removeItem "currentQuiz"
            (setItem "quizResult" (JSON_stringify data) c))).
Proof.
  intros Hid Hst. unfold Current.status in Hst. unfold Current.step.
  destruct (location c); [done|].
  destruct (Current.quiz (component c)); [|done].
  destruct (Current.submitting (component c)); [|done].
  unfold Current.submitQuiz_settled. by rewrite Hid.
Qed.

Lemma legacy_settled_no_id (l : World Legacy.State) data :
  result_id data = None ->
  Legacy.status l = Submitting ->
  Legacy.step (Settle (Fulfilled data)) l
  = setState (Legacy.setSubmitting false)
      (toast_error "Failed to submit quiz"
         (removeItem "currentQuiz"
            (setItem "quizResult" (JSON_stringify data) l))).
Proof.
  intros Hid Hst. unfold Legacy.status in Hst. unfold Legacy.step.
  destruct (location l); [done|].
  destruct (Legacy.quiz (component l)); [|done].
  destruct (Legacy.submitting (component l)); [|done].
  unfold Legacy.submitQuiz_settled. by rewrite Hid.
Qed.

Lemma current_mount_no_slot qid (storage : gmap string string) t0 t1 now :
  storage !! "currentQuiz" = None ->
  let m := Current.mount qid storage t0 t1 now in
  Current.status m = Terminated /\ location m = Some "/quiz/select"
  /\ toasts m = ["Quiz not found"].
Proof.
  intros Hs. unfold Current.mount, Current.loadQuiz, getItem. simpl.
  by rewrite Hs.
Qed.

Lemma legacy_mount_no_slot qid (storage : gmap string string) t0 t1 now :
  storage !! "currentQuiz" = None ->
  let m := Legacy.mount qid storage t0 t1 now in
  Legacy.status m = Terminated /\ location m = Some "/quiz/select"
  /\ toasts m = ["Quiz not found"].
Proof.
  intros Hs. unfold Legacy.mount, Legacy.loadQuiz, getItem. simpl.
  by rewrite Hs.
Qed.
End NoId.

(** X11: a fulfilled request whose body has no id ([response.data] is
    [null] or [undefined], so that reading [result.id] throws inside the
    [try]).  In both copies, while the request is pending: the body is
    stored in the "quizResult" slot and the "currentQuiz" slot is removed
    before the exception; the page then reports "Failed to submit quiz",
    does not navigate, and is back on the question it was on, with the
    records and the calls it had.  The quiz is gone from the storage all the same:
    mounting the page again on that storage redirects to [/quiz/select]
    with "Quiz not found". *)
Theorem X11_response_without_id `{Runtime}
    (c : World Current.State) (l : World Legacy.State) data t0 t1 now :
  result_id data = None ->
  let c' := Current.step (Settle (Fulfilled data)) c in
  let l' := Legacy.step (Settle (Fulfilled data)) l in
  (Current.status c = Submitting ->
   sessionStorage c' !! "quizResult" = Some (JSON_stringify data)
   /\ sessionStorage c' !! "currentQuiz" = None
   /\ location c' = None
   /\ toasts c' = toasts c ++ ["Failed to submit quiz"]
   /\ Current.status c' = Answering
   /\ Current.answers (component c') = Current.answers (component c)
   /\ Current.currentIndex (component c') = Current.currentIndex (component c)
   /\ requests c' = requests c
   /\ let m := Current.mount (quizId c') (sessionStorage c') t0 t1 now in
      Current.status m = Terminated /\ location m = Some "/quiz/select"
      /\ toasts m = ["Quiz not found"])
  /\ (Legacy.status l = Submitting ->
      sessionStorage l' !! "quizResult" = Some (JSON_stringify data)
      /\ sessionStorage l' !! "currentQuiz" = None
      /\ location l' = None
      /\ toasts l' = toasts l ++ ["Failed to submit quiz"]
      /\ Legacy.status l' = Answering
      /\ Legacy.answers (component l') = Legacy.answers (component l)
      /\ Legacy.currentIndex (component l') = Legacy.currentIndex (component l)
      /\ requests l' = requests l
      /\ let m := Legacy.mount (quizId l') (sessionStorage l') t0 t1 now in
         Legacy.status m = Terminated /\ location m = Some "/quiz/select"
         /\ toasts m = ["Quiz not found"]).
Proof.
  intros Hid. cbn zeta. split; intros Hst.
  - rewrite (current_settled_no_id c data Hid Hst).
    unfold Current.status in *. simpl.
    destruct (location c); [done|].
    destruct (Current.quiz (component c)); [|done].
    split; [rewrite lookup_delete_ne by done; apply lookup_insert_eq|].
    split; [apply lookup_delete_eq|].
    do 6 (split; [done|]).
    apply current_mount_no_slot, lookup_delete_eq.
  - rewrite (legacy_settled_no_id l data Hid Hst).
    unfold Legacy.status in *. simpl.
    destruct (location l); [done|].
    destruct (Legacy.quiz (component l)); [|done].
    split; [rewrite lookup_delete_ne by done; apply lookup_insert_eq|].
    split; [apply lookup_delete_eq|].
    do 6 (split; [done|]).
    apply legacy_mount_no_slot, lookup_delete_eq.
Qed.

Lemma X11_response_without_id_witness :
  let c := Current.run (H := sampleRuntime) [Change "42"; Submit 1100 1100]
             sampleSession in
  let c' := Current.step (H := sampleRuntime)
              (Settle (Fulfilled (None : @json sampleRuntime))) c in
  sessionStorage c' !! "quizResult" = Some "null"
  /\ sessionStorage c' !! "currentQuiz" = None
  /\ location c' = None
  /\ toasts c' = ["Failed to submit quiz"].
Proof.
  pose proof (@X11_response_without_id sampleRuntime
                (Current.run (H := sampleRuntime)
                   [Change "42"; Submit 1100 1100] sampleSession)
                (Legacy.run (H := sampleRuntime)
                   [Change "42"; Submit 1100 1100] sampleLegacySession)
                (None : @json sampleRuntime) 0 0 5000 eq_refl) as Hx.
  cbn zeta in Hx. destruct Hx as [Hx _].
  destruct (Hx eq_refl) as (H1 & H2 & H3 & H4 & _).
  split; [exact H1|]. split; [exact H2|]. split; [exact H3|exact H4].
Defined.

(** ** The recorded times and the clock *)

Section TotalTime.
Context `{Runtime}.

Lemma totalTime_snoc l a :
  (totalTime (l ++ [a]) == totalTime l + time_taken a)%Q.
Proof.
  unfold totalTime. induction l as [|b l IH]; simpl.
  - ring.
  - rewrite IH. ring.
Qed.

Lemma millis_le (a b : Z) : (a <= b)%Z -> (a # 1000 <= b # 1000)%Q.
Proof. intros Hab. unfold Qle. simpl. lia. Qed.

Lemma millis_plus (a b : Z) : ((a # 1000) + (b # 1000) == (a + b) # 1000)%Q.
Proof. unfold Qeq, Qplus. simpl. lia. Qed.

Lemma timeBound_later t T T' w : (T <= T')%Z -> timeBound t T w -> timeBound t T' w.
Proof.
  intros HT [Hq Hb]. split; [lia|].
  destruct (requests w); [done|].
  eapply Qle_trans; [exact Hb|]. apply millis_le. lia.
Qed.

Lemma current_step_timeBound t T e (w : World Current.State) :
  monotoneFrom T (readings e) ->
  timeBound t T w ->
  timeBound t (List.last (readings e) T) (Current.step e w).
Proof.
  intros Hmono Hb.
  pose proof (monotoneFrom_last_le _ _ Hmono) as HT.
  destruct (current_step_shape e w)
    as [ | text | b | Hloc Hne | now now' qs' cq He Hloc Hsub Hne Hqs' Hcq Hlt
       | now now' qs' cq He Hloc Hsub Hne Hqs' Hcq Hge | r He Hloc Hsub ];
    try (by apply (timeBound_later t T)).
  - subst e. simpl in *. destruct Hmono as (H1 & H2 & _).
    destruct Hb as [Hq Hb]. split; simpl; [lia|].
    destruct (requests w) as [|first rs].
    + rewrite totalTime_snoc. simpl.
      eapply Qle_trans; [apply Qplus_le_l; exact Hb|].
      rewrite millis_plus. apply millis_le. lia.
    + eapply Qle_trans; [exact Hb|]. apply millis_le. lia.
  - subst e. simpl in *. destruct Hmono as (H1 & H2 & _).
    destruct Hb as [Hq Hb]. split; simpl; [lia|].
    destruct (requests w) as [|first rs]; simpl.
    + rewrite totalTime_snoc. simpl.
      eapply Qle_trans; [apply Qplus_le_l; exact Hb|].
      rewrite millis_plus. apply millis_le. lia.
    + eapply Qle_trans; [exact Hb|]. apply millis_le. lia.
  - apply (timeBound_later t T); [done|].
    destruct Hb as [Hq Hb]. unfold timeBound.
    destruct (current_settled_requests r w) as [-> _].
    by destruct (current_settled_frame r w) as [-> | ->].
Qed.

Lemma current_run_timeBound t es : forall T (w : World Current.State),
  monotoneFrom T (flat_map readings es) ->
  timeBound t T w ->
  timeBound t (List.last (flat_map readings es) T) (Current.run es w).
Proof.
  unfold Current.run. induction es as [|e es IH]; intros T w Hmono Hb; [done|].
  simpl in *. apply monotoneFrom_app in Hmono as [Hme Hrest].
  specialize (IH _ _ Hrest (current_step_timeBound t T e w Hme Hb)).
  replace (List.last (readings e ++ flat_map readings es) T)
    with (List.last (flat_map readings es) (List.last (readings e) T)); [done|].
  clear. destruct e; simpl; try done.
  destruct (flat_map readings es) as [|x l]; [done|].
  by rewrite !(last_cons_default x l _ T).
Qed.
End TotalTime.

(** One millisecond more, as a fraction of a second. *)
Lemma millis_lt_succ (a b : Z) : (a <= b)%Z -> (a # 1000 < (b + 1) # 1000)%Q.
Proof. intros Hab. unfold Qlt. simpl. lia. Qed.

(** X12: the recorded times and the clock.  A [time_taken] is the quotient
    of a number of milliseconds by 1000, which the code rounds to the
    nearest double, so the bounds are stated with a margin of one
    millisecond, more than the rounding of the quotients can add up to.
    For a quiz loaded at reading [t] by a clock that never runs backwards,
    with [T] the latest reading taken: as long as no submission call was
    made, the [time_taken] of the records held add up to less than one
    millisecond more than the time between the load and the moment the
    question on screen became current, so to less than
    [(T - t + 1) / 1000] seconds; and the records of the first submission
    call add up to less than [(T - t + 1) / 1000] seconds.  The same holds
    in the legacy copy. *)
Theorem X12_recorded_time_bounded `{Runtime} qid storage t0 t1 t es :
  let c0 := Current.mount qid storage t0 t1 t in
  let c := Current.run es c0 in
  let l := Legacy.run es (Legacy.mount qid storage t0 t1 t) in
  let T := List.last (flat_map readings es) t in
  Current.status c0 = Answering ->
  monotoneFrom t (flat_map readings es) ->
  (Current.questionStartTime (component c) <= T)%Z
  /\ (requests c = [] ->
      (totalTime (Current.answers (component c))
       < (Current.questionStartTime (component c) - t + 1) # 1000)%Q
      /\ (totalTime (Legacy.answers (component l))
          < (Legacy.questionStartTime (component l) - t + 1) # 1000)%Q)
  /\ (forall first rs, requests c = first :: rs ->
        (totalTime (sent_answers first) < (T - t + 1) # 1000)%Q
        /\ requests l = first :: rs).
Proof.
  cbn zeta. intros Hst Hmono.
  pose proof (forget_mount qid storage t0 t1 t Hst) as H0.
  pose proof (forget_run es (Current.mount qid storage t0 t1 t)) as Hrun.
  rewrite H0 in Hrun. rewrite <- Hrun. simpl.
  destruct (current_mount_cases qid storage t0 t1 t)
    as [(_ & Hloc & _)|(qs & _ & _ & Hreq & _ & Hq & Hans)].
  { unfold Current.status in Hst. by rewrite Hloc in Hst. }
  destruct (current_run_timeBound t es t (Current.mount qid storage t0 t1 t) Hmono)
    as [HT Hb].
  { split; [lia|]. rewrite Hreq, Hans, Hq. unfold Qle. simpl. lia. }
  split; [done|]. split.
  - intros Hnone. rewrite Hnone in Hb.
    assert (Hlt : (totalTime (Current.answers
                     (component (Current.run es (Current.mount qid storage t0 t1 t))))
                   < (Current.questionStartTime
                        (component (Current.run es (Current.mount qid storage t0 t1 t)))
                      - t + 1) # 1000)%Q).
    { eapply Qle_lt_trans; [exact Hb|]. by apply millis_lt_succ. }
    by split.
  - intros first rs Hsome. rewrite Hsome in Hb.
    split; [|done].
    eapply Qle_lt_trans; [exact Hb|]. by apply millis_lt_succ.
Qed.

Lemma X12_recorded_time_bounded_witness :
  let c := Current.run (H := sampleRuntime)
             [ClickOption 1; Submit 1100 1200; Change "42"; Submit 2100 2200]
             twoQuestionSession in
  (Current.questionStartTime (component c) <= 2200)%Z
  /\ match requests c with
     | first :: _ => (totalTime (sent_answers first) < (2200 - 100 + 1) # 1000)%Q
     | [] => True
     end.
Proof.
  pose proof (@X12_recorded_time_bounded sampleRuntime "7" (stored "two") 0 0 100
                [ClickOption 1; Submit 1100 1200; Change "42"; Submit 2100 2200]
                eq_refl) as Hx.
  cbn zeta in Hx.
  assert (Hm : monotoneFrom 100
                 (flat_map (readings (H := sampleRuntime))
                    [ClickOption 1; Submit 1100 1200; Change "42"; Submit 2100 2200])).
  { simpl. lia. }
  destruct (Hx Hm) as (Hx1 & _ & Hx3).
  split; [exact Hx1|].
  destruct (requests _) as [|first rs] eqn:E; [exact I|].
  exact (proj1 (Hx3 first rs eq_refl)).
Defined.

(** ** The quiz selection page *)

Section Selection.
Context `{Runtime}.
Import QuizSelection.

Lemma parseInt_options :
  parseInt <$> countOptions = [Some 3%Z; Some 5%Z; Some 10%Z; Some 15%Z].
Proof. reflexivity. Qed.

Lemma selection_settled_frame r (p : Page) :
  let p' := handleGenerate_settled r p in
  formData (state p') = formData (state p) /\ posted p' = posted p
  /\ pending p' = pending p /\ loading (state p') = false
  /\ (forall k, k <> "currentQuiz" -> storage p' !! k = storage p !! k)
  /\ ((storage p' = storage p /\ route p' = route p)
      \/ exists quiz, r = Generated quiz
           /\ storage p' = <["currentQuiz" := JSON_stringify quiz]> (storage p)
           /\ (route p' = route p
               \/ exists i, result_id quiz = Some i
                    /\ route p' = Some ("/quiz/" +:+ i))).
Proof.
  unfold handleGenerate_settled.
  destruct r as [quiz|detail]; [destruct (result_id quiz) as [i|] eqn:Hi|]; simpl.
  - do 4 (split; [done|]).
    split; [intros k Hk; by rewrite lookup_insert_ne|].
    right. exists quiz. split; [done|]. split; [done|]. right. by exists i.
  - do 4 (split; [done|]).
    split; [intros k Hk; by rewrite lookup_insert_ne|].
    right. exists quiz. split; [done|]. split; [done|]. by left.
  - do 5 (split; [done|]). by left.
Qed.

(** One event of the selection page: the selected values stay among the
    options; a body is posted only by an accepted submission; only the
    "currentQuiz" slot can be written, and only by a response; the route
    changes only by the back button or by a response with an id. *)
Lemma selection_step_frame e (p : Page) :
  let p' := step e p in
  (selectedFromOptions (formData (state p)) ->
   selectedFromOptions (formData (state p')))
  /\ (posted p' = posted p
      \/ posted p' = posted p ++ [formData (state p)]
         /\ falsy (subject (formData (state p))) = false
         /\ falsy (topic (formData (state p))) = false
         /\ formData (state p') = formData (state p))
  /\ (forall k, k <> "currentQuiz" -> storage p' !! k = storage p !! k)
  /\ ((storage p' = storage p /\ route p' = route p)
      \/ (e = Back /\ storage p' = storage p /\ route p' = Some "/dashboard")
      \/ exists quiz, e = Settle (Generated quiz)
           /\ (route p' = route p
               \/ exists i, result_id quiz = Some i
                    /\ route p' = Some ("/quiz/" +:+ i))).
Proof.
  unfold step.
  destruct e as [|v|v|v|idx|idx| |r].
  1-7: cbn zeta; destruct (route p) eqn:Hroute;
    [split; [done|]; split; [by left|]; split; [done|]; by left|].
  - simpl. split; [done|]. split; [by left|]. split; [done|].
    right. by left.
  - simpl. split; [done|]. split; [by left|]. split; [done|]. by left.
  - simpl. split; [done|]. split; [by left|]. split; [done|]. by left.
  - simpl. split; [done|]. split; [by left|]. split; [done|]. by left.
  - destruct (difficultyOptions !! idx) as [v|] eqn:Hv; simpl;
      (split; [|split; [by left|split; [done|by left]]]); [|done].
    intros [_ Hn]. split; [|done]. simpl. by apply list_elem_of_lookup_2 in Hv.
  - destruct (countOptions !! idx) as [v|] eqn:Hv; simpl;
      (split; [|split; [by left|split; [done|by left]]]); [|done].
    intros [Hd _]. split; [done|]. simpl.
    apply (list_lookup_fmap_Some_2 parseInt) in Hv.
    rewrite parseInt_options in Hv. by apply list_elem_of_lookup_2 in Hv.
  - unfold handleGenerate.
    destruct (falsy (subject (formData (state p)))) eqn:Hs; simpl.
    { split; [done|]. split; [by left|]. split; [done|]. by left. }
    destruct (falsy (topic (formData (state p)))) eqn:Ht; simpl.
    { split; [done|]. split; [by left|]. split; [done|]. by left. }
    split; [done|]. split; [by right|]. split; [done|]. by left.
  - destruct (pending p) as [|n] eqn:Hp.
    { split; [done|]. split; [by left|]. split; [done|]. by left. }
    destruct (selection_settled_frame r (settle p))
      as (Hfd & Hpo & _ & _ & Hk & Hsr). cbn zeta in *. simpl in *.
    rewrite Hfd, Hpo.
    split; [done|]. split; [by left|]. split; [done|].
    destruct Hsr as [Hsr|(quiz & -> & _ & Hr)]; [by left|].
    right. right. by exists quiz.
Qed.

Lemma selectionRoute_further e es route :
  selectionRoute es route -> selectionRoute (e :: es) route.
Proof.
  intros [->|[[Hb ->]|(quiz & i & Hin & Hi & ->)]].
  - by left.
  - right. left. split; [by apply list_elem_of_further|done].
  - right. right. exists quiz, i. split; [by apply list_elem_of_further|done].
Qed.

Lemma selection_run_frame es : forall p : Page,
  let p' := run es p in
  (selectedFromOptions (formData (state p)) -> Forall wellFormed (posted p) ->
   selectedFromOptions (formData (state p')) /\ Forall wellFormed (posted p'))
  /\ (forall k, k <> "currentQuiz" -> storage p' !! k = storage p !! k)
  /\ (noneGenerated es -> storage p' = storage p)
  /\ (noneGenerated es -> Back ∉ es -> route p' = route p)
  /\ (route p' = route p \/ selectionRoute es (route p')).
Proof.
  unfold run. induction es as [|e es IH]; intros p; simpl.
  { split; [done|]. split; [done|]. split; [done|]. split; [done|]. by left. }
  destruct (IH (step e p)) as (Hwf & Hk & Hn & Hnb & Hr).
  destruct (selection_step_frame e p) as (Hsel & Hpo & Hk' & Hsr).
  cbn zeta in *.
  split; [|split; [|split; [|split]]].
  - intros Hs Hall. apply Hwf; [by apply Hsel|].
    destruct Hpo as [->|(-> & Hsu & Hto & _)]; [done|].
    apply Forall_app. split; [done|]. apply Forall_singleton.
    destruct Hs. by repeat split.
  - intros k Hne. by rewrite Hk, Hk'.
  - intros Hnone. rewrite Hn.
    + destruct Hsr as [[Hs _]|[(_ & Hs & _)|(quiz & -> & _)]]; [done|done|].
      destruct (Hnone quiz). apply list_elem_of_here.
    + intros quiz Hin. apply (Hnone quiz). by apply list_elem_of_further.
  - intros Hnone Hnb'. rewrite Hnb.
    + destruct Hsr as [[_ Hro]|[(-> & _)|(quiz & -> & _)]]; [done| |].
      * destruct Hnb'. apply list_elem_of_here.
      * destruct (Hnone quiz). apply list_elem_of_here.
    + intros quiz Hin. apply (Hnone quiz). by apply list_elem_of_further.
    + intros Hin. apply Hnb'. by apply list_elem_of_further.
  - destruct Hr as [Hr|Hr]; [|right; by apply selectionRoute_further].
    rewrite Hr.
    destruct Hsr as [[_ Hro]|[(-> & _ & Hro)|(quiz & -> & [Hro|(i & Hi & Hro)])]].
    + by left.
    + right. right. left. split; [apply list_elem_of_here|done].
    + by left.
    + right. right. right. exists quiz, i.
      split; [apply list_elem_of_here|done].
Qed.
End Selection.

(** X13: what the quiz selection page can do.  Along every run of events
    from a fresh page (typing, selecting, submitting, the back button,
    responses): every body posted to [/quiz/generate] has a subject and a
    topic that are not empty, a difficulty among "easy", "medium" and
    "hard", and a number of questions among 3, 5, 10 and 15; no slot of
    the session storage other than "currentQuiz" is ever written, and as
    long as no request got a response the storage is untouched; the page
    stays where it is as long as the back button was not used and no
    request got a response; and it only ever navigates to [/dashboard], by
    the back button, or to [/quiz/<id>] for the [id] of a response
    body. *)
Theorem X13_selection_requests `{Runtime} storage es :
  let p := QuizSelection.run es (QuizSelection.initialPage storage) in
  Forall wellFormed (QuizSelection.posted p)
  /\ (forall k, k <> "currentQuiz" -> QuizSelection.storage p !! k = storage !! k)
  /\ (noneGenerated es -> QuizSelection.storage p = storage)
  /\ (noneGenerated es -> QuizSelection.Back ∉ es -> QuizSelection.route p = None)
  /\ selectionRoute es (QuizSelection.route p).
Proof.
  cbn zeta.
  destruct (selection_run_frame es (QuizSelection.initialPage storage))
    as (Hwf & Hk & Hn & Hnb & Hr). cbn zeta in *. simpl in *.
  split; [|split; [done|split; [done|split; [done|]]]].
  - apply Hwf; [|constructor].
    split; simpl.
    + apply list_elem_of_further, list_elem_of_here.
    + apply list_elem_of_further, list_elem_of_here.
  - destruct Hr as [Hr|Hr]; [|done]. by left.
Qed.

(** ** From the selection page to the question page *)

Section HandOff.
Context `{Runtime}.

Lemma selection_generated (p : QuizSelection.Page) quiz i :
  0 < QuizSelection.pending p ->
  result_id quiz = Some i ->
  QuizSelection.step (QuizSelection.Settle (QuizSelection.Generated quiz)) p
  = QuizSelection.setLoading false
      (QuizSelection.navigate ("/quiz/" +:+ i)
         (QuizSelection.toast (QuizSelection.Success "Quiz generated successfully!")
            (QuizSelection.setItem "currentQuiz" (JSON_stringify quiz)
               (QuizSelection.settle p)))).
Proof.
  intros Hp Hi. unfold QuizSelection.step.
  destruct (QuizSelection.pending p); [lia|].
  unfold QuizSelection.handleGenerate_settled. by rewrite Hi.
Qed.

Lemma requestChain_quiz_id qs qid rs :
  requestChain qs qid rs -> Forall (fun r => quiz_id r = qid) rs.
Proof.
  intros Hch. apply Forall_lookup. intros k r Hk.
  by destruct (Hch k r Hk) as (_ & ? & _).
Qed.
End HandOff.

(** X14: from the selection page to the question page.  When a pending
    generation request is fulfilled with a body that has an [id], that
    [JSON.stringify] turns into a non-empty text and that [JSON.parse]
    reads back as a quiz with at least one question, the selection page
    stores the text in the "currentQuiz" slot whatever the slot held,
    shows the success notice and navigates to [/quiz/<id>]; the question
    page mounted for that [id] on that storage, in either copy, then shows
    the first question of the quiz with no notice, and every submission
    call it makes afterwards carries that [id] as [quiz_id]. *)
Theorem X14_generated_quiz_is_loaded `{Runtime}
    (p : QuizSelection.Page) quiz i q cq qs t0 t1 now es :
  0 < QuizSelection.pending p ->
  result_id quiz = Some i ->
  falsy (JSON_stringify quiz) = false ->
  JSON_parse (JSON_stringify quiz) = JObject q ->
  questions q = Some (cq :: qs) ->
  let p' := QuizSelection.step (QuizSelection.Settle (QuizSelection.Generated quiz)) p in
  let c := Current.mount i (QuizSelection.storage p') t0 t1 now in
  let l := Legacy.mount i (QuizSelection.storage p') t0 t1 now in
  QuizSelection.route p' = Some ("/quiz/" +:+ i)
  /\ QuizSelection.storage p' !! "currentQuiz" = Some (JSON_stringify quiz)
  /\ QuizSelection.notices p'
     = QuizSelection.notices p
       ++ [QuizSelection.Success "Quiz generated successfully!"]
  /\ Current.quiz (component c) = Some q
  /\ Current.render (component c) = QuestionCard cq
  /\ toasts c = [] /\ location c = None
  /\ forgetW c = l
  /\ Forall (fun r => quiz_id r = i) (requests (Current.run es c))
  /\ Forall (fun r => quiz_id r = i) (requests (Legacy.run es l)).
Proof.
  intros Hp Hi Hf Hparse Hq. cbn zeta.
  rewrite (selection_generated p quiz i Hp Hi). simpl.
  assert (Hs : <["currentQuiz" := JSON_stringify quiz]> (QuizSelection.storage p)
               !! "currentQuiz" = Some (JSON_stringify quiz))
    by apply lookup_insert_eq.
  pose proof (current_mount_loaded i _ t0 t1 now _ q cq qs Hs Hf Hparse Hq) as Hc.
  pose proof (legacy_mount_loaded i _ t0 t1 now _ q Hs Hf Hparse) as Hl.
  split; [done|]. split; [done|]. split; [done|].
  rewrite Hc, Hl. simpl.
  split; [done|].
  split; [unfold Current.render; simpl; by rewrite Hq|].
  split; [done|]. split; [done|]. split; [done|].
  assert (Hch : Forall (fun r => quiz_id r = i)
                  (requests (Current.run es
                     (mkWorld (Current.mkState (Some q) 0 [] EmptyString t0 now false false)
                        i (<["currentQuiz" := JSON_stringify quiz]> (QuizSelection.storage p))
                        None [] [] [])))).
  { apply (requestChain_quiz_id (cq :: qs)).
    match goal with |- requestChain _ _ (requests (Current.run es ?w)) =>
      change i with (quizId w) at 1; rewrite <- (current_run_quizId es w);
      apply current_run_chain
    end.
    - unfold currentInv. simpl. rewrite Hq. repeat split; simpl; lia.
    - intros k r Hk. done. }
  split; [done|].
  match goal with |- Forall _ (requests (Legacy.run es ?w)) =>
    rewrite (legacy_run_remember es w)
  end.
  exact Hch.
Qed.

Lemma X14_generated_quiz_is_loaded_witness :
  let p := QuizSelection.run (H := textRuntime) filledAndSubmitted
             (QuizSelection.initialPage ∅) in
  let p' := QuizSelection.step (H := textRuntime)
              (QuizSelection.Settle (QuizSelection.Generated ("two" : @json textRuntime)))
              p in
  let c := Current.mount (H := textRuntime) "quiz-2" (QuizSelection.storage p') 0 0 100 in
  QuizSelection.route p' = Some "/quiz/quiz-2"
  /\ QuizSelection.storage p' !! "currentQuiz" = Some "two"
  /\ Current.render (component c) = QuestionCard Q1.
Proof.
  pose proof (@X14_generated_quiz_is_loaded textRuntime
                (QuizSelection.run (H := textRuntime) filledAndSubmitted
                   (QuizSelection.initialPage ∅))
                ("two" : @json textRuntime) "quiz-2" twoQuestions Q1 [Q2] 0 0 100 [])
    as Hx.
  cbn zeta in Hx.
  destruct Hx as (H1 & H2 & _ & _ & H5 & _);
    [vm_compute; lia|reflexivity|reflexivity|reflexivity|reflexivity|].
  split; [exact H1|]. split; [exact H2|exact H5].
Defined.

(** X15: a generation request that fails.  When a pending request is
    rejected, the selection page shows the [detail] of the error response
    if there is one and it is not empty, and "Failed to generate quiz"
    otherwise; the storage and the route are untouched.  When the request
    is fulfilled with a body without [id] ([null], so that reading
    [quiz.id] throws), the body is stored in the "currentQuiz" slot and
    the success notice is shown before the exception, then the failure
    notice; the page does not navigate.  If that stored text parses to
    [null], the current copy of the question page opened on that storage
    redirects with "Failed to load quiz", and the legacy copy stays on the
    spinner.  In all cases [loading] ends false. *)
Theorem X15_generation_failures `{Runtime} (p : QuizSelection.Page) :
  0 < QuizSelection.pending p ->
  (forall detail,
     let p' := QuizSelection.step (QuizSelection.Settle (QuizSelection.Failed detail)) p in
     QuizSelection.storage p' = QuizSelection.storage p
     /\ QuizSelection.route p' = QuizSelection.route p
     /\ QuizSelection.loading (QuizSelection.state p') = false
     /\ (forall d, detail = Some d -> falsy d = false ->
         QuizSelection.notices p'
         = QuizSelection.notices p ++ [QuizSelection.Error d])
     /\ (detail = None \/ detail = Some EmptyString ->
         QuizSelection.notices p'
         = QuizSelection.notices p
           ++ [QuizSelection.Error "Failed to generate quiz"]))
  /\ (forall quiz,
        result_id quiz = None ->
        let p' := QuizSelection.step
                    (QuizSelection.Settle (QuizSelection.Generated quiz)) p in
        QuizSelection.storage p'
        = <["currentQuiz" := JSON_stringify quiz]> (QuizSelection.storage p)
        /\ QuizSelection.route p' = QuizSelection.route p
        /\ QuizSelection.loading (QuizSelection.state p') = false
        /\ QuizSelection.notices p'
           = QuizSelection.notices p
             ++ [QuizSelection.Success "Quiz generated successfully!";
                 QuizSelection.Error "Failed to generate quiz"]
        /\ (falsy (JSON_stringify quiz) = false ->
            JSON_parse (JSON_stringify quiz) = JNull ->
            forall qid t0 t1 now,
              let c := Current.mount qid (QuizSelection.storage p') t0 t1 now in
              let l := Legacy.mount qid (QuizSelection.storage p') t0 t1 now in
              location c = Some "/quiz/select"
              /\ toasts c = ["Failed to load quiz"]
              /\ location l = None /\ toasts l = []
              /\ Legacy.render (component l) = LoadingState)).
Proof.
  intros Hp. unfold QuizSelection.step.
  destruct (QuizSelection.pending p) as [|n]; [lia|]. split.
  - intros detail. cbn zeta. unfold QuizSelection.handleGenerate_settled. simpl.
    do 3 (split; [done|]). split.
    + intros d -> Hd. simpl. by rewrite Hd.
    + by intros [-> | ->].
  - intros quiz Hi. cbn zeta. unfold QuizSelection.handleGenerate_settled.
    rewrite Hi. simpl.
    do 3 (split; [done|]).
    split; [by rewrite <- app_assoc|].
    intros Hf Hparse qid t0 t1 now.
    unfold Current.mount, Legacy.mount, Current.loadQuiz, Legacy.loadQuiz, getItem.
    simpl. rewrite lookup_insert_eq, Hf, Hparse. done.
Qed.

Lemma X15_generation_failures_witness :
  let p := QuizSelection.run (H := sampleRuntime) filledAndSubmitted
             (QuizSelection.initialPage ∅) in
  let p' := QuizSelection.step (H := sampleRuntime)
              (QuizSelection.Settle
                 (QuizSelection.Generated (None : @json sampleRuntime))) p in
  QuizSelection.storage p' = {[ "currentQuiz" := "null" ]}
  /\ QuizSelection.route p' = None
  /\ QuizSelection.notices p'
     = [QuizSelection.Success "Quiz generated successfully!";
        QuizSelection.Error "Failed to generate quiz"].
Proof.
  pose proof (@X15_generation_failures sampleRuntime
                (QuizSelection.run (H := sampleRuntime) filledAndSubmitted
                   (QuizSelection.initialPage ∅))) as Hx.
  destruct Hx as [_ Hx]; [vm_compute; lia|].
  destruct (Hx (None : @json sampleRuntime) eq_refl) as (H1 & H2 & _ & H4 & _).
  split; [exact H1|]. split; [exact H2|exact H4].
Defined.

(** ** The results page *)

Section ResultsPage.
Context `{ResultRuntime}.

(** The celebration effect on a page that has not celebrated yet. *)
Lemma results_celebration_fresh storage0 (p : Results.Page) :
  (Results.route p = None -> Results.storage p = storage0) ->
  Results.result (Results.state p) = None
  \/ Results.result (Results.state p) = storedResult storage0 ->
  Results.soundPlayed (Results.state p) = false ->
  Results.played p = [] -> Results.timer p = None ->
  resultsInv storage0 (Results.rerender p).
Proof.
  intros Hs Hr Hsp Hpl Hti. unfold Results.rerender.
  destruct (Results.render (Results.state p)) as [|r|] eqn:Hren.
  - (* the spinner: the effect finds no result *)
    assert (Hc : Results.celebration p = p).
    { unfold Results.celebration. unfold Results.render in Hren.
      destruct (Results.result (Results.state p)) as [r|]; [|done].
      destruct (json_falsy r); [done|].
      by destruct (numbersPresent r && card_renders r). }
    rewrite Hc. split; [done|]. split; [done|]. left.
    rewrite Hren. by repeat split.
  - (* the card: the timer starts *)
    assert (Hres : Results.result (Results.state p) = Some r
                   /\ json_falsy r = false).
    { unfold Results.render in Hren.
      destruct (Results.result (Results.state p)) as [r'|]; [|done].
      destruct (json_falsy r') eqn:Hf'; [done|].
      destruct (numbersPresent r' && card_renders r'); [|done].
      injection Hren as ->. by split. }
    destruct Hres as [Hres Hf].
    unfold Results.celebration. rewrite Hres, Hf, Hsp. simpl.
    split; [done|]. split; [exact Hr|]. right.
    split; [done|]. exists r. split; [exact Hren|].
    left. by split.
  - (* the render throws: no effect runs *)
    split; [done|]. split; [done|]. left. simpl.
    rewrite Hren. by repeat split.
Qed.

(** A render of a page that has celebrated changes nothing. *)
Lemma results_rerender_done (p : Results.Page) r :
  Results.soundPlayed (Results.state p) = true ->
  Results.render (Results.state p) = Results.ResultCard r ->
  Results.rerender p = p.
Proof.
  intros Hsp Hren. unfold Results.rerender, Results.celebration. rewrite Hren.
  destruct (Results.result (Results.state p)); [|done].
  by rewrite Hsp, andb_false_r.
Qed.

Lemma results_load_inv storage0 (p : Results.Page) :
  Results.route p = None ->
  resultsInv storage0 p ->
  resultsInv storage0 (Results.rerender (Results.loadResult p)).
Proof.
  intros Hroute Hinv.
  pose proof Hinv as (Hs & Hr & Hc).
  pose proof (Hs Hroute) as Hst.
  assert (Hsame : forall q : Results.Page,
             Results.state q = Results.state p ->
             Results.timer q = Results.timer p ->
             Results.played q = Results.played p ->
             (Results.route q = None -> Results.storage q = storage0) ->
             resultsInv storage0 (Results.rerender q)).
  { intros q Hq Hti Hpl Hsq.
    destruct Hc as [(Hsp & Hpl0 & Hti0 & Hno)|(Hsp & r & Hren & Hcase)].
    - apply results_celebration_fresh; rewrite ?Hq; try done; congruence.
    - rewrite (results_rerender_done q r); rewrite ?Hq; try done.
      split; [done|]. rewrite Hq, Hti, Hpl. split; [done|]. right.
      split; [done|]. by exists r. }
  unfold Results.loadResult. rewrite Hst.
  destruct (storage0 !! "quizResult") as [text|] eqn:Hslot;
    [|by apply Hsame].
  destruct (falsy text) eqn:Hf; [by apply Hsame|].
  destruct (parse_result text) as [r|] eqn:Hp.
  2:{ by apply Hsame. }
  assert (Hstored : storedResult storage0 = Some r).
  { unfold storedResult. rewrite Hslot. simpl. by rewrite Hf. }
  destruct Hc as [(Hsp & Hpl0 & Hti0 & Hno)|(Hsp & r' & Hren & Hcase)].
  - apply results_celebration_fresh; simpl; try done.
    right. by rewrite Hstored.
  - (* the result on screen is the stored one already *)
    assert (Hres : Results.result (Results.state p) = Some r).
    { destruct Hr as [Hr|Hr]; [|congruence].
      unfold Results.render in Hren. by rewrite Hr in Hren. }
    assert (Hstate : Results.setResult (Some r) (Results.state p)
                     = Results.state p).
    { unfold Results.setResult. rewrite <- Hres. by destruct (Results.state p). }
    by apply Hsame.
Qed.

Lemma results_step_inv storage0 e (p : Results.Page) :
  resultsInv storage0 p -> resultsInv storage0 (Results.step e p).
Proof.
  intros Hinv. unfold Results.step.
  destruct e as [|index|b|].
  1-3: destruct (Results.route p) eqn:Hroute; [done|];
       destruct (Results.thrown p); [|done].
  - by apply results_load_inv.
  - destruct (Results.render (Results.state p)) eqn:Hren; try done;
      destruct Hinv as (Hs & Hr & Hc); by split.
  - destruct (Results.render (Results.state p)) eqn:Hren; try done;
      destruct Hinv as (Hs & Hr & Hc); by split.
  - unfold Results.timerFires.
    destruct (Results.timer p) as [r|] eqn:Hti; [|done].
    destruct Hinv as (Hs & Hr & [(_ & _ & Hno & _)|(Hsp & r' & Hren & Hcase)]).
    { by rewrite Hti in Hno. }
    destruct Hcase as [[Hr' Hpl]|[Hr' _]]; [|by rewrite Hti in Hr'].
    rewrite Hti in Hr'. injection Hr' as ->.
    split; [done|]. split; [done|]. right. simpl.
    split; [done|]. exists r'. split; [done|]. right. by rewrite Hpl.
Qed.

Lemma results_run_inv storage0 es : forall p : Results.Page,
  resultsInv storage0 p -> resultsInv storage0 (Results.run es p).
Proof.
  unfold Results.run. induction es as [|e es IH]; intros p Hinv; [done|].
  simpl. by apply IH, results_step_inv.
Qed.

Lemma results_mount_inv storage0 :
  resultsInv storage0 (Results.mount storage0).
Proof.
  unfold Results.mount.
  apply results_load_inv; [done|].
  split; [done|]. split; [by left|]. left. by repeat split.
Qed.

(** The celebration, the heading and the colour of the score read the same
    score. *)
Lemma celebrate_heading r :
  Results.heading r = Results.PerfectScore
  <-> Results.PerfectScoreConfetti ∈ Results.celebrate r.
Proof.
  unfold Results.heading, Results.celebrate.
  destruct (score r) as [s|].
  - destruct (Qeq_bool s 100).
    + split; [intros _|done]. apply list_elem_of_further, list_elem_of_here.
    + split; [done|]. destruct (Qle_bool 60 s); intros Hin.
      * apply elem_of_cons in Hin as [Hin|Hin]; [done|].
        by apply list_elem_of_singleton in Hin.
      * by apply list_elem_of_singleton in Hin.
  - split; [done|]. intros Hin. by apply list_elem_of_singleton in Hin.
Qed.

Lemma celebrate_colour r :
  (Results.scoreColor r = "text-destructive"
   <-> Results.celebrate r = [Results.QuizCompleteSound])
  /\ (Results.PerfectScoreConfetti ∈ Results.celebrate r ->
      Results.scoreColor r = "text-success").
Proof.
  unfold Results.scoreColor, Results.celebrate.
  destruct (score r) as [s|].
  2:{ split; [done|]. intros Hin. by apply list_elem_of_singleton in Hin. }
  destruct (Qeq_bool s 100) eqn:H100.
  - apply Qeq_bool_iff in H100.
    assert (H80 : Qle_bool 80 s = true).
    { apply Qle_bool_iff. rewrite H100. unfold Qle. simpl. lia. }
    rewrite H80. done.
  - destruct (Qle_bool 60 s) eqn:H60.
    + destruct (Qle_bool 80 s); (split; [done|]); intros Hin; try done.
      apply elem_of_cons in Hin as [Hin|Hin]; [done|].
      by apply list_elem_of_singleton in Hin.
    + assert (H80 : Qle_bool 80 s = false).
      { destruct (Qle_bool 80 s) eqn:H80; [|done].
        apply Qle_bool_iff in H80.
        assert (Hle : (60 <= s)%Q).
        { eapply Qle_trans; [|exact H80]. unfold Qle. simpl. lia. }
        apply Qle_bool_iff in Hle. congruence. }
      rewrite H80. split; [done|]. intros Hin.
      by apply list_elem_of_singleton in Hin.
Qed.

(** The timer plays the celebration it holds. *)
Lemma results_fire (p : Results.Page) r :
  (Results.timer p = Some r /\ Results.played p = [])
  \/ (Results.timer p = None /\ Results.played p = Results.celebrate r) ->
  Results.played (Results.step Results.TimerFires p) = Results.celebrate r
  /\ Results.timer (Results.step Results.TimerFires p) = None.
Proof.
  unfold Results.step, Results.timerFires.
  intros [[Ht Hp]|[Ht Hp]]; rewrite Ht; simpl; by rewrite ?Hp.
Qed.

(** A route change plays nothing. *)
Lemma results_routeChange_played (q : Results.Page) :
  Results.played (Results.step Results.RouteChange q) = Results.played q.
Proof.
  unfold Results.step.
  destruct (Results.route q); [done|].
  destruct (Results.thrown q); [|done].
  assert (Hload : Results.played (Results.loadResult q) = Results.played q).
  { unfold Results.loadResult.
    destruct (Results.storage q !! "quizResult") as [text|]; [|done].
    destruct (falsy text); [done|].
    by destruct (parse_result text). }
  rewrite <- Hload. unfold Results.rerender, Results.celebration.
  destruct (Results.render (Results.state (Results.loadResult q))); try done;
    destruct (Results.result (Results.state (Results.loadResult q))) as [r0|];
    try done;
    by destruct (negb (json_falsy r0)
                 && negb (Results.soundPlayed (Results.state (Results.loadResult q)))).
Qed.

Lemma celebrate_one_sound r :
  head (Results.celebrate r) = Some Results.QuizCompleteSound
  /\ (Results.QuizCompleteSound ∉ tail (Results.celebrate r)).
Proof.
  split; [done|]. unfold Results.celebrate. simpl.
  destruct (score r) as [s|]; [|apply not_elem_of_nil].
  destruct (Qeq_bool s 100); [by intros Hin%list_elem_of_singleton|].
  destruct (Qle_bool 60 s); [by intros Hin%list_elem_of_singleton|].
  apply not_elem_of_nil.
Qed.
End ResultsPage.

(** X16: the celebration matches the card.  The celebration is started by
    an effect of the render that shows the card, on a timer of 400 ms, so
    right after mounting nothing has been played.  Along every run of
    events of the results page from mounting: as long as no card is on
    screen (the spinner, or a render that throws because [score],
    [focus_score] or [avg_time] is not a number) no timer is pending and
    nothing has been played; when the card of a result is on screen, the
    celebration of that result is pending on the timer or has been
    played, once, and once the timer has fired it has been played: the
    completion sound exactly once, with the perfect-score confetti exactly
    when the heading reads "Perfect Score!", and with no confetti at all
    exactly when the score is shown in the colour [text-destructive];
    perfect-score confetti only comes with the colour [text-success].
    Loading the result again (a route change) never starts the celebration
    a second time. *)
Theorem X16_celebration_matches_card `{ResultRuntime} storage es :
  let p := Results.run es (Results.mount storage) in
  Results.played (Results.mount storage) = []
  /\ ((forall r, Results.render (Results.state p) <> Results.ResultCard r) ->
      Results.played p = [] /\ Results.timer p = None)
  /\ (forall r, Results.render (Results.state p) = Results.ResultCard r ->
        ((Results.timer p = Some r /\ Results.played p = [])
         \/ (Results.timer p = None /\ Results.played p = Results.celebrate r))
        /\ Results.played (Results.step Results.TimerFires p) = Results.celebrate r
        /\ Results.timer (Results.step Results.TimerFires p) = None
        /\ Results.played (Results.step Results.RouteChange
                             (Results.step Results.TimerFires p))
           = Results.celebrate r
        /\ head (Results.celebrate r) = Some Results.QuizCompleteSound
        /\ (Results.QuizCompleteSound ∉ tail (Results.celebrate r))
        /\ (Results.heading r = Results.PerfectScore
            <-> Results.PerfectScoreConfetti ∈ Results.celebrate r)
        /\ (Results.scoreColor r = "text-destructive"
            <-> Results.celebrate r = [Results.QuizCompleteSound])
        /\ (Results.PerfectScoreConfetti ∈ Results.celebrate r ->
            Results.scoreColor r = "text-success")).
Proof.
  cbn zeta.
  pose proof (results_run_inv storage es _ (results_mount_inv storage)) as Hinv.
  split; [|split].
  - clear Hinv.
    unfold Results.mount, Results.rerender, Results.loadResult,
      Results.celebration, Results.render. simpl.
    destruct (storage !! "quizResult") as [text|]; [|done].
    destruct (falsy text); [done|].
    destruct (parse_result text) as [r'|]; [|done]. simpl.
    destruct (json_falsy r'); [done|].
    by destruct (numbersPresent r' && card_renders r').
  - intros Hno.
    destruct Hinv as (_ & _ & [(_ & Hpl & Hti & _)|(_ & r & Hr & _)]); [done|].
    by destruct (Hno r).
  - intros r Hren.
    destruct Hinv as (Hs & Hr & [(_ & _ & _ & Hno)|(Hsp & r' & Hr' & Hcase)]).
    { by destruct (Hno r). }
    rewrite Hren in Hr'. injection Hr' as <-.
    split; [done|].
    destruct (results_fire _ r Hcase) as [Hpl Hti].
    split; [done|]. split; [done|].
    split; [by rewrite results_routeChange_played|].
    split; [apply celebrate_one_sound|]. split; [apply celebrate_one_sound|].
    split; [apply celebrate_heading|]. apply celebrate_colour.
Qed.

Lemma X16_celebration_matches_card_witness :
  let p := Results.run (H0 := sampleResults)
             [Results.RouteChange; Results.TimerFires; Results.ToggleReview 0;
              Results.RouteChange]
             (Results.mount (H0 := sampleResults) {[ "quizResult" := "{id:r9}" ]}) in
  Results.played p = [Results.QuizCompleteSound; Results.PerfectScoreConfetti]
  /\ Results.scoreColor (H0 := sampleResults) (Some "r9") = "text-success".
Proof.
  pose proof (@X16_celebration_matches_card sampleRuntime sampleResults
                {[ "quizResult" := "{id:r9}" ]}
                [Results.RouteChange; Results.TimerFires; Results.ToggleReview 0;
                 Results.RouteChange])
    as Hx.
  cbn zeta in Hx. destruct Hx as (_ & _ & Hx).
  destruct (Hx (Some "r9") eq_refl) as (H1 & _ & _ & _ & _ & _ & _ & _ & H9).
  split.
  - destruct H1 as [[Hti _]|[_ Hpl]]; [discriminate Hti|exact Hpl].
  - apply H9. apply list_elem_of_further, list_elem_of_here.
Defined.

(** ** From the question page to the results page *)

Section ToResults.
Context `{ResultRuntime}.

Lemma results_mount_stored (storage : gmap string string) text d :
  storage !! "quizResult" = Some text -> falsy text = false ->
  parse_result text = Some d -> json_falsy d = false ->
  numbersPresent d = true -> card_renders d = true ->
  Results.mount storage
  = Results.mkPage (Results.mkState (Some d) None true) storage None
                   (Some d) [] [].
Proof.
  intros Hs Hf Hp Hd Hn Hc.
  unfold Results.mount, Results.loadResult, Results.rerender, Results.render,
    Results.celebration. simpl.
  rewrite Hs, Hf, Hp. simpl. by rewrite Hd, Hn, Hc.
Qed.

Lemma results_mount_empty (storage : gmap string string) :
  storage !! "quizResult" = None ->
  Results.mount storage
  = Results.mkPage (Results.mkState None None false) storage
                   (Some "/dashboard") None [] [].
Proof.
  intros Hs.
  unfold Results.mount, Results.loadResult, Results.rerender, Results.render,
    Results.celebration. simpl.
  by rewrite Hs.
Qed.

Lemma results_mount_storage (storage : gmap string string) :
  Results.storage (Results.mount storage) = storage.
Proof.
  unfold Results.mount, Results.rerender, Results.loadResult,
    Results.celebration, Results.render. simpl.
  destruct (storage !! "quizResult") as [text|]; [|done].
  destruct (falsy text); [done|].
  destruct (parse_result text) as [r|]; [|done]. simpl.
  destruct (json_falsy r); [done|].
  by destruct (numbersPresent r && card_renders r).
Qed.

Lemma results_leave (p : Results.Page) r b :
  Results.route p = None -> Results.thrown p = [] ->
  Results.render (Results.state p) = Results.ResultCard r ->
  Results.step (Results.Leave b) p
  = Results.navigate (Results.exitPath b) (Results.removeItem "quizResult" p).
Proof.
  intros Hr Ht Hren. unfold Results.step. by rewrite Hr, Ht, Hren.
Qed.

(** A result whose card cannot be rendered: the page throws, shows no card
    and has no button. *)
Lemma results_mount_throws (storage : gmap string string) text d :
  storage !! "quizResult" = Some text -> falsy text = false ->
  parse_result text = Some d -> json_falsy d = false ->
  numbersPresent d && card_renders d = false ->
  let r := Results.mount storage in
  Results.thrown r = ["TypeError"]
  /\ Results.timer r = None
  /\ forall e, Results.step e r = r.
Proof.
  intros Hs Hf Hp Hd Hn.
  unfold Results.mount, Results.loadResult, Results.rerender, Results.render.
  simpl. rewrite Hs, Hf, Hp. simpl. rewrite Hd, Hn. simpl.
  split; [done|]. split; [done|]. by intros [].
Qed.
End ToResults.

(** X17: from the question page to the results page and out.  When the
    pending submission is fulfilled with a result that has an [id], that
    [JSON.stringify] turns into a non-empty text and that [JSON.parse]
    reads back as that result, the question page navigates to
    [/results/<id>].  If the card can render the result (its [score],
    [focus_score] and [avg_time] are numbers and the rest of the card
    renders), the results page mounted on the storage the question page
    leaves shows the card of that result, with the celebration pending on
    its timer; the legacy pair of pages does the same, without
    celebration.  Each of the buttons that leave the results page removes
    the "quizResult" slot, so that afterwards the storage holds neither
    slot of the session, every other slot is as the question page found
    it, and opening the results page again redirects to [/dashboard].  If
    the card cannot render the result, the results page throws a
    TypeError instead: no card, no button and no celebration. *)
Theorem X17_result_is_shown_and_cleared `{ResultRuntime}
    (c : World Current.State) (l : World Legacy.State) d i :
  result_id d = Some i ->
  falsy (JSON_stringify d) = false ->
  parse_result (JSON_stringify d) = Some d ->
  json_falsy d = false ->
  (Current.status c = Submitting ->
   let c' := Current.step (Settle (Fulfilled d)) c in
   let r := Results.mount (sessionStorage c') in
   location c' = Some ("/results/" +:+ i)
   /\ (numbersPresent d && card_renders d = false ->
       Results.thrown r = ["TypeError"] /\ Results.timer r = None
       /\ (forall e, Results.step e r = r)
       /\ Results.storage r !! "quizResult" = Some (JSON_stringify d))
   /\ (numbersPresent d = true -> card_renders d = true ->
       Results.render (Results.state r) = Results.ResultCard d
       /\ Results.route r = None
       /\ Results.thrown r = []
       /\ Results.timer r = Some d
       /\ Results.storage r = sessionStorage c'
       /\ forall b,
            let r' := Results.step (Results.Leave b) r in
            Results.route r' = Some (Results.exitPath b)
            /\ Results.storage r' !! "quizResult" = None
            /\ Results.storage r' !! "currentQuiz" = None
            /\ (forall k, k <> "currentQuiz" -> k <> "quizResult" ->
                          Results.storage r' !! k = sessionStorage c !! k)
            /\ Results.route (Results.mount (Results.storage r'))
               = Some "/dashboard"))
  /\ (Legacy.status l = Submitting ->
      let l' := Legacy.step (Settle (Fulfilled d)) l in
      let r := LegacyResults.mount (sessionStorage l') in
      location l' = Some ("/results/" +:+ i)
      /\ (numbersPresent d && legacy_card_renders d = false ->
          LegacyResults.thrown r = ["TypeError"]
          /\ forall b, LegacyResults.leave b r = r)
      /\ (numbersPresent d = true -> legacy_card_renders d = true ->
          LegacyResults.render r = LegacyResults.ResultCard d
          /\ LegacyResults.route r = None
          /\ LegacyResults.thrown r = []
          /\ forall b,
               let r' := LegacyResults.leave b r in
               LegacyResults.route r' = Some (LegacyResults.exitPath b)
               /\ LegacyResults.storage r' !! "quizResult" = None
               /\ LegacyResults.storage r' !! "currentQuiz" = None
               /\ (forall k, k <> "currentQuiz" -> k <> "quizResult" ->
                             LegacyResults.storage r' !! k = sessionStorage l !! k)
               /\ LegacyResults.route (LegacyResults.mount (LegacyResults.storage r'))
                  = Some "/dashboard")).
Proof.
  intros Hi Hf Hp Hd. cbn zeta. split; intros Hst.
  - assert (Hstep : Current.step (Settle (Fulfilled d)) c
                    = navigate ("/results/" +:+ i)
                        (removeItem "currentQuiz"
                           (setItem "quizResult" (JSON_stringify d) c))).
    { unfold Current.status in Hst. unfold Current.step.
      destruct (location c); [done|].
      destruct (Current.quiz (component c)); [|done].
      destruct (Current.submitting (component c)); [|done].
      unfold Current.submitQuiz_settled. by rewrite Hi. }
    assert (Hsto : sessionStorage (Current.step (Settle (Fulfilled d)) c)
                   = delete "currentQuiz"
                       (<["quizResult" := JSON_stringify d]> (sessionStorage c)))
      by (by rewrite Hstep).
    assert (Hloc : location (Current.step (Settle (Fulfilled d)) c)
                   = Some ("/results/" +:+ i)) by (by rewrite Hstep).
    rewrite Hsto, Hloc. clear Hstep Hsto Hloc.
    assert (Hs : delete "currentQuiz"
                   (<["quizResult" := JSON_stringify d]> (sessionStorage c))
                 !! "quizResult" = Some (JSON_stringify d)).
    { rewrite lookup_delete_ne by done. apply lookup_insert_eq. }
    split; [done|]. split.
    + intros Hn.
      destruct (results_mount_throws _ _ d Hs Hf Hp Hd Hn) as (Ht & Hti & He).
      cbn zeta in *. split; [done|]. split; [done|]. split; [done|].
      by rewrite results_mount_storage.
    + intros Hn Hc.
      rewrite (results_mount_stored _ _ d Hs Hf Hp Hd Hn Hc).
      assert (Hren : Results.render (Results.mkState (Some d) None true)
                     = Results.ResultCard d).
      { unfold Results.render. simpl. by rewrite Hd, Hn, Hc. }
      split; [exact Hren|]. do 4 (split; [done|]).
      intros b. rewrite (results_leave _ d b) by done. simpl.
      split; [done|].
      split; [apply lookup_delete_eq|].
      split; [rewrite lookup_delete_ne by done; apply lookup_delete_eq|].
      split.
      * intros k Hk1 Hk2. rewrite !lookup_delete_ne by done.
        by rewrite lookup_insert_ne.
      * rewrite results_mount_empty; [done|]. apply lookup_delete_eq.
  - assert (Hstep : Legacy.step (Settle (Fulfilled d)) l
                    = navigate ("/results/" +:+ i)
                        (removeItem "currentQuiz"
                           (setItem "quizResult" (JSON_stringify d) l))).
    { unfold Legacy.status in Hst. unfold Legacy.step.
      destruct (location l); [done|].
      destruct (Legacy.quiz (component l)); [|done].
      destruct (Legacy.submitting (component l)); [|done].
      unfold Legacy.submitQuiz_settled. by rewrite Hi. }
    rewrite Hstep. simpl.
    unfold LegacyResults.mount, LegacyResults.loadResult. simpl.
    rewrite lookup_delete_ne by done. rewrite lookup_insert_eq, Hf, Hp.
    unfold LegacyResults.rerender, LegacyResults.render. simpl. rewrite Hd.
    split; [done|]. split.
    + intros Hn. rewrite Hn. simpl. split; [done|]. by intros b.
    + intros Hn Hc. rewrite Hn, Hc. simpl.
      unfold LegacyResults.render. simpl. rewrite Hd, Hn, Hc. simpl.
      do 3 (split; [done|]).
      intros b. unfold LegacyResults.leave, LegacyResults.render. simpl.
      rewrite Hd, Hn, Hc. simpl.
      split; [done|].
      split; [apply lookup_delete_eq|].
      split; [rewrite lookup_delete_ne by done; apply lookup_delete_eq|].
      split.
      * intros k Hk1 Hk2. rewrite !lookup_delete_ne by done.
        by rewrite lookup_insert_ne.
      * unfold LegacyResults.rerender, LegacyResults.render. simpl.
        by rewrite lookup_delete_eq.
Qed.

Lemma X17_result_is_shown_and_cleared_witness :
  let c := Current.run (H := sampleRuntime) [Change "42"; Submit 1100 1100]
             sampleSession in
  let c' := Current.step (H := sampleRuntime)
              (Settle (Fulfilled (Some "r9" : @json sampleRuntime))) c in
  let r := Results.mount (H0 := sampleResults) (sessionStorage c') in
  location c' = Some "/results/r9"
  /\ Results.render (H0 := sampleResults) (Results.state r)
     = Results.ResultCard (Some "r9" : @json sampleRuntime)
  /\ Results.route r = None.
Proof.
  pose proof (@X17_result_is_shown_and_cleared sampleRuntime sampleResults
                (Current.run (H := sampleRuntime)
                   [Change "42"; Submit 1100 1100] sampleSession)
                (Legacy.run (H := sampleRuntime)
                   [Change "42"; Submit 1100 1100] sampleLegacySession)
                (Some "r9" : @json sampleRuntime) "r9"
                eq_refl eq_refl eq_refl eq_refl) as Hx.
  cbn zeta in Hx. destruct Hx as [Hx _].
  destruct (Hx eq_refl) as (H1 & _ & H3).
  destruct (H3 eq_refl eq_refl) as (H4 & H5 & _).
  split; [exact H1|]. split; [exact H4|exact H5].
Defined.

(** ** The route table and the sign-in state *)

Section SignIn.
Context `{ResultRuntime}.

(** Two rounds of redirections end on a page: a page that the sign-in
    state allows. *)
Lemma app_follow_page a r :
  exists p, App.element a (App.follow 2 a r) = App.Page p
    /\ (a = false -> p = App.LandingPage \/ p = App.AuthPage)
    /\ (a = true -> p <> App.AuthPage)
    /\ (forall q, App.element a r = App.Page q -> App.follow 2 a r = r /\ p = q).
Proof.
  destruct a, r; simpl; eexists; (split; [reflexivity|]);
    (split; [intros; first [done|by left|by right]|]);
    (split; [done|]); intros q Hq; try done; by injection Hq as <-.
Qed.

Lemma app_rerender_inv (b : App.Browser) :
  signedInv b -> appInv (App.rerender b).
Proof.
  intros Hs Ht.
  split; [exact Hs|].
  destruct (app_follow_page (App.isAuthenticated (App.state b)) (App.location b))
    as (p & Hp & Hf & Ht' & _).
  exists p. unfold App.shown. simpl in *. rewrite Ht. simpl. by rewrite Hp.
Qed.

Lemma app_restore_signed (b : App.Browser) :
  App.thrown b = [] -> App.state b = App.mkState false None ->
  App.thrown (App.restoreSession b) = [] ->
  signedInv (App.restoreSession b).
Proof.
  unfold App.restoreSession, signedInv, truthy. intros Ht Hst.
  destruct (App.localStorage b !! "token") as [token|] eqn:Htok;
    [|by rewrite Hst].
  destruct (falsy token); [by rewrite Hst|].
  destruct (App.localStorage b !! "user") as [text|] eqn:Hu; [|by rewrite Hst].
  destruct (falsy text); [by rewrite Hst|].
  destruct (parse_result text); simpl.
  - intros _. rewrite Htok, Hu. by repeat split.
  - rewrite Ht. done.
Qed.

Lemma app_mount_inv storage r : appInv (App.mount storage r).
Proof.
  unfold App.mount. intros Ht.
  apply app_rerender_inv; [|done].
  apply app_restore_signed; try done.
Qed.

Lemma app_step_inv e (b : App.Browser) : appInv b -> appInv (App.step e b).
Proof.
  intros Hinv. unfold App.step.
  destruct e as [token userData| |r|r|];
    [| | |apply app_mount_inv|apply app_mount_inv];
    (destruct (App.thrown b) eqn:Ht; [|by intros Ht'; rewrite Ht in Ht']);
    destruct (Hinv Ht) as [Hs _].
  - apply app_rerender_inv. unfold signedInv. simpl. split; [|split; [|done]].
    + rewrite lookup_insert_ne by done. by rewrite lookup_insert_eq.
    + by rewrite lookup_insert_eq.
  - by apply app_rerender_inv.
  - by apply app_rerender_inv.
Qed.

Lemma app_run_inv es : forall b : App.Browser,
  appInv b -> appInv (App.run es b).
Proof.
  unfold App.run. induction es as [|e es IH]; intros b Hinv; [done|].
  simpl. by apply IH, app_step_inv.
Qed.

(** Where a freshly loaded document ends. *)
Lemma app_mount_landing storage r :
  let b := App.mount storage r in
  App.thrown b = [] ->
  App.shown b = Some (landing (App.isAuthenticated (App.state b)) r).
Proof.
  cbn zeta. unfold App.mount, App.restoreSession, App.shown. simpl.
  destruct (truthy (storage !! "token")) as [token|].
  2:{ intros _. by destruct r. }
  destruct (truthy (storage !! "user")) as [text|].
  2:{ intros _. by destruct r. }
  destruct (parse_result text); simpl; [|done].
  intros _. by destruct r.
Qed.

Lemma app_logout_reload (b : App.Browser) :
  App.thrown b = [] ->
  let b' := App.step App.Reload (App.step App.Logout b) in
  App.isAuthenticated (App.state b') = false
  /\ App.thrown b' = []
  /\ App.localStorage b' !! "token" = None
  /\ App.localStorage b' !! "user" = None.
Proof.
  intros Ht.
  assert (Htok : delete "user" (delete "token" (App.localStorage b)) !! "token"
                 = None).
  { rewrite lookup_delete_ne by done. apply lookup_delete_eq. }
  assert (Hb : App.step App.Logout b
               = App.rerender (App.handleLogout b)).
  { unfold App.step. by rewrite Ht. }
  cbn zeta. rewrite Hb. unfold App.step. simpl.
  unfold App.mount, App.restoreSession. simpl. rewrite Htok. simpl.
  split; [done|]. split; [done|]. split; [exact Htok|]. apply lookup_delete_eq.
Qed.

Lemma app_auth_reload (b : App.Browser) token u :
  App.thrown b = [] ->
  falsy token = false -> falsy (JSON_stringify u) = false ->
  parse_result (JSON_stringify u) = Some u ->
  let b' := App.step App.Reload (App.step (App.Auth token u) b) in
  App.state b' = App.mkState true (Some u) /\ App.thrown b' = [].
Proof.
  intros Ht Hf Hs Hp.
  assert (Htok : <["user" := JSON_stringify u]>
                   (<["token" := token]> (App.localStorage b)) !! "token"
                 = Some token).
  { rewrite lookup_insert_ne by done. apply lookup_insert_eq. }
  assert (Hb : App.step (App.Auth token u) b
               = App.rerender (App.handleAuth token u b)).
  { unfold App.step. by rewrite Ht. }
  cbn zeta. rewrite Hb. unfold App.step. simpl.
  unfold App.mount, App.restoreSession. simpl.
  rewrite Htok, lookup_insert_eq. simpl. by rewrite Hf, Hs, Hp.
Qed.

(** Signed in, a page reaches every route of the table but the auth
    route by navigating to it. *)
Lemma app_visit_shown (b : App.Browser) r p :
  App.thrown b = [] ->
  App.element (App.isAuthenticated (App.state b)) r = App.Page p ->
  App.shown (App.step (App.Visit r) b) = Some p.
Proof.
  intros Ht Hp. unfold App.step. rewrite Ht.
  unfold App.shown, App.rerender, App.visit. simpl. rewrite Ht.
  destruct (app_follow_page (App.isAuthenticated (App.state b)) r)
    as (p' & Hp' & _ & _ & Hq).
  destruct (Hq p Hp) as [Hr ->]. simpl in *. by rewrite Hp'.
Qed.
End SignIn.

(** X18: the route table and the sign-in state.  The first render of a
    loaded document is signed out; an effect then restores the session
    from the local storage.  Along every run of sign-ins, sign-outs,
    navigations and (re)loads, as long as no exception went uncaught: the
    application is signed in only while the local storage holds both the
    token and the user, and holds a parsed user value exactly then; the
    redirections have ended on a page; signed out, that page is the
    landing page or the auth page, so the question page and the results
    page are not on screen; signed in, it is never the auth page.  A
    document loaded at any route other than "/" ends on the auth page
    when the session is not restored and on the dashboard when it is: a
    signed-in reload of the question page goes to [/auth] and from there
    to [/dashboard]; only navigation inside the application shows the
    page of a protected route.  After a sign-out a reload stays signed out
    and both keys are gone; after a sign-in with a non-empty token and a
    user that [JSON.stringify] and [JSON.parse] give back, a reload stays
    signed in with that user. *)
Theorem X18_routes_and_sign_in `{ResultRuntime} storage r0 es r token u :
  let b := App.run es (App.mount storage r0) in
  appInv b
  /\ (let b' := App.step (App.Open r) b in
      App.thrown b' = [] ->
      App.shown b' = Some (landing (App.isAuthenticated (App.state b')) r))
  /\ (forall p, App.thrown b = [] ->
        App.element (App.isAuthenticated (App.state b)) r = App.Page p ->
        App.shown (App.step (App.Visit r) b) = Some p)
  /\ (App.thrown b = [] ->
      let b' := App.step App.Reload (App.step App.Logout b) in
      App.isAuthenticated (App.state b') = false
      /\ App.thrown b' = []
      /\ App.localStorage b' !! "token" = None
      /\ App.localStorage b' !! "user" = None)
  /\ (App.thrown b = [] ->
      falsy token = false -> falsy (JSON_stringify u) = false ->
      parse_result (JSON_stringify u) = Some u ->
      let b' := App.step App.Reload (App.step (App.Auth token u) b) in
      App.state b' = App.mkState true (Some u) /\ App.thrown b' = []).
Proof.
  cbn zeta. split; [apply app_run_inv, app_mount_inv|].
  split.
  { apply app_mount_landing. }
  split; [intros p; apply app_visit_shown|].
  split; [apply app_logout_reload|apply app_auth_reload].
Qed.

Lemma X18_routes_and_sign_in_witness :
  let b := App.run (H0 := sampleResults)
             [App.Auth "t0k" (Some "r9" : @json sampleRuntime)]
             (App.mount (H0 := sampleResults) ∅ App.AuthRoute) in
  let b' := App.step (H0 := sampleResults) (App.Open App.QuizRoute) b in
  App.shown b' = Some App.Dashboard
  /\ App.shown (App.step (H0 := sampleResults) (App.Visit App.QuizRoute) b)
     = Some App.QuizInterface.
Proof.
  pose proof (@X18_routes_and_sign_in sampleRuntime sampleResults ∅ App.AuthRoute
                [App.Auth "t0k" (Some "r9" : @json sampleRuntime)]
                App.QuizRoute "t0k" (Some "r9" : @json sampleRuntime)) as Hx.
  cbn zeta in Hx. destruct Hx as (_ & Hopen & Hvisit & _).
  split.
  - apply Hopen; reflexivity.
  - apply Hvisit; reflexivity.
Defined.

(** ** The dark mode toggle *)

Section Theme.
Import DarkModeToggle.

Lemma classList_add (cl : gset string) :
  ("dark" ∈ ({["dark"]} ∪ cl : gset string) <-> true = true)
  /\ (forall c, c <> "dark" -> c ∈ ({["dark"]} ∪ cl : gset string) <-> c ∈ cl).
Proof.
  split.
  - split; [done|]. intros _. by apply elem_of_union_l, elem_of_singleton.
  - intros c Hne. rewrite elem_of_union, elem_of_singleton.
    split; [by intros [?|?]|by right].
Qed.

Lemma classList_remove (cl : gset string) :
  ("dark" ∈ cl ∖ {["dark"]} <-> false = true)
  /\ (forall c, c <> "dark" -> c ∈ cl ∖ {["dark"]} <-> c ∈ cl).
Proof.
  split.
  - split; [|done]. intros [_ Hn]%elem_of_difference.
    destruct Hn. by apply elem_of_singleton.
  - intros c Hne. rewrite elem_of_difference, elem_of_singleton.
    split; [by intros [? _]|by split].
Qed.

Lemma initialDark_stored prefersDark (storage : gmap string string) (d : bool) :
  storage !! "theme" = Some (if d then "dark" else "light") ->
  initialDark prefersDark storage = d.
Proof. unfold initialDark. intros ->. by destruct d. Qed.

Lemma theme_mount prefersDark (storage : gmap string string) classes :
  let b := mount prefersDark storage classes in
  dark b = initialDark prefersDark storage
  /\ localStorage b !! "theme" = Some (if dark b then "dark" else "light")
  /\ ("dark" ∈ classList b <-> dark b = true)
  /\ (forall k, k <> "theme" -> localStorage b !! k = storage !! k)
  /\ (forall c, c <> "dark" -> c ∈ classList b <-> c ∈ classes).
Proof.
  cbn zeta. unfold mount, applyTheme. simpl.
  destruct (initialDark prefersDark storage); simpl.
  - split; [done|]. split; [apply lookup_insert_eq|].
    split; [apply classList_add|].
    split; [intros k Hk; by rewrite lookup_insert_ne|apply classList_add].
  - split; [done|]. split; [apply lookup_insert_eq|].
    split; [apply classList_remove|].
    split; [intros k Hk; by rewrite lookup_insert_ne|apply classList_remove].
Qed.

Lemma theme_step e (b : Browser) :
  localStorage b !! "theme" = Some (if dark b then "dark" else "light") ->
  let b' := step e b in
  dark b' = match e with Toggle => negb (dark b) | Remount _ => dark b end
  /\ localStorage b' !! "theme" = Some (if dark b' then "dark" else "light")
  /\ ("dark" ∈ classList b' <-> dark b' = true)
  /\ (forall k, k <> "theme" -> localStorage b' !! k = localStorage b !! k)
  /\ (forall c, c <> "dark" -> c ∈ classList b' <-> c ∈ classList b).
Proof.
  intros Hth. destruct e as [|prefersDark]; cbn zeta; unfold step.
  - unfold toggle, applyTheme. simpl. destruct (dark b); simpl.
    + split; [done|]. split; [apply lookup_insert_eq|].
      split; [apply classList_remove|].
      split; [intros k Hk; by rewrite lookup_insert_ne|apply classList_remove].
    + split; [done|]. split; [apply lookup_insert_eq|].
      split; [apply classList_add|].
      split; [intros k Hk; by rewrite lookup_insert_ne|apply classList_add].
  - destruct (theme_mount prefersDark (localStorage b) (classList b))
      as (Hd & Ht & Hc & Hk & Hcl). cbn zeta in *.
    rewrite (initialDark_stored _ _ _ Hth) in Hd.
    split; [done|]. done.
Qed.

Lemma theme_run es : forall b : Browser,
  localStorage b !! "theme" = Some (if dark b then "dark" else "light") ->
  let b' := run es b in
  dark b' = (if Nat.even (toggles es) then dark b else negb (dark b))
  /\ localStorage b' !! "theme" = Some (if dark b' then "dark" else "light")
  /\ (forall k, k <> "theme" -> localStorage b' !! k = localStorage b !! k)
  /\ (forall c, c <> "dark" -> c ∈ classList b' <-> c ∈ classList b).
Proof.
  unfold run. induction es as [|e es IH]; intros b Hth; simpl.
  { done. }
  destruct (theme_step e b Hth) as (Hd & Ht & _ & Hk & Hcl). cbn zeta in *.
  destruct (IH _ Ht) as (Hd' & Ht' & Hk' & Hcl').
  split.
  - rewrite Hd', Hd. destruct e as [|prefersDark]; [|done].
    rewrite Nat.even_succ, <- Nat.negb_even.
    destruct (Nat.even _), (dark b); done.
  - split; [done|]. split.
    + intros k Hne. by rewrite Hk', Hk.
    + intros c Hne. by rewrite Hcl', Hcl.
Qed.
End Theme.

(** X19: the dark mode toggle.  However the component was mounted, and
    along every run of clicks and remounts: the "theme" key of the local
    storage reads "dark" when the page is dark and "light" when it is not,
    and the root element has the class [dark] exactly when the page is
    dark; no other key and no other class is touched; the page is dark
    after the run exactly when an odd number of clicks turned the mounted
    state around, so a remount never changes the theme, whatever the
    system preference is then.  The system preference decides on a mount
    only when the "theme" key is absent or empty. *)
Theorem X19_theme_is_kept prefersDark storage classes es :
  let b0 := DarkModeToggle.mount prefersDark storage classes in
  let b := DarkModeToggle.run es b0 in
  DarkModeToggle.localStorage b !! "theme"
  = Some (if DarkModeToggle.dark b then "dark" else "light")
  /\ ("dark" ∈ DarkModeToggle.classList b <-> DarkModeToggle.dark b = true)
  /\ (forall k, k <> "theme" -> DarkModeToggle.localStorage b !! k = storage !! k)
  /\ (forall c, c <> "dark" -> c ∈ DarkModeToggle.classList b <-> c ∈ classes)
  /\ DarkModeToggle.dark b
     = (if Nat.even (toggles es) then DarkModeToggle.dark b0
        else negb (DarkModeToggle.dark b0))
  /\ (DarkModeToggle.dark b0
      = match storage !! "theme" with
        | Some theme => if falsy theme then prefersDark else String.eqb theme "dark"
        | None => prefersDark
        end).
Proof.
  cbn zeta.
  destruct (theme_mount prefersDark storage classes) as (Hd & Ht & Hc & Hk & Hcl).
  cbn zeta in *.
  destruct (theme_run es _ Ht) as (Hd' & Ht' & Hk' & Hcl'). cbn zeta in *.
  split; [done|]. split.
  { destruct es as [|e es] using rev_ind; [done|].
    unfold DarkModeToggle.run. rewrite foldl_app. simpl.
    destruct (theme_run es _ Ht) as (_ & Ht2 & _). cbn zeta in Ht2.
    by destruct (theme_step e _ Ht2) as (_ & _ & Hc2 & _). }
  split; [intros k Hne; by rewrite Hk', Hk|].
  split; [intros c Hne; by rewrite Hcl', Hcl|].
  split; [done|].
  rewrite Hd. unfold DarkModeToggle.initialDark.
  destruct (storage !! "theme") as [theme|]; [|done].
  destruct theme; simpl; [done|]. by rewrite orb_false_r.
Qed.

(** ** The clock in the header *)

Section HeaderClock.
Context `{Runtime}.

Lemma current_run_startTime es : forall w : World Current.State,
  Current.startTime (component (Current.run es w)) = Current.startTime (component w).
Proof.
  unfold Current.run. induction es as [|e es IH]; intros w; [done|].
  simpl. rewrite IH.
  destruct (current_step_shape e w)
    as [ | text | b | Hloc Hne | now now' qs' cq He Hloc Hsub Hne Hqs' Hcq Hlt
       | now now' qs' cq He Hloc Hsub Hne Hqs' Hcq Hge | r He Hloc Hsub ];
    try done.
  by destruct (current_settled_frame r w) as [-> | ->].
Qed.

Lemma currentView_elapsed now (s : Current.State) v :
  currentView now s = Some v ->
  elapsed v = ((now - Current.startTime s) / 1000)%Z
  /\ is_Some (Current.quiz s).
Proof.
  unfold currentView. destruct (Current.render s) as [| |cq|]; try done.
  destruct (Current.quiz s) as [qz|]; [|done].
  destruct (questions qz); [|done]. intros [= <-]. by split.
Qed.

Lemma legacyView_elapsed now (s : Legacy.State) v :
  legacyView now s = Some v ->
  elapsed v = ((now - Legacy.startTime s) / 1000)%Z
  /\ is_Some (Legacy.quiz s).
Proof.
  unfold legacyView. destruct (Legacy.render s) as [| |cq|]; try done.
  destruct (Legacy.quiz s) as [qz|]; [|done].
  destruct (questions qz); [|done]. intros [= <-]. by split.
Qed.

(** What the clock shows bounds the recorded times. *)
Lemma elapsed_bounds_records t0 t T now (w : World Current.State) :
  (t0 <= t)%Z -> (T <= now)%Z ->
  timeBound t T w -> requests w = [] ->
  (totalTime (Current.answers (component w))
   < inject_Z ((now - t0) / 1000 + 1))%Q.
Proof.
  intros Ht HT [Hq Hb] Hreq. rewrite Hreq in Hb.
  eapply Qle_lt_trans; [exact Hb|].
  pose proof (Z.mul_succ_div_gt (now - t0) 1000 ltac:(lia)) as Hdiv.
  unfold Qlt, inject_Z. simpl. lia.
Qed.
End HeaderClock.

(** X20: the clock in the header.  [startTime] is the reading of the
    first render and no event changes it.  So, for a clock that never runs
    backwards, whenever the question card is on screen the header shows
    the whole seconds since the first render, a number that is not
    negative; and as long as no submission call was made, the
    [time_taken] of the records held add up to less than the seconds
    shown plus one.  Both copies. *)
Theorem X20_header_clock `{Runtime} qid storage t0 t1 t es now :
  let c := Current.run es (Current.mount qid storage t0 t1 t) in
  let l := Legacy.run es (Legacy.mount qid storage t0 t1 t) in
  (t0 <= t)%Z ->
  monotoneFrom t (flat_map readings es) ->
  (List.last (flat_map readings es) t <= now)%Z ->
  (forall v, currentView now (component c) = Some v ->
     elapsed v = ((now - t0) / 1000)%Z
     /\ (0 <= elapsed v)%Z
     /\ (requests c = [] ->
         (totalTime (Current.answers (component c)) < inject_Z (elapsed v + 1))%Q))
  /\ (forall v, legacyView now (component l) = Some v ->
        elapsed v = ((now - t0) / 1000)%Z
        /\ (0 <= elapsed v)%Z
        /\ (requests l = [] ->
            (totalTime (Legacy.answers (component l)) < inject_Z (elapsed v + 1))%Q)).
Proof.
  cbn zeta. intros Ht0 Hmono Hnow.
  pose proof (monotoneFrom_last_le _ _ Hmono) as HT.
  split; intros v Hv.
  - apply currentView_elapsed in Hv as [He Hq].
    rewrite current_run_startTime in He.
    rewrite current_run_quiz in Hq.
    assert (Hst : Current.startTime (component (Current.mount qid storage t0 t1 t)) = t0).
    { clear. unfold Current.mount, Current.loadQuiz, getItem. simpl.
      destruct (storage !! "currentQuiz") as [text|]; [|done].
      destruct (falsy text); [done|].
      destruct (JSON_parse text) as [| |q]; try done.
      destruct (questions q) as [qs|]; [|done].
      by destruct (length qs =? 0)%nat. }
    rewrite Hst in He. rewrite He.
    split; [done|]. split; [apply Z.div_pos; lia|].
    destruct (current_mount_cases qid storage t0 t1 t)
      as [(Hnone & _)|(qs & _ & _ & Hreq & _ & Hqst & Hans)].
    { rewrite Hnone in Hq. by destruct Hq. }
    apply (elapsed_bounds_records t0 t (List.last (flat_map readings es) t));
      [done|done|].
    apply current_run_timeBound; [done|].
    split; [lia|]. rewrite Hreq, Hans, Hqst. unfold Qle. simpl. lia.
  - apply legacyView_elapsed in Hv as [He Hq].
    rewrite legacy_run_quiz in Hq.
    destruct (legacy_mount_cases qid storage t0 t1 t)
      as (Hreq & Hans & _ & _ & [Hnone|(_ & Hqst & _)]).
    { rewrite Hnone in Hq. by destruct Hq. }
    assert (Hst : Legacy.startTime (component (Legacy.mount qid storage t0 t1 t)) = t0).
    { clear. unfold Legacy.mount, Legacy.loadQuiz, getItem. simpl.
      destruct (storage !! "currentQuiz") as [text|]; [|done].
      destruct (falsy text); [done|].
      by destruct (JSON_parse text) as [| |q]. }
    revert He. rewrite (legacy_run_remember es). simpl.
    rewrite current_run_startTime. simpl. rewrite Hst. intros ->.
    split; [done|]. split; [apply Z.div_pos; lia|].
    apply (elapsed_bounds_records t0 t (List.last (flat_map readings es) t));
      [done|done|].
    apply current_run_timeBound; [done|].
    split; simpl; [lia|]. rewrite Hreq, Hans, Hqst. unfold Qle. simpl. lia.
Qed.

Lemma X20_header_clock_witness :
  let c := Current.run (H := sampleRuntime) [ClickOption 1; Submit 1100 1200]
             twoQuestionSession in
  option_map elapsed (currentView 2500 (component c)) = Some 2%Z.
Proof.
  pose proof (@X20_header_clock sampleRuntime "7" (stored "two") 0 0 100
                [ClickOption 1; Submit 1100 1200] 2500) as Hx.
  cbn zeta in Hx.
  destruct Hx as [Hx _]; [lia|simpl; lia|simpl; lia|].
  cbn zeta.
  destruct (currentView 2500 _) as [v|] eqn:Hv.
  - simpl. f_equal. exact (proj1 (Hx v eq_refl)).
  - vm_compute in Hv. discriminate Hv.
Defined.
